(** * TrackAppointments attribution tracker: a shallow embedding

    The development follows the Python sources of the backend:

    - [backend/app/services/square_booking_service.py]: identity hashing,
      booking-value estimation and webhook signature verification;
    - [backend/app/services/real_data_service.py]: the four platform
      fetches, their fixed fallback records, the aggregation
      [get_all_platform_data] and the confidence scorer;
    - [backend/app/api/v1/endpoints/data_integration.py]: the integration
      status classification;
    - [backend/main.py]: the booking endpoint [track_booking].

    Conventions.  A Python [str] is a Rocq [string], read as the UTF-8
    bytes of the text, so that [str.encode()] is the identity on bytes;
    [str.lower], [str.upper] and [str.isdigit] are modelled on ASCII text,
    and statements that depend on them carry an [ascii_text] hypothesis.
    [hashlib.sha256] and [hmac] are the FIPS 180-4 and RFC 2104 functions,
    implemented below and checked on published test vectors.  Python
    floats are IEEE binary64 numbers: the platform fetches use Rocq's
    primitive floats, which are the same binary64 numbers; the scorer,
    the booking endpoint and the booking-value estimate are modelled over
    exact rationals [Q], which the float code approximates. *)

From Stdlib Require Import ZArith QArith Qround Qabs List String Ascii Bool.
From Stdlib Require Import Lia Lqa Floats.
Import ListNotations.

Local Open Scope Z_scope.

(* A decimal float constant denotes, as in Python, the nearest binary64
   number. *)
Set Warnings "-inexact-float".

(** ** Python strings *)

Module PyStr.

Definition code (c : ascii) : Z := Z.of_N (N_of_ascii c).

(** [s.encode()]: the UTF-8 bytes of [s]. *)
Definition encode (s : string) : list Z := map code (list_ascii_of_string s).

Definition is_upper (c : ascii) : bool := (65 <=? code c) && (code c <=? 90).
Definition is_lower (c : ascii) : bool := (97 <=? code c) && (code c <=? 122).

(** [str.isdigit] on an ASCII character. *)
Definition isdigit (c : ascii) : bool := (48 <=? code c) && (code c <=? 57).

Definition lower_char (c : ascii) : ascii :=
  if is_upper c then ascii_of_N (N_of_ascii c + 32) else c.

Definition upper_char (c : ascii) : ascii :=
  if is_lower c then ascii_of_N (N_of_ascii c - 32) else c.

Fixpoint smap (f : ascii -> ascii) (s : string) : string :=
  match s with
  | EmptyString => EmptyString
  | String c r => String (f c) (smap f r)
  end.

Fixpoint sfilter (p : ascii -> bool) (s : string) : string :=
  match s with
  | EmptyString => EmptyString
  | String c r => if p c then String c (sfilter p r) else sfilter p r
  end.

Fixpoint sforall (p : ascii -> bool) (s : string) : bool :=
  match s with
  | EmptyString => true
  | String c r => p c && sforall p r
  end.

(** [s.lower()] and [s.upper()]. *)
Definition lower (s : string) : string := smap lower_char s.
Definition upper (s : string) : string := smap upper_char s.

(** The text on which the model of [lower], [upper] and [isdigit] is
    Python's: every character is below U+0080. *)
Definition ascii_text (s : string) : bool := sforall (fun c => code c <? 128) s.

(** Python truthiness of an optional string ([None] and [''] are falsy). *)
Definition truthy (o : option string) : bool :=
  match o with
  | None | Some EmptyString => false
  | Some _ => true
  end.

End PyStr.

(** ** SHA-256 (FIPS 180-4) and HMAC (RFC 2104), as [hashlib] and [hmac] *)

Module Sha256.

Definition wmod : Z := 2 ^ 32.
Definition wadd (x y : Z) : Z := (x + y) mod wmod.
Definition rotr (n x : Z) : Z :=
  Z.lor (Z.shiftr x n) (Z.shiftl x (32 - n) mod wmod).
Definition wnot (x : Z) : Z := wmod - 1 - x.

Definition ch (x y z : Z) : Z := Z.lxor (Z.land x y) (Z.land (wnot x) z).
Definition maj (x y z : Z) : Z :=
  Z.lxor (Z.lxor (Z.land x y) (Z.land x z)) (Z.land y z).
Definition bsig0 (x : Z) : Z := Z.lxor (Z.lxor (rotr 2 x) (rotr 13 x)) (rotr 22 x).
Definition bsig1 (x : Z) : Z := Z.lxor (Z.lxor (rotr 6 x) (rotr 11 x)) (rotr 25 x).
Definition ssig0 (x : Z) : Z := Z.lxor (Z.lxor (rotr 7 x) (rotr 18 x)) (Z.shiftr x 3).
Definition ssig1 (x : Z) : Z := Z.lxor (Z.lxor (rotr 17 x) (rotr 19 x)) (Z.shiftr x 10).

(** The constants are defined as in the standard: the first 32 bits of the
    fractional parts of the square roots (initial state) and cube roots
    (round constants) of the first primes. *)
Definition is_prime (n : Z) : bool :=
  forallb (fun d => negb (n mod Z.of_nat d =? 0)) (seq 2 (Z.to_nat n - 2)).

Definition primes64 : list Z :=
  Eval vm_compute in filter is_prime (map Z.of_nat (seq 2 310)).

(** Integer cube root, one bit at a time from bit [b - 1] down. *)
Fixpoint icbrt_bits (b : nat) (n r : Z) : Z :=
  match b with
  | O => r
  | S b' =>
      let c := r + 2 ^ Z.of_nat b' in
      icbrt_bits b' n (if c * c * c <=? n then c else r)
  end.

Definition round_constants : list Z :=
  Eval vm_compute in
    map (fun p => icbrt_bits 36 (p * 2 ^ 96) 0 mod wmod) primes64.

Definition initial_state : list Z :=
  Eval vm_compute in
    map (fun p => Z.sqrt (p * 2 ^ 64) mod wmod) (firstn 8 primes64).

(** Padding: a 1 bit, zeros, and the bit length on 64 bits. *)
Fixpoint be_bytes (n : nat) (x : Z) : list Z :=
  match n with
  | O => []
  | S n' => (Z.shiftr x (8 * Z.of_nat n')) mod 256 :: be_bytes n' x
  end.

Definition pad (msg : list Z) : list Z :=
  let len := Z.of_nat (List.length msg) in
  let zeros := Z.to_nat ((55 - len) mod 64) in
  msg ++ [128] ++ repeat 0 zeros ++ be_bytes 8 (8 * len).

Fixpoint be_word (bs : list Z) (acc : Z) : Z :=
  match bs with
  | [] => acc
  | b :: r => be_word r (acc * 256 + b)
  end.

Fixpoint words_of (n : nat) (bs : list Z) : list Z :=
  match n with
  | O => []
  | S n' => be_word (firstn 4 bs) 0 :: words_of n' (skipn 4 bs)
  end.

(** Message schedule: [w] holds the words computed so far. *)
Fixpoint schedule (n : nat) (w : list Z) : list Z :=
  match n with
  | O => w
  | S n' =>
      let t := List.length w in
      let at_ (k : nat) := nth (t - k) w 0 in
      schedule n'
        (w ++ [wadd (wadd (ssig1 (at_ 2%nat)) (at_ 7%nat))
                    (wadd (ssig0 (at_ 15%nat)) (at_ 16%nat))])
  end.

Record regs := Regs { ra : Z; rb : Z; rc : Z; rd : Z; re : Z; rf : Z; rg : Z; rh : Z }.

Definition round (s : regs) (kw : Z * Z) : regs :=
  let t1 := wadd (wadd (wadd (rh s) (bsig1 (re s))) (ch (re s) (rf s) (rg s)))
                 (wadd (fst kw) (snd kw)) in
  let t2 := wadd (bsig0 (ra s)) (maj (ra s) (rb s) (rc s)) in
  Regs (wadd t1 t2) (ra s) (rb s) (rc s) (wadd (rd s) t1) (re s) (rf s) (rg s).

Definition regs_of (l : list Z) : regs :=
  Regs (nth 0 l 0) (nth 1 l 0) (nth 2 l 0) (nth 3 l 0)
       (nth 4 l 0) (nth 5 l 0) (nth 6 l 0) (nth 7 l 0).

Definition list_of (s : regs) : list Z :=
  [ra s; rb s; rc s; rd s; re s; rf s; rg s; rh s].

Definition compress (h : list Z) (block : list Z) : list Z :=
  let w := schedule 48 (words_of 16 block) in
  let s := fold_left round (combine round_constants w) (regs_of h) in
  map (fun p => wadd (fst p) (snd p)) (combine h (list_of s)).

Fixpoint blocks (n : nat) (h : list Z) (bs : list Z) : list Z :=
  match n with
  | O => h
  | S n' => blocks n' (compress h (firstn 64 bs)) (skipn 64 bs)
  end.

(** [hashlib.sha256(msg).digest()] *)
Definition digest (msg : list Z) : list Z :=
  let p := pad msg in
  flat_map (be_bytes 4) (blocks (List.length p / 64) initial_state p).

Definition hex_digit (d : Z) : ascii :=
  ascii_of_N (Z.to_N (if d <? 10 then 48 + d else 87 + d)).

Fixpoint hex (bs : list Z) : string :=
  match bs with
  | [] => EmptyString
  | b :: r => String (hex_digit (b / 16)) (String (hex_digit (b mod 16)) (hex r))
  end.

(** [hashlib.sha256(msg).hexdigest()] *)
Definition hexdigest (msg : list Z) : string := hex (digest msg).

(** [hmac.new(key, msg, hashlib.sha256).digest()] *)
Definition hmac (key msg : list Z) : list Z :=
  let k0 := if (64 <? Z.of_nat (List.length key)) then digest key else key in
  let k := k0 ++ repeat 0 (64 - List.length k0) in
  let ipad := map (Z.lxor 54) k in
  let opad := map (Z.lxor 92) k in
  digest (opad ++ digest (ipad ++ msg)).

Definition hmac_hexdigest (key msg : list Z) : string := hex (hmac key msg).

End Sha256.

(** ** The process environment ([os.getenv]) *)

Definition environ := string -> option string.

(** [os.getenv(name, default)] *)
Definition getenv_default (env : environ) (name default : string) : string :=
  match env name with
  | Some v => v
  | None => default
  end.

(** ** [square_booking_service.py] *)

Module SquareBooking.

Import PyStr.

(** A value found under ["duration_minutes"]: a number, a float NaN, or a
    value that [<=] cannot compare with an [int] ([None], a string, ...). *)
Inductive pyval :=
| VNum (q : Q)
| VNan
| VOther.

(** An element of the service segments: a dict (with the value under
    ["duration_minutes"], if the key is there), or something without
    [.get]. *)
Inductive segment :=
| SegDict (duration_minutes : option pyval)
| SegOther.

(** What ["service_details"] holds: something to iterate, or not. *)
Inductive service_details :=
| SdList (l : list segment)
| SdNotIterable.

Record customer := {
  email_address : option string;
  phone_number : option string
}.

Record booking_info := {
  bi_booking_id : string;
  bi_customer_id : option string;
  bi_customer : option customer;
  bi_service_details : service_details
}.

(** [default_prices] *)
Definition price_beard_trim : Q := 25.
Definition price_haircut : Q := 45.
Definition price_full_service : Q := 75.

(** One turn of the loop body: [None] when the body raises. *)
Definition segment_price (s : segment) : option Q :=
  match s with
  | SegOther => None
  | SegDict d =>
      match match d with Some v => v | None => VNum 60 end with
      | VNum duration =>
          Some (if Qle_bool duration 30 then price_beard_trim
                else if Qle_bool duration 60 then price_haircut
                else price_full_service)
      | VNan => Some price_full_service
      | VOther => None
      end
  end.

Fixpoint sum_segments (total_value : Q) (l : list segment) : option Q :=
  match l with
  | [] => Some total_value
  | s :: r =>
      match segment_price s with
      | Some p => sum_segments (total_value + p)%Q r
      | None => None
      end
  end.

(** Python's [max(a, b)]: [b] when [b > a], else [a]. *)
Definition py_max (a b : Q) : Q := if Qle_bool b a then a else b.

(** The body of the [try] of [_calculate_booking_value]: [None] when it
    raises. *)
Definition booking_value_try (info : booking_info) : option Q :=
  match bi_service_details info with
  | SdNotIterable => None
  | SdList l =>
      match sum_segments 0 l with
      | Some total_value => Some (py_max total_value 35)
      | None => None
      end
  end.

Definition _calculate_booking_value (info : booking_info) : Q :=
  match booking_value_try info with
  | Some v => v
  | None => 45
  end.

(** [hashlib.sha256((email.lower() + hash_salt).encode()).hexdigest()] *)
Definition email_hash (email hash_salt : string) : string :=
  Sha256.hexdigest (encode (lower email ++ hash_salt)%string).

(** [clean_phone = ''.join(filter(str.isdigit, phone))], then the hash. *)
Definition clean_phone (phone : string) : string := sfilter isdigit phone.

Definition phone_hash (phone hash_salt : string) : string :=
  Sha256.hexdigest (encode (clean_phone phone ++ hash_salt)%string).

Record identifiers := {
  id_email_hash : option string;
  id_phone_hash : option string
}.

Record attribution_data := {
  ad_event_type : string;
  ad_booking_id : string;
  ad_platform : string;
  ad_identifiers : identifiers;
  ad_booking_value : Q;
  ad_service_details : service_details
}.

(** [_process_for_attribution]. The function returns nothing; the model
    returns the attribution data it prepares ([None] when it returns
    early). *)
Definition _process_for_attribution (env : environ) (info : booking_info)
  : option attribution_data :=
  let cust := match bi_customer info with
              | Some c => c
              | None => {| email_address := None; phone_number := None |}
              end in
  let email := email_address cust in
  let phone := phone_number cust in
  if negb (truthy email) && negb (truthy phone) then None
  else
    let hash_salt := getenv_default env "HASH_SALT" "default-salt" in
    Some {| ad_event_type := "booking_created";
            ad_booking_id := bi_booking_id info;
            ad_platform := "square";
            ad_identifiers :=
              {| id_email_hash :=
                   match email with
                   | Some e => if truthy email then Some (email_hash e hash_salt) else None
                   | None => None
                   end;
                 id_phone_hash :=
                   match phone with
                   | Some p => if truthy phone then Some (phone_hash p hash_salt) else None
                   | None => None
                   end |};
            ad_booking_value := _calculate_booking_value info;
            ad_service_details := bi_service_details info |}.

(** The service object. [__init__] sets neither [client] nor
    [customers_api]; [sv_client] is [None] when the attribute is missing
    and [Some b] when it is set, with [b] its truthiness. *)
Record service := {
  sv_access_token : option string;
  sv_webhook_signature_key : option string;
  sv_client : option bool;
  sv_retrieve_customer : string -> option (option customer)
}.

(** [SquareBookingService()] *)
Definition init (env : environ) : service :=
  {| sv_access_token := env "SQUARE_ACCESS_TOKEN"%string;
     sv_webhook_signature_key := env "SQUARE_WEBHOOK_SIGNATURE_KEY"%string;
     sv_client := None;
     sv_retrieve_customer := fun _ => None |}.

(** [get_customer_details]: [None] when it raises (the missing attribute,
    or an error inside the [try], whose handler names the unimported
    [ApiException]). *)
Definition get_customer_details (svc : service) (customer_id : string)
  : option (option customer) :=
  match sv_client svc with
  | None => None
  | Some false => Some None
  | Some true => sv_retrieve_customer svc customer_id
  end.

Record webhook := {
  wh_type : option string;
  wh_id : option string;
  wh_customer_id : option string;
  wh_appointment_segments : service_details
}.

Definition handled_type (t : option string) : bool :=
  match t with
  | Some s => String.eqb s "booking.created" || String.eqb s "booking.updated"
  | None => false
  end.

(** [process_booking_webhook]: the boolean it returns, and the attribution
    data prepared on the way, if any. *)
Definition process_booking_webhook (env : environ) (svc : service) (w : webhook)
  : bool * option attribution_data :=
  if negb (handled_type (wh_type w)) then (true, None)
  else
    match wh_id w with
    | None | Some EmptyString => (false, None)
    | Some booking_id =>
        let info0 := {| bi_booking_id := booking_id;
                        bi_customer_id := wh_customer_id w;
                        bi_customer := None;
                        bi_service_details := wh_appointment_segments w |} in
        match wh_customer_id w with
        | Some cid =>
            if truthy (Some cid) then
              match get_customer_details svc cid with
              | None => (false, None)
              | Some oc =>
                  let info := {| bi_booking_id := booking_id;
                                 bi_customer_id := wh_customer_id w;
                                 bi_customer := oc;
                                 bi_service_details := wh_appointment_segments w |} in
                  (true, _process_for_attribution env info)
              end
            else (true, _process_for_attribution env info0)
        | None => (true, _process_for_attribution env info0)
        end
    end.

(** [verify_webhook_signature] *)
Definition verify_webhook_signature (svc : service) (payload signature : string)
  : bool :=
  match sv_webhook_signature_key svc with
  | None | Some EmptyString => true
  | Some key =>
      String.eqb signature (Sha256.hmac_hexdigest (encode key) (encode payload))
  end.

End SquareBooking.

(** ** Python arithmetic over exact rationals *)

Module PyQ.

Local Open Scope Q_scope.

(** Rounding to the nearest integer, ties to even. *)
Definition round_half_even (x : Q) : Z :=
  let f := Qfloor x in
  match Qcompare (x - inject_Z f) (1 # 2) with
  | Lt => f
  | Gt => (f + 1)%Z
  | Eq => if Z.even f then f else (f + 1)%Z
  end.

(** [round(x, ndigits)] *)
Definition py_round (x : Q) (ndigits : nat) : Q :=
  let scale := inject_Z (10 ^ Z.of_nat ndigits) in
  inject_Z (round_half_even (x * scale)) / scale.

(** [min(a, b)]: [b] when [b < a], else [a]. *)
Definition py_min (a b : Q) : Q := if Qle_bool a b then a else b.

(** [sum(l)] *)
Definition py_sum (l : list Q) : Q := fold_left Qplus l 0.

End PyQ.

(** ** The confidence scorer of [real_data_service.py] *)

Module Scorer.

Import PyQ.
Local Open Scope Q_scope.

(** An event dict, by the three keys the scorer reads (with [.get]'s
    defaults applied, and [cross_platform_match] by its truthiness). *)
Record event := {
  source : string;
  event_type : string;
  cross_platform_match : bool
}.

Definition string_in (s : string) (l : list string) : bool :=
  existsb (String.eqb s) l.

(** What one event adds to [high_confidence_events]. *)
Definition quality (e : event) : Q :=
  if string_in (source e) ["square_payments"; "stripe_payments"]%string
     && String.eqb (event_type e) "conversion"
  then 1
  else if string_in (source e) ["facebook_ads"; "google_ads"]%string
          && String.eqb (event_type e) "ad_click"
  then 8 # 10
  else 0.



(** The loop: the two counters after the events seen so far. *)
Definition count_event (acc : Q * Z) (e : event) : Q * Z :=
  (fst acc + quality e,
   if cross_platform_match e then (snd acc + 1)%Z else snd acc).

Definition count_events (events : list event) : Q * Z :=
  fold_left count_event events (0, 0%Z).

Inductive confidence_result :=
| NoEvents (confidence : Q)
| Scored (confidence : Q) (total_events : Z)
         (high_confidence_events : Q) (cross_platform_matches : Z).

(** [final_confidence], before the last rounding. *)
Definition final_confidence (events : list event) : Q :=
  let total_events := inject_Z (Z.of_nat (List.length events)) in
  let '(high_confidence_events, cross_platform_matches) := count_events events in
  let base_confidence := (high_confidence_events / total_events) * 100 in
  let cross_platform_bonus :=
    py_min ((inject_Z cross_platform_matches / total_events) * 10) 15 in
  py_min (base_confidence + cross_platform_bonus) (985 # 10).

(** [calculate_attribution_confidence]. On a list of dicts the body of
    the [try] does not raise, so the handler's 85.0 is never returned. *)
Definition calculate_attribution_confidence (events : list event)
  : confidence_result :=
  match events with
  | [] => NoEvents 0
  | _ =>
      Scored (py_round (final_confidence events) 1)
             (Z.of_nat (List.length events))
             (fst (count_events events)) (snd (count_events events))
  end.

Definition confidence (r : confidence_result) : Q :=
  match r with
  | NoEvents c => c
  | Scored c _ _ _ => c
  end.

End Scorer.

(** ** The booking endpoint of [main.py] *)

Module Main.

Import PyQ.

(** *** The [random] module: the outcomes of the calls, in order *)

Inductive draw :=
| DInt (z : Z)
| DReal (q : Q).

Definition tape := list draw.

(** A computation that draws: [None] when the tape does not hold an
    outcome the call can produce. *)
Definition Rand (A : Type) : Type := tape -> option (A * tape).

Definition ret {A} (a : A) : Rand A := fun t => Some (a, t).

Definition bind {A B} (m : Rand A) (k : A -> Rand B) : Rand B :=
  fun t => match m t with
           | Some (a, t') => k a t'
           | None => None
           end.

Notation "x <- m ;; k" := (bind m (fun x => k))
  (at level 61, m at next level, right associativity).

(** [random.randint(a, b)]: an integer in [a..b]. *)
Definition randint (a b : Z) : Rand Z :=
  fun t => match t with
           | DInt z :: r => if (a <=? z)%Z && (z <=? b)%Z then Some (z, r) else None
           | _ => None
           end.

(** [random.choice(seq)] *)
Definition choice {A} (l : list A) : Rand A :=
  fun t => match t with
           | DInt i :: r =>
               if (0 <=? i)%Z then
                 match nth_error l (Z.to_nat i) with
                 | Some a => Some (a, r)
                 | None => None
                 end
               else None
           | _ => None
           end.

(** [random.uniform(a, b)]: a number between [a] and [b]. *)
Definition uniform (a b : Q) : Rand Q :=
  fun t => match t with
           | DReal q :: r => if Qle_bool a q && Qle_bool q b then Some (q, r) else None
           | _ => None
           end.

(** *** The in-memory stores of the application *)

Record app_state := {
  cache : list (string * string);
  cache_ttl : list (string * Q);
  rate_limit_store : list (string * list Q)
}.

(** *** Requests and responses *)

Record BookingRequest := {
  business_id : string;
  booking_id : string;
  user_identifier : string;
  service_type : string;
  booking_value : Q;
  timestamp : option Z;
  platform : string
}.

(** A matched touchpoint; the timestamp is in seconds. *)
Record touchpoint := {
  tp_source : string;
  tp_timestamp : Z;
  attribution_weight : Q
}.

Record booking_response := {
  br_booking_tracking_id : Z;
  br_booking_id : string;
  br_attribution_status : string;
  br_attribution_score : Q;
  br_booking_value : Q;
  br_platform : string;
  matched_touchpoints : list touchpoint;
  br_model_used : string;
  br_confidence_level : string;
  br_processing_time_ms : Q;
  br_recovered_attribution : Q;
  br_attribution_recovery : Q;
  br_recovered_spend_efficiency : Q
}.

Inductive http_result (A : Type) :=
| Ok (a : A)
| HTTPException (status_code : Z) (detail : string).
Arguments Ok {A} a.
Arguments HTTPException {A} status_code detail.

Definition sources : list string := ["facebook_ads"; "google_ads"; "organic"; "direct"]%string.

(** The loop that fabricates the touchpoints, [n] turns. *)
Fixpoint simulate_touchpoints (now : Z) (n : nat) (touchpoints : list touchpoint)
  : Rand (list touchpoint) :=
  match n with
  | O => ret touchpoints
  | S n' =>
      src <- choice sources ;;
      hours <- randint 1 168 ;;
      w <- uniform (1 # 10) (4 # 10) ;;
      simulate_touchpoints now n'
        (touchpoints ++ [{| tp_source := src;
                            tp_timestamp := (now - hours * 3600)%Z;
                            attribution_weight := py_round w 2 |}])
  end.

(** "Normalize weights to sum to 1.0" *)
Definition normalize_weights (touchpoints : list touchpoint) : list touchpoint :=
  let total_weight := py_sum (map attribution_weight touchpoints) in
  map (fun tp => {| tp_source := tp_source tp;
                    tp_timestamp := tp_timestamp tp;
                    attribution_weight :=
                      py_round (attribution_weight tp / total_weight) 3 |})
      touchpoints.

(** [track_booking]. [now] is the clock; the state is the application's
    stores, which the handler neither reads nor writes. The formatted
    strings of the response are kept as the numbers they print. *)
Definition track_booking (st : app_state) (now : Z) (request : BookingRequest)
  : Rand (http_result booking_response * app_state) :=
  if Qle_bool (booking_value request) 0 then
    ret (HTTPException 400 "Booking value must be greater than 0", st)
  else
    num_touchpoints <- randint 1 4 ;;
    touchpoints <- simulate_touchpoints now (Z.to_nat num_touchpoints) [] ;;
    let touchpoints := normalize_weights touchpoints in
    attribution_score <- uniform 85 (975 # 10) ;;
    processing_time <- uniform 45 120 ;;
    ret (Ok {| br_booking_tracking_id := now;
               br_booking_id := booking_id request;
               br_attribution_status :=
                 if Qle_bool attribution_score 80 then "partial" else "matched";
               br_attribution_score := py_round attribution_score 1;
               br_booking_value := booking_value request;
               br_platform := platform request;
               matched_touchpoints := touchpoints;
               br_model_used := "ml-enhanced";
               br_confidence_level :=
                 if Qle_bool attribution_score 90 then "medium" else "high";
               br_processing_time_ms := py_round processing_time 1;
               br_recovered_attribution :=
                 py_round (booking_value request * (attribution_score / 100)) 2;
               br_attribution_recovery := py_round (attribution_score - 45) 1;
               br_recovered_spend_efficiency :=
                 py_round (booking_value request * (28 # 100)) 2 |},
         st).

(** The weights of a response, in order. *)
Definition weights (r : booking_response) : list Q :=
  map attribution_weight (matched_touchpoints r).

(** The response of a run that returned one, and its weights. *)
Definition response_of (run : option (http_result booking_response * app_state * tape))
  : option booking_response :=
  match run with
  | Some (Ok r, _, _) => Some r
  | _ => None
  end.

Definition run_weights (run : option (http_result booking_response * app_state * tape))
  : option (list Q) :=
  option_map weights (response_of run).

(** [abs(sum(weights) - 1.0) <= 1e-6] *)
Definition sums_to_one (ws : list Q) : bool :=
  Qle_bool (Qabs (py_sum ws - 1)) (1 # 1000000).

(** A request as the endpoint receives it, and the stores at start-up. *)
Definition demo_request (value : Q) : BookingRequest :=
  {| business_id := "business-0001"; booking_id := "bk-42";
     user_identifier := "u-7"; service_type := "haircut";
     booking_value := value; timestamp := None; platform := "square" |}.

Definition empty_state : app_state :=
  {| cache := []; cache_ttl := []; rate_limit_store := [] |}.

End Main.

(** ** Python arithmetic over binary64 floats *)

Module PyFloat.

(** [float(z)] for an integer [z]: the nearest binary64 number (an
    infinity when [z] is out of range). *)
Definition of_Z (z : Z) : float := SF2Prim (binary_normalize 53 1024 z 0 false).

Definition is_finite (f : float) : bool :=
  match Prim2SF f with
  | S754_zero _ | S754_finite _ _ _ => true
  | _ => false
  end.

(** The exact value of a finite float. *)
Definition to_Q (f : float) : Q :=
  match Prim2SF f with
  | S754_finite s m e =>
      let v := if (0 <=? e) then inject_Z (Z.pos m * 2 ^ e)
               else (Z.pos m # Pos.pow 2 (Z.to_pos (- e))) in
      if s then Qopp v else v
  | _ => 0%Q
  end.

(** [int(f)]: truncation toward zero; raises on NaN and infinities. *)
Definition trunc (f : float) : option Z :=
  if is_finite f then Some (Qfloor (Qabs (to_Q f)) * (if Qle_bool 0 (to_Q f) then 1 else -1))
  else None.

(** [round(f, ndigits)]: the float nearest to the decimal rounding of the
    exact value of [f]. *)
Definition py_round (f : float) (ndigits : nat) : float :=
  if is_finite f then
    let scale := 10 ^ Z.of_nat ndigits in
    PrimFloat.div (of_Z (PyQ.round_half_even (to_Q f * inject_Z scale)%Q)) (of_Z scale)
  else f.

(** A Python number: an [int] or a [float]. *)
Inductive pynum :=
| PInt (z : Z)
| PFloat (f : float).

(** [float(n)] of a number; an [int] out of range raises. *)
Definition to_float (n : pynum) : option float :=
  match n with
  | PInt z => if is_finite (of_Z z) then Some (of_Z z) else None
  | PFloat f => Some f
  end.

(** [a + b] with a float on the right. *)
Definition add_float (a : pynum) (b : float) : option pynum :=
  match to_float a with
  | Some x => Some (PFloat (PrimFloat.add x b))
  | None => None
  end.

(** [n > 0] *)
Definition gt0 (n : pynum) : bool :=
  match n with
  | PInt z => 0 <? z
  | PFloat f => PrimFloat.ltb 0%float f
  end.

(** A number as it comes out of a JSON document, seen through [float()]
    and [int()]: a JSON integer or real, a string that holds an integer or
    a decimal literal, or anything else ([None], a list, other text). *)
Inductive json_num :=
| JInt (z : Z)
| JReal (f : float)
| JStrInt (z : Z)
| JStrReal (f : float)
| JBad.

(** [float(x)]; [None] when it raises. *)
Definition py_float (x : json_num) : option float :=
  match x with
  | JInt z => to_float (PInt z)
  | JReal f => Some f
  | JStrInt z => Some (of_Z z)
  | JStrReal f => Some f
  | JBad => None
  end.

(** [int(x)]; [None] when it raises. *)
Definition py_int (x : json_num) : option Z :=
  match x with
  | JInt z => Some z
  | JReal f => trunc f
  | JStrInt z => Some z
  | JStrReal _ => None
  | JBad => None
  end.

(** [d.get(key, 0)] *)
Definition get0 (o : option json_num) : json_num :=
  match o with
  | Some v => v
  | None => JInt 0
  end.

(** [d.get(key, default)] on strings. *)
Definition get_str (o : option string) (default : string) : string :=
  match o with
  | Some v => v
  | None => default
  end.

End PyFloat.

(** ** The platform fetches of [real_data_service.py] *)

Module RealData.

Import PyFloat.

(** *** The records the service returns *)

Record campaign := {
  c_name : string;
  c_spend : float;
  c_clicks : Z;
  c_conversions : Z;
  c_cost_per_conversion : pynum;
  c_platform : string
}.

Record transaction := {
  t_id : option string;
  t_amount : float;
  t_status : option string;
  t_created_at : option string;
  t_source_type : option string
}.

Record charge := {
  ch_id : option string;
  ch_amount : float;
  ch_status : option string;
  ch_created : option Z;
  ch_currency : option string
}.

(** The list under ['campaigns'], ['transactions'] or ['charges']. *)
Inductive items :=
| Campaigns (l : list campaign)
| Transactions (l : list transaction)
| Charges (l : list charge).

(** The ['summary'] dict. Its first three keys are named by the platform:
    [total_spend], [total_conversions], [average_cost_per_conversion] for
    the two ad platforms; [total_revenue], [total_transactions],
    [average_transaction_value] for Square; [total_revenue],
    [total_charges], [average_charge_amount] for Stripe. *)
Record summary := {
  sm_total : float;
  sm_count : pynum;
  sm_average : pynum;
  attribution_confidence : float
}.

Record platform_record := {
  status : string;
  source : string;
  pr_items : items;
  pr_summary : summary;
  last_updated : string;
  note : option string
}.

(** *** The fixed fallback records; [now] is [datetime.utcnow().isoformat()] *)

Definition fallback_note : option string :=
  Some "Using fallback data - API unavailable"%string.

Definition _get_fallback_facebook_data (now : string) : platform_record :=
  {| status := "fallback"; source := "facebook_ads";
     pr_items := Campaigns
       [{| c_name := "Facebook Lead Generation Q4"; c_spend := 1847.32%float;
           c_clicks := 234; c_conversions := 23;
           c_cost_per_conversion := PFloat 80.32%float;
           c_platform := "Facebook Ads" |}];
     pr_summary := {| sm_total := 1847.32%float; sm_count := PInt 23;
                      sm_average := PFloat 80.32%float;
                      attribution_confidence := 92.5%float |};
     last_updated := now; note := fallback_note |}.

Definition _get_fallback_google_data (now : string) : platform_record :=
  {| status := "fallback"; source := "google_ads";
     pr_items := Campaigns
       [{| c_name := "Google Search - Appointments Near Me"; c_spend := 1342.15%float;
           c_clicks := 189; c_conversions := 31;
           c_cost_per_conversion := PFloat 43.29%float;
           c_platform := "Google Ads" |}];
     pr_summary := {| sm_total := 1342.15%float; sm_count := PInt 31;
                      sm_average := PFloat 43.29%float;
                      attribution_confidence := 89.3%float |};
     last_updated := now; note := fallback_note |}.

Definition demo_txn (id : string) (amount : float) : transaction :=
  {| t_id := Some id; t_amount := amount; t_status := Some "COMPLETED"%string;
     t_created_at := None; t_source_type := None |}.

Definition _get_fallback_square_data (now : string) : platform_record :=
  {| status := "fallback"; source := "square_payments";
     pr_items := Transactions
       [demo_txn "demo-txn-001" 85.00%float; demo_txn "demo-txn-002" 120.00%float;
        demo_txn "demo-txn-003" 95.50%float];
     pr_summary := {| sm_total := 300.50%float; sm_count := PInt 3;
                      sm_average := PFloat 100.17%float;
                      attribution_confidence := 96.8%float |};
     last_updated := now; note := fallback_note |}.

Definition demo_charge (id : string) (amount : float) : charge :=
  {| ch_id := Some id; ch_amount := amount; ch_status := Some "succeeded"%string;
     ch_created := None; ch_currency := None |}.

Definition _get_fallback_stripe_data (now : string) : platform_record :=
  {| status := "fallback"; source := "stripe_payments";
     pr_items := Charges
       [demo_charge "ch_demo_001" 75.00%float; demo_charge "ch_demo_002" 150.00%float];
     pr_summary := {| sm_total := 225.00%float; sm_count := PInt 2;
                      sm_average := PFloat 112.50%float;
                      attribution_confidence := 95.2%float |};
     last_updated := now; note := fallback_note |}.

(** *** The network *)

(** What an HTTP call gives: the call raises (no connection, timeout),
    or a response with a status and, when [response.json()] succeeds, a
    parsed body. *)
Inductive http_outcome (B : Type) :=
| Raised
| Response (status_code : Z) (body : option B).
Arguments Raised {B}.
Arguments Response {B} status_code body.

(** The calls made, as (platform endpoint, token). *)
Inductive net_call :=
| GetFacebookInsights (access_token ad_account_id : string)
| PostGoogleAdsSearch (access_token customer_id : string)
| GetSquarePayments (access_token location_id : string)
| GetStripeCharges (access_token : string).

(** [x / n if n > 0 else 0] *)
Definition average (total : float) (count : pynum) : option pynum :=
  if gt0 count then
    match to_float count with
    | Some c => Some (PFloat (PrimFloat.div total c))
    | None => None
    end
  else Some (PInt 0).

(** *** Facebook *)

Record fb_action := {
  fa_action_type : option string;
  fa_value : option json_num
}.

Record fb_campaign := {
  fb_campaign_name : option string;
  fb_spend : option json_num;
  fb_clicks : option json_num;
  fb_actions : list fb_action
}.

Definition conversion_action (a : fb_action) : bool :=
  match fa_action_type a with
  | Some t => existsb (String.eqb t) ["purchase"; "lead"; "complete_registration"]%string
  | None => false
  end.

Fixpoint fb_conversions (conversions : Z) (actions : list fb_action) : option Z :=
  match actions with
  | [] => Some conversions
  | a :: r =>
      if conversion_action a then
        match py_int (get0 (fa_value a)) with
        | Some v => fb_conversions (conversions + v) r
        | None => None
        end
      else fb_conversions conversions r
  end.

(** The accumulators of the processing loops. *)
Record acc (I : Type) := {
  acc_items : list I;
  acc_total : float;
  acc_count : pynum
}.
Arguments acc_items {I} a.
Arguments acc_total {I} a.
Arguments acc_count {I} a.

Definition acc0 {I} : acc I :=
  {| acc_items := []; acc_total := 0%float; acc_count := PInt 0 |}.

Definition add_int (a : pynum) (z : Z) : option pynum :=
  match a with
  | PInt x => Some (PInt (x + z))
  | PFloat f =>
      match to_float (PInt z) with
      | Some g => Some (PFloat (PrimFloat.add f g))
      | None => None
      end
  end.

Definition fb_step (a : acc campaign) (c : fb_campaign) : option (acc campaign) :=
  match py_float (get0 (fb_spend c)) with
  | None => None
  | Some spend =>
  match py_int (get0 (fb_clicks c)) with
  | None => None
  | Some clicks =>
  match fb_conversions 0 (fb_actions c) with
  | None => None
  | Some conversions =>
  match average spend (PInt conversions), add_int (acc_count a) conversions with
  | Some cpc, Some count =>
      Some {| acc_items := acc_items a ++
                [{| c_name := get_str (fb_campaign_name c) "Unknown Campaign";
                    c_spend := spend; c_clicks := clicks;
                    c_conversions := conversions;
                    c_cost_per_conversion := cpc;
                    c_platform := "Facebook Ads" |}];
              acc_total := PrimFloat.add (acc_total a) spend;
              acc_count := count |}
  | _, _ => None
  end end end end.

(** A [for] loop whose body may raise. *)
Fixpoint loop {A I} (step : A -> I -> option A) (a : A) (l : list I) : option A :=
  match l with
  | [] => Some a
  | x :: r =>
      match step a x with
      | Some a' => loop step a' r
      | None => None
      end
  end.

Definition success (src : string) (its : items) (total : float) (count : pynum)
  (conf : float) (now : string) : option platform_record :=
  match average total count with
  | Some avg =>
      Some {| status := "success"; source := src; pr_items := its;
              pr_summary := {| sm_total := total; sm_count := count;
                               sm_average := avg;
                               attribution_confidence := conf |};
              last_updated := now; note := None |}
  | None => None
  end.

(** The processing of a 200 response: [None] when it raises. *)
Definition fb_process (now : string) (data : list fb_campaign) : option platform_record :=
  match loop fb_step acc0 data with
  | Some a =>
      success "facebook_ads" (Campaigns (acc_items a)) (acc_total a) (acc_count a)
              92.5%float now
  | None => None
  end.

(** The shape shared by the four fetches: the [try] raises when there is
    no session; otherwise one call is made, and anything but a processed
    200 response gives the fallback. *)
Definition fetch {B} (session : bool) (call : net_call) (answer : http_outcome B)
  (process : B -> option platform_record) (fallback : platform_record)
  : platform_record * list net_call :=
  if negb session then (fallback, [])
  else
    match answer with
    | Raised => (fallback, [call])
    | Response st body =>
        if st =? 200 then
          match body with
          | Some data =>
              match process data with
              | Some r => (r, [call])
              | None => (fallback, [call])
              end
          | None => (fallback, [call])
          end
        else (fallback, [call])
    end.

Definition fetch_facebook_conversions (session : bool) (now : string)
  (answer : http_outcome (list fb_campaign)) (access_token ad_account_id : string)
  : platform_record * list net_call :=
  fetch session (GetFacebookInsights access_token ad_account_id) answer
        (fb_process now) (_get_fallback_facebook_data now).

(** *** Google Ads *)

Record g_result := {
  g_campaign_name : option string;
  g_costMicros : option json_num;
  g_clicks : option json_num;
  g_conversions : option json_num
}.

(** [float(metrics.get('costMicros', 0)) / 1_000_000] *)
Definition micros_to_dollars (x : json_num) : option float :=
  match py_float x with
  | Some f => Some (PrimFloat.div f 1000000%float)
  | None => None
  end.

Definition g_step (a : acc campaign) (r : g_result) : option (acc campaign) :=
  match micros_to_dollars (get0 (g_costMicros r)) with
  | None => None
  | Some spend =>
  match py_int (get0 (g_clicks r)) with
  | None => None
  | Some clicks =>
  match py_float (get0 (g_conversions r)) with
  | None => None
  | Some conversions =>
  match trunc conversions, average spend (PFloat conversions),
        add_float (acc_count a) conversions with
  | Some iconv, Some cpc, Some count =>
      Some {| acc_items := acc_items a ++
                [{| c_name := get_str (g_campaign_name r) "Unknown Campaign";
                    c_spend := spend; c_clicks := clicks;
                    c_conversions := iconv;
                    c_cost_per_conversion := cpc;
                    c_platform := "Google Ads" |}];
              acc_total := PrimFloat.add (acc_total a) spend;
              acc_count := count |}
  | _, _, _ => None
  end end end end.

Definition g_process (now : string) (data : list g_result) : option platform_record :=
  match loop g_step acc0 data with
  | Some a =>
      success "google_ads" (Campaigns (acc_items a)) (acc_total a) (acc_count a)
              89.3%float now
  | None => None
  end.

Definition fetch_google_ads_data (session : bool) (now : string)
  (answer : http_outcome (list g_result)) (access_token customer_id : string)
  : platform_record * list net_call :=
  fetch session (PostGoogleAdsSearch access_token customer_id) answer
        (g_process now) (_get_fallback_google_data now).

(** *** Square and Stripe *)

(** [float(x) / 100] *)
Definition cents_to_dollars (x : json_num) : option float :=
  match py_float x with
  | Some f => Some (PrimFloat.div f 100%float)
  | None => None
  end.

Record sq_payment := {
  sq_id : option string;
  sq_amount : option json_num;
  sq_status : option string;
  sq_created_at : option string;
  sq_source_type : option string
}.

Definition status_is (o : option string) (s : string) : bool :=
  match o with
  | Some v => String.eqb v s
  | None => false
  end.

Definition sq_step (a : acc transaction) (p : sq_payment) : option (acc transaction) :=
  match cents_to_dollars (get0 (sq_amount p)) with
  | None => None
  | Some amount =>
      let t := {| t_id := sq_id p; t_amount := amount; t_status := sq_status p;
                  t_created_at := sq_created_at p;
                  t_source_type := Some (get_str (sq_source_type p) "CARD") |} in
      if status_is (sq_status p) "COMPLETED" then
        match add_int (acc_count a) 1 with
        | Some count =>
            Some {| acc_items := acc_items a ++ [t];
                    acc_total := PrimFloat.add (acc_total a) amount;
                    acc_count := count |}
        | None => None
        end
      else
        Some {| acc_items := acc_items a ++ [t];
                acc_total := acc_total a; acc_count := acc_count a |}
  end.

Definition sq_process (now : string) (data : list sq_payment) : option platform_record :=
  match loop sq_step acc0 data with
  | Some a =>
      success "square_payments" (Transactions (acc_items a)) (acc_total a)
              (acc_count a) 96.8%float now
  | None => None
  end.

Definition fetch_square_transactions (session : bool) (now : string)
  (answer : http_outcome (list sq_payment)) (access_token location_id : string)
  : platform_record * list net_call :=
  fetch session (GetSquarePayments access_token location_id) answer
        (sq_process now) (_get_fallback_square_data now).

(** A Stripe charge; [st_currency] is [None] when the key is absent and
    [Some None] when it holds something without [.upper()]. *)
Record st_charge := {
  st_id : option string;
  st_amount : option json_num;
  st_status : option string;
  st_created : option Z;
  st_currency : option (option string)
}.

Definition st_step (a : acc charge) (c : st_charge) : option (acc charge) :=
  match cents_to_dollars (get0 (st_amount c)) with
  | None => None
  | Some amount =>
  match match st_currency c with
        | None => Some (PyStr.upper "usd")
        | Some (Some cur) => Some (PyStr.upper cur)
        | Some None => None
        end with
  | None => None
  | Some cur =>
      let ch := {| ch_id := st_id c; ch_amount := amount; ch_status := st_status c;
                   ch_created := st_created c; ch_currency := Some cur |} in
      if status_is (st_status c) "succeeded" then
        match add_int (acc_count a) 1 with
        | Some count =>
            Some {| acc_items := acc_items a ++ [ch];
                    acc_total := PrimFloat.add (acc_total a) amount;
                    acc_count := count |}
        | None => None
        end
      else
        Some {| acc_items := acc_items a ++ [ch];
                acc_total := acc_total a; acc_count := acc_count a |}
  end end.

Definition st_process (now : string) (data : list st_charge) : option platform_record :=
  match loop st_step acc0 data with
  | Some a =>
      success "stripe_payments" (Charges (acc_items a)) (acc_total a)
              (acc_count a) 95.2%float now
  | None => None
  end.

Definition fetch_stripe_events (session : bool) (now : string)
  (answer : http_outcome (list st_charge)) (access_token : string)
  : platform_record * list net_call :=
  fetch session (GetStripeCharges access_token) answer
        (st_process now) (_get_fallback_stripe_data now).

(** [amount] is what [float(x) / divisor] gives for the raw value [x]. *)
Definition dollars_of (divisor : float) (x : option json_num) (amount : float) : Prop :=
  exists f, py_float (get0 x) = Some f /\ amount = PrimFloat.div f divisor.

(** The amounts listed in a record. *)
Definition amounts (r : platform_record) : list float :=
  match pr_items r with
  | Campaigns l => map c_spend l
  | Transactions l => map t_amount l
  | Charges l => map ch_amount l
  end.

(** *** [get_all_platform_data] *)

Record network := {
  net_facebook : http_outcome (list fb_campaign);
  net_google : http_outcome (list g_result);
  net_square : http_outcome (list sq_payment);
  net_stripe : http_outcome (list st_charge)
}.

(** The dict the aggregation returns, by its four keys. *)
Record platform_data := {
  facebook : platform_record;
  google : platform_record;
  square : platform_record;
  stripe : platform_record
}.

Definition all_fallback (now : string) : platform_data :=
  {| facebook := _get_fallback_facebook_data now;
     google := _get_fallback_google_data now;
     square := _get_fallback_square_data now;
     stripe := _get_fallback_stripe_data now |}.

(** [if token: tasks.append(task)] *)
Definition task_if {A} (tok : option string) (task : string -> A) : list A :=
  match tok with
  | Some t => if PyStr.truthy tok then [task t] else []
  | None => []
  end.

(** [results[i] if len(results) > i and not isinstance(results[i],
    Exception) else fallback]; the fetches never raise, so no result is
    an exception. *)
Definition result_or (results : list platform_record) (i : nat)
  (fallback : platform_record) : platform_record :=
  match nth_error results i with
  | Some r => r
  | None => fallback
  end.

(** [get_all_platform_data]: the dict, and the network calls made. The
    session is the one the context manager opens; nothing in the body
    raises, so the outer handler is not reached. *)
Definition get_all_platform_data (env : environ) (net : network) (now : string)
  : platform_data * list net_call :=
  let tasks :=
    task_if (env "FACEBOOK_ACCESS_TOKEN"%string)
      (fun t => fetch_facebook_conversions true now (net_facebook net) t "123456789")
    ++ task_if (env "GOOGLE_ACCESS_TOKEN"%string)
      (fun t => fetch_google_ads_data true now (net_google net) t "1234567890")
    ++ task_if (env "SQUARE_ACCESS_TOKEN"%string)
      (fun t => fetch_square_transactions true now (net_square net) t "demo-location")
    ++ task_if (env "STRIPE_ACCESS_TOKEN"%string)
      (fun t => fetch_stripe_events true now (net_stripe net) t) in
  match tasks with
  | [] => (all_fallback now, [])
  | _ =>
      let results := map fst tasks in
      ({| facebook := result_or results 0 (_get_fallback_facebook_data now);
          google := result_or results 1 (_get_fallback_google_data now);
          square := result_or results 2 (_get_fallback_square_data now);
          stripe := result_or results 3 (_get_fallback_stripe_data now) |},
       List.concat (map snd tasks))
  end.

(** [platform_data.items()] *)
Definition data_items (d : platform_data) : list (string * platform_record) :=
  [("facebook", facebook d); ("google", google d);
   ("square", square d); ("stripe", stripe d)]%string.

End RealData.

(** ** [data_integration.py]: the integration status *)

Module DataIntegration.

Import PyFloat RealData.

(** [str.title()] on ASCII text. *)
Fixpoint title_from (after_letter : bool) (s : string) : string :=
  match s with
  | EmptyString => EmptyString
  | String c r =>
      let letter := PyStr.is_upper c || PyStr.is_lower c in
      String (if after_letter then PyStr.lower_char c else PyStr.upper_char c)
             (title_from letter r)
  end.

Definition title (s : string) : string := title_from false s.

Record platform_info := {
  pi_name : string;
  pi_status : string;
  pi_data_source : string;
  pi_last_updated : string;
  pi_confidence : float;
  has_oauth_token : bool;
  pi_api_connectivity : string
}.

Record DataIntegrationStatus := {
  dis_business_id : string;
  integration_status : string;
  platforms : list (string * platform_info);
  data_quality_score : float;
  real_data_percentage : float
}.

Definition platform_entry (env : environ) (platform : string) (data : platform_record)
  : platform_info :=
  let is_real_data := String.eqb (status data) "success" in
  {| pi_name := title platform;
     pi_status := status data;
     pi_data_source := if is_real_data then "real_api" else "fallback_demo";
     pi_last_updated := last_updated data;
     pi_confidence := attribution_confidence (pr_summary data);
     has_oauth_token := PyStr.truthy (env (PyStr.upper platform ++ "_ACCESS_TOKEN")%string);
     pi_api_connectivity := if is_real_data then "connected" else "using_fallback" |}.

Definition quality_factor (p : platform_info) : Z :=
  if String.eqb (pi_data_source p) "real_api" then 100
  else if has_oauth_token p then 75
  else 40.

(** [get_data_integration_status], given the dict the aggregation
    returned. *)
Definition integration_status_of (env : environ) (business_id : string)
  (d : platform_data) : DataIntegrationStatus :=
  let entries := map (fun kv => (fst kv, platform_entry env (fst kv) (snd kv)))
                     (data_items d) in
  let real_data_count :=
    Z.of_nat (List.length (filter (fun kv => String.eqb (status (snd kv)) "success")
                                  (data_items d))) in
  let total_platforms := Z.of_nat (List.length (data_items d)) in
  let real_data_percentage :=
    if 0 <? total_platforms
    then PrimFloat.mul (PrimFloat.div (of_Z real_data_count) (of_Z total_platforms))
                       100%float
    else 0%float in
  let quality_factors := map (fun kv => quality_factor (snd kv)) entries in
  let data_quality_score :=
    match quality_factors with
    | [] => 40%float
    | _ => PrimFloat.div (of_Z (fold_left Z.add quality_factors 0))
                         (of_Z (Z.of_nat (List.length quality_factors)))
    end in
  {| dis_business_id := business_id;
     integration_status :=
       if PrimFloat.leb 75%float real_data_percentage then "fully_integrated"
       else if PrimFloat.leb 25%float real_data_percentage then "partially_integrated"
       else if existsb (fun kv => has_oauth_token (snd kv)) entries
            then "tokens_configured"
       else "demo_mode";
     platforms := entries;
     data_quality_score := py_round data_quality_score 1;
     real_data_percentage := py_round real_data_percentage 1 |}.

Definition get_data_integration_status (env : environ) (net : network)
  (now business_id : string) : DataIntegrationStatus * list net_call :=
  let '(d, calls) := get_all_platform_data env net now in
  (integration_status_of env business_id d, calls).

End DataIntegration.

(** ** More Python arithmetic: mixed [int] and [float] operations *)

Module PyNum.

Import PyFloat.

(** [a / b] for two ints: the binary64 number nearest to the exact
    quotient. [None] when it raises ([b] is zero, or the quotient is too
    large for a float). The quotient is computed with 55 bits or more and
    a sticky bit, and then rounded once. *)
Definition div_int (a b : Z) : option float :=
  if b =? 0 then None
  else if a =? 0 then Some (if b <? 0 then PrimFloat.opp 0%float else 0%float)
  else
    let neg := xorb (a <? 0) (b <? 0) in
    let a' := Z.abs a in
    let b' := Z.abs b in
    let k := Z.max 0 (56 + Z.log2 b' - Z.log2 a') in
    let n := (a' * 2 ^ k) / b' in
    let sticky := if (a' * 2 ^ k) mod b' =? 0 then 0 else 1 in
    let m := 2 * n + sticky in
    let f := SF2Prim (binary_normalize 53 1024 (if neg then - m else m) (- k - 1) false) in
    if is_finite f then Some f else None.

(** [x + y] *)
Definition add (x y : pynum) : option pynum :=
  match x, y with
  | PInt a, PInt b => Some (PInt (a + b))
  | _, _ =>
      match to_float x, to_float y with
      | Some a, Some b => Some (PFloat (PrimFloat.add a b))
      | _, _ => None
      end
  end.

(** [x * f] for a float [f] *)
Definition mul_float (x : pynum) (f : float) : option float :=
  match to_float x with
  | Some a => Some (PrimFloat.mul a f)
  | None => None
  end.

(** [x / n] for an int [n] *)
Definition div_by_int (x : pynum) (n : Z) : option float :=
  match x with
  | PInt a => div_int a n
  | PFloat f =>
      if n =? 0 then None
      else match to_float (PInt n) with
           | Some g => Some (PrimFloat.div f g)
           | None => None
           end
  end.

(** [sum(l)] for a list of floats: the items added to 0 from left to
    right, each addition rounded (interpreters from 3.12 on compensate
    the rounding errors of the additions). *)
Definition sum_floats (l : list float) : pynum :=
  fold_left (fun acc f =>
               match acc with
               | PInt z => PFloat (PrimFloat.add (of_Z z) f)
               | PFloat a => PFloat (PrimFloat.add a f)
               end) l (PInt 0).

End PyNum.

(** ** Sample inputs: environments and platform answers *)

Module Samples.

Import PyFloat RealData.

(** The clock reading used in the examples. *)
Definition now : string := "2024-05-01T12:00:00".

(** An environment that sets exactly the given variables. *)
Fixpoint env_of (vars : list (string * string)) : environ :=
  fun name =>
    match vars with
    | [] => None
    | (k, v) :: r => if String.eqb name k then Some v else env_of r name
    end.

Definition payment (id : string) (cents : Z) : sq_payment :=
  {| sq_id := Some id; sq_amount := Some (JInt cents);
     sq_status := Some "COMPLETED"%string;
     sq_created_at := Some "2024-04-30T09:00:00Z"%string;
     sq_source_type := Some "CARD"%string |}.

Definition stripe_charge (id : string) (cents : Z) : st_charge :=
  {| st_id := Some id; st_amount := Some (JInt cents);
     st_status := Some "succeeded"%string; st_created := Some 1714467600;
     st_currency := Some (Some "usd"%string) |}.

Definition google_row (name : string) (micros : Z) : g_result :=
  {| g_campaign_name := Some name; g_costMicros := Some (JStrInt micros);
     g_clicks := Some (JStrInt 40); g_conversions := Some (JReal 4%float) |}.

(** A network on which nothing answers. *)
Definition dead_network : network :=
  {| net_facebook := Raised; net_google := Raised;
     net_square := Raised; net_stripe := Raised |}.

(** A network on which Google Ads and Stripe answer with live data. *)
Definition live_network : network :=
  {| net_facebook := Raised;
     net_google := Response 200 (Some [google_row "Search - Haircuts" 12500000]);
     net_square := Raised;
     net_stripe := Response 200 (Some [stripe_charge "ch_1" 7500]) |}.

(** A Square service whose client is set and whose customer lookup
    answers, and a booking webhook whose segments cannot be iterated. *)
Definition square_service : SquareBooking.service :=
  {| SquareBooking.sv_access_token := Some "sq-token"%string;
     SquareBooking.sv_webhook_signature_key := None;
     SquareBooking.sv_client := Some true;
     SquareBooking.sv_retrieve_customer := fun _ =>
       Some (Some {| SquareBooking.email_address := Some "a@b.com"%string;
                     SquareBooking.phone_number := None |}) |}.

Definition booking_webhook : SquareBooking.webhook :=
  {| SquareBooking.wh_type := Some "booking.created"%string;
     SquareBooking.wh_id := Some "bk3"%string;
     SquareBooking.wh_customer_id := Some "cust-1"%string;
     SquareBooking.wh_appointment_segments := SquareBooking.SdNotIterable |}.

End Samples.

(** ** Python dicts with string keys, in insertion order *)

Module PyDict.

Section Dict.

Context {V : Type}.

Definition dict : Type := list (string * V).

(** [d.get(k)] *)
Fixpoint get (d : dict) (k : string) : option V :=
  match d with
  | [] => None
  | (k', v) :: r => if String.eqb k k' then Some v else get r k
  end.

(** [k in d] *)
Definition contains (d : dict) (k : string) : bool :=
  match get d k with
  | Some _ => true
  | None => false
  end.

(** [d[k] = v]: the entry is replaced in place, or appended. *)
Fixpoint set (d : dict) (k : string) (v : V) : dict :=
  match d with
  | [] => [(k, v)]
  | (k', v') :: r =>
      if String.eqb k k' then (k, v) :: r else (k', v') :: set r k v
  end.

(** [d.pop(k, None)] *)
Fixpoint pop (d : dict) (k : string) : dict :=
  match d with
  | [] => []
  | (k', v') :: r =>
      if String.eqb k k' then pop r k else (k', v') :: pop r k
  end.

(** [d.keys()] *)
Definition keys (d : dict) : list string := map fst d.

End Dict.

Arguments dict V : clear implicits.

End PyDict.

(** ** The in-memory stores of [main.py]: cache and rate limiter *)

Module Server.

Import PyDict.

Local Open Scope Q_scope.

(** The three module-level dicts; [V] is the type of the cached data. *)
Record stores (V : Type) := {
  cache : dict V;
  cache_ttl : dict Q;
  rate_limit_store : dict (list Q)
}.
Arguments cache {V} s.
Arguments cache_ttl {V} s.
Arguments rate_limit_store {V} s.

Definition no_stores {V} : stores V :=
  {| cache := []; cache_ttl := []; rate_limit_store := [] |}.

Section Cache.

Context {V : Type}.

(** [get_from_cache(cache_key, ttl_seconds)] at the clock reading [now]. *)
Definition get_from_cache (s : stores V) (now : Q) (cache_key : string)
  (ttl_seconds : Q) : option V * stores V :=
  match get (cache s) cache_key with
  | Some data =>
      let cached_time := match get (cache_ttl s) cache_key with
                         | Some t => t
                         | None => 0
                         end in
      if Qlt_le_dec (now - cached_time) ttl_seconds then (Some data, s)
      else (None, {| cache := pop (cache s) cache_key;
                     cache_ttl := pop (cache_ttl s) cache_key;
                     rate_limit_store := rate_limit_store s |})
  | None => (None, s)
  end.

(** [set_cache(cache_key, data)] at the clock reading [now]. *)
Definition set_cache (s : stores V) (now : Q) (cache_key : string) (data : V)
  : stores V :=
  {| cache := set (cache s) cache_key data;
     cache_ttl := set (cache_ttl s) cache_key now;
     rate_limit_store := rate_limit_store s |}.

(** [clear_cache]: the number of entries cleared, and the stores. *)
Definition clear_cache (s : stores V) : Z * stores V :=
  (Z.of_nat (List.length (cache s)),
   {| cache := []; cache_ttl := []; rate_limit_store := rate_limit_store s |}).

(** [check_rate_limit(client_ip, endpoint, limit, window)] at the clock
    reading [current_time]. *)
Definition rate_key (client_ip endpoint : string) : string :=
  (client_ip ++ ":" ++ endpoint)%string.

Definition in_window (current_time window : Q) (req_time : Q) : bool :=
  if Qlt_le_dec (current_time - req_time) window then true else false.

Definition check_rate_limit (s : stores V) (current_time : Q)
  (client_ip endpoint : string) (limit : Z) (window : Q) : bool * stores V :=
  let key := rate_key client_ip endpoint in
  let old := match get (rate_limit_store s) key with
             | Some l => l
             | None => []
             end in
  let kept := filter (in_window current_time window) old in
  if (limit <=? Z.of_nat (List.length kept))%Z then
    (false, {| cache := cache s; cache_ttl := cache_ttl s;
               rate_limit_store := set (rate_limit_store s) key kept |})
  else
    (true, {| cache := cache s; cache_ttl := cache_ttl s;
              rate_limit_store := set (rate_limit_store s) key (kept ++ [current_time]) |}).

(** The requests recorded for a key. *)
Definition recorded (s : stores V) (key : string) : list Q :=
  match get (rate_limit_store s) key with
  | Some l => l
  | None => []
  end.

(** The stores after a run of calls of one client on one endpoint, at the
    given clock readings. *)
Fixpoint rate_limit_run (s : stores V) (client_ip endpoint : string) (limit : Z)
  (window : Q) (times : list Q) : stores V :=
  match times with
  | [] => s
  | t :: r =>
      rate_limit_run (snd (check_rate_limit s t client_ip endpoint limit window))
                     client_ip endpoint limit window r
  end.

(** The requests of such a run that were let through. *)
Fixpoint rate_limit_accepted (s : stores V) (client_ip endpoint : string)
  (limit : Z) (window : Q) (times : list Q) : list Q :=
  match times with
  | [] => []
  | t :: r =>
      let res := check_rate_limit s t client_ip endpoint limit window in
      (if fst res then [t] else [])
        ++ rate_limit_accepted (snd res) client_ip endpoint limit window r
  end.

End Cache.

(** Clock readings that do not go back, starting at [prev]. *)
Fixpoint nondecreasing (prev : Q) (times : list Q) : Prop :=
  match times with
  | [] => True
  | t :: r => prev <= t /\ nondecreasing t r
  end.

End Server.

(** ** More endpoints of [main.py] *)

Module Handlers.

Import PyFloat PyNum RealData Main.

(** *** [track_interaction] *)

Record AttributionRequest := {
  ar_business_id : string;
  ar_interaction_type : string;
  ar_source : string;
  ar_campaign_id : option string;
  ar_user_identifier : string;
  ar_timestamp : option Z
}.

(** [confidence_mapping.get((interaction_type, source), "medium")] *)
Definition confidence_mapping : list (string * string * string) :=
  [("ad_click", "facebook_ads", "high");
   ("ad_click", "google_ads", "high");
   ("ad_view", "facebook_ads", "medium");
   ("ad_view", "google_ads", "medium");
   ("organic_visit", "organic", "low")]%string.

Fixpoint mapping_get (m : list (string * string * string))
  (interaction_type source default : string) : string :=
  match m with
  | [] => default
  | (t, s, c) :: r =>
      if String.eqb interaction_type t && String.eqb source s then c
      else mapping_get r interaction_type source default
  end.

(** [s[-n:]] *)
Definition last_chars (n : nat) (s : string) : string :=
  substring (String.length s - n) n s.

Record interaction_response := {
  ir_interaction_id : Z * string;
  ir_status : string;
  ir_attribution_confidence : string;
  ir_processing_time_ms : float;
  ir_business_id : string;
  ir_source : string;
  ir_timestamp : Z;
  ir_expire_days : Z
}.

(** The body of the [try]: the exception it raises, or the response. The
    interaction id is kept as the clock reading and the last four
    characters of the business id that it prints. *)
Definition track_interaction_try (now : Z) (request : AttributionRequest)
  : http_result interaction_response :=
  if negb (prefix "business-" (ar_business_id request)) then
    HTTPException 400 "Invalid business ID format"
  else
    let confidence := mapping_get confidence_mapping (ar_interaction_type request)
                                  (ar_source request) "medium" in
    let high := String.eqb confidence "high" in
    let processing_time := if high then 0.045%float else 0.12%float in
    Ok {| ir_interaction_id := (now, last_chars 4 (ar_business_id request));
          ir_status := "tracked";
          ir_attribution_confidence := confidence;
          ir_processing_time_ms := PrimFloat.mul processing_time 1000;
          ir_business_id := ar_business_id request;
          ir_source := ar_source request;
          ir_timestamp := match ar_timestamp request with
                          | Some t => t
                          | None => now
                          end;
          ir_expire_days := if high then 7 else 3 |}.

(** [track_interaction]: the handler catches every exception of the body,
    the [HTTPException] included, and raises the error 500. *)
Definition track_interaction (now : Z) (request : AttributionRequest)
  : http_result interaction_response :=
  match track_interaction_try now request with
  | Ok r => Ok r
  | HTTPException _ _ => HTTPException 500 "Failed to track interaction"
  end.

(** *** [get_dashboard_data] *)

(** [summary.get(key, 0)], by the keys each kind of record has. *)
Definition get_total_spend (r : platform_record) : pynum :=
  match pr_items r with
  | Campaigns _ => PFloat (sm_total (pr_summary r))
  | _ => PInt 0
  end.

Definition get_total_conversions (r : platform_record) : pynum :=
  match pr_items r with
  | Campaigns _ => sm_count (pr_summary r)
  | _ => PInt 0
  end.

Definition get_total_revenue (r : platform_record) : pynum :=
  match pr_items r with
  | Campaigns _ => PInt 0
  | _ => PFloat (sm_total (pr_summary r))
  end.

Record breakdown := {
  pb_status : string;
  pb_conversions : pynum;
  pb_revenue : pynum;
  pb_confidence : float
}.

(** The dashboard data; the formatted strings are kept as the numbers
    they print. *)
Record dashboard_data := {
  total_interactions : Z;
  conversion_rate : pynum;
  attribution_accuracy : float;
  recovered_revenue : float;
  total_spend : float;
  total_conversions : pynum;
  revenue_trend : float;
  active_sessions : Z;
  processing_queue : Z;
  attribution_matches_today : Z;
  platform_breakdown : list (string * breakdown);
  dd_cache_status : string;
  dd_data_source : string;
  generation_time_ms : float
}.

(** The data returned when the computation fails. *)
Record demo_dashboard := {
  demo_total_interactions : Z;
  demo_conversion_rate : Q;
  demo_attribution_accuracy : Q;
  demo_recovered_revenue : Z;
  demo_active_sessions : Z;
  demo_processing_queue : Z;
  demo_attribution_matches_today : Z;
  demo_data_source : string;
  demo_generation_time_ms : Q
}.

Inductive dashboard_response :=
| Live (d : dashboard_data)
| Demo (f : demo_dashboard).

(** The accumulators of the loop over the platforms. *)
Record totals := {
  tot_spend : float;
  tot_conversions : pynum;
  tot_revenue : float;
  tot_scores : list float
}.

Definition add_to_float (total : float) (v : pynum) : option float :=
  match to_float v with
  | Some f => Some (PrimFloat.add total f)
  | None => None
  end.

Definition totals_step (a : totals) (kv : string * platform_record) : option totals :=
  match add_to_float (tot_spend a) (get_total_spend (snd kv)),
        PyNum.add (tot_conversions a) (get_total_conversions (snd kv)),
        add_to_float (tot_revenue a) (get_total_revenue (snd kv)) with
  | Some sp, Some cv, Some rv =>
      Some {| tot_spend := sp; tot_conversions := cv; tot_revenue := rv;
              tot_scores := tot_scores a
                              ++ [attribution_confidence (pr_summary (snd kv))] |}
  | _, _, _ => None
  end.

(** [int(total_conversions * f)] *)
Definition scaled_int (total_conversions : pynum) (f : float) : option Z :=
  match mul_float total_conversions f with
  | Some x => trunc x
  | None => None
  end.

(** The body of the [try], up to the dict that is cached and returned:
    [None] when it raises. *)
Definition dashboard_of (d : platform_data) : option dashboard_data :=
  match loop totals_step
             {| tot_spend := 0%float; tot_conversions := PInt 0;
                tot_revenue := 0%float; tot_scores := [] |}
             (data_items d) with
  | None => None
  | Some a =>
      let tc := tot_conversions a in
      let conversion_rate :=
        if gt0 tc then
          match div_by_int tc 1500 with
          | Some x => Some (PFloat (PrimFloat.mul x 100))
          | None => None
          end
        else Some (PInt 0) in
      let accuracy :=
        match tot_scores a with
        | [] => Some 85.0%float
        | scores => div_by_int (sum_floats scores) (Z.of_nat (List.length scores))
        end in
      let recovered := PrimFloat.mul (tot_revenue a) 0.28%float in
      match conversion_rate, accuracy, scaled_int tc 6.5%float,
            scaled_int tc 0.3%float, scaled_int tc 1.2%float with
      | Some rate, Some acc, Some interactions, Some sessions, Some matches =>
          Some {| total_interactions := interactions;
                  conversion_rate := rate;
                  attribution_accuracy := acc;
                  recovered_revenue := recovered;
                  total_spend := tot_spend a;
                  total_conversions := tc;
                  revenue_trend := PrimFloat.mul recovered 0.25%float;
                  active_sessions := sessions;
                  processing_queue := if gt0 tc then 0 else 2;
                  attribution_matches_today := matches;
                  platform_breakdown :=
                    map (fun kv =>
                           (fst kv,
                            {| pb_status := status (snd kv);
                               pb_conversions := get_total_conversions (snd kv);
                               pb_revenue := get_total_revenue (snd kv);
                               pb_confidence :=
                                 attribution_confidence (pr_summary (snd kv)) |}))
                        (data_items d);
                  dd_cache_status := "miss";
                  dd_data_source := "real_api_integration";
                  generation_time_ms := 47.3%float |}
      | _, _, _, _, _ => None
      end
  end.

(** The handler of the [except]: demo data from random draws. *)
Definition demo_dashboard_data : Rand demo_dashboard :=
  interactions <- randint 1280 1300 ;;
  rate <- uniform (148 # 10) (158 # 10) ;;
  accuracy <- uniform (915 # 10) 93 ;;
  revenue <- randint 12500 13200 ;;
  sessions <- randint 40 55 ;;
  queue <- randint 0 3 ;;
  matches <- randint 150 170 ;;
  generation <- uniform 15 45 ;;
  ret {| demo_total_interactions := interactions;
         demo_conversion_rate := PyQ.py_round rate 1;
         demo_attribution_accuracy := PyQ.py_round accuracy 1;
         demo_recovered_revenue := revenue;
         demo_active_sessions := sessions;
         demo_processing_queue := queue;
         demo_attribution_matches_today := matches;
         demo_data_source := "fallback_demo_data";
         demo_generation_time_ms := PyQ.py_round generation 1 |}.

Section Dashboard.

(** [hashlib.md5(data).hexdigest()], a parameter of the model: the cache
    only uses the digest as a key. *)
Variable md5_hexdigest : list Z -> string.

(** [get_cache_key(endpoint, params)] *)
Definition get_cache_key (endpoint params : string) : string :=
  md5_hexdigest (PyStr.encode (endpoint ++ ":" ++ params)%string).

(** What a request to the dashboard gives: the answer, the stores, the
    network calls made and the random tape left. The three clock readings
    are those of the rate limiter, of the cache lookup and of the cache
    update. *)
Record dashboard_run := {
  answer : http_result dashboard_response;
  stores_after : Server.stores dashboard_data;
  calls : list net_call
}.

Definition get_dashboard_data (s : Server.stores dashboard_data) (env : environ)
  (net : network) (now : string) (t_rate t_get t_set : Q) (client_ip : string)
  : Rand dashboard_run :=
  let '(allowed, s1) :=
    Server.check_rate_limit s t_rate client_ip "dashboard" 60 3600 in
  if negb allowed then
    ret {| answer := HTTPException 429
                       "Rate limit exceeded. Maximum 60 requests per hour.";
           stores_after := s1; calls := [] |}
  else
    let cache_key := get_cache_key "dashboard" EmptyString in
    let '(cached_data, s2) := Server.get_from_cache s1 t_get cache_key 30 in
    match cached_data with
    | Some data => ret {| answer := Ok (Live data); stores_after := s2; calls := [] |}
    | None =>
        let '(platform_data, net_calls) := get_all_platform_data env net now in
        match dashboard_of platform_data with
        | Some data =>
            ret {| answer := Ok (Live data);
                   stores_after := Server.set_cache s2 t_set cache_key data;
                   calls := net_calls |}
        | None =>
            demo <- demo_dashboard_data ;;
            ret {| answer := Ok (Demo demo); stores_after := s2;
                   calls := net_calls |}
        end
    end.

End Dashboard.

(** An interaction as the endpoint receives it. *)
Definition demo_interaction (business_id interaction_type source : string)
  : AttributionRequest :=
  {| ar_business_id := business_id; ar_interaction_type := interaction_type;
     ar_source := source; ar_campaign_id := None; ar_user_identifier := "u-7";
     ar_timestamp := None |}.

(** Stores in which one client has used up its 60 dashboard requests. *)
Definition busy_stores : Server.stores dashboard_data :=
  {| Server.cache := []; Server.cache_ttl := [];
     Server.rate_limit_store := [("10.0.0.1:dashboard"%string, repeat 100%Q 60)] |}.

End Handlers.

(** ** More of [square_booking_service.py]: bookings and metrics *)

Module SquareMetrics.

Import PyStr SquareBooking.

(** [is_configured]: [bool(self.access_token and self.client)]; [None]
    when it raises, on the missing [client] attribute. *)
Definition is_configured (svc : service) : option bool :=
  if truthy (sv_access_token svc) then sv_client svc else Some false.

(** A booking as [get_recent_bookings] lists it, by four of its keys. *)
Record booking := {
  bk_id : option string;
  bk_status : option string;
  bk_customer_id : option string;
  bk_location_id : option string
}.

(** [get_recent_bookings]: [None] when it raises. The test of
    [self.client] stands before the [try]. With a client, the body of the
    [try] raises, at the latest on the name [SearchBookingsRequest], whose
    import is commented out; the first handler names [ApiException],
    whose import is commented out as well, so that matching the exception
    raises in turn and no handler runs. *)
Definition get_recent_bookings (svc : service) (location_id : string) (days : Z)
  : option (list booking) :=
  match sv_client svc with
  | None => None
  | Some false => Some []
  | Some true => None
  end.

Record metrics := {
  total_bookings_today : Z;
  total_bookings_week : Z;
  estimated_revenue_today : Q;
  estimated_revenue_week : Q;
  average_booking_value : Q
}.

Definition no_metrics : metrics :=
  {| total_bookings_today := 0; total_bookings_week := 0;
     estimated_revenue_today := 0; estimated_revenue_week := 0;
     average_booking_value := 45 |}.

(** [get_business_metrics]: [None] when it raises (on the missing
    [client] attribute, before the [try]). *)
Definition get_business_metrics (svc : service) (location_id : string)
  : option metrics :=
  match sv_client svc with
  | None => None
  | Some false => Some no_metrics
  | Some true =>
      match get_recent_bookings svc location_id 1,
            get_recent_bookings svc location_id 7 with
      | Some today_bookings, Some week_bookings =>
          let today_count := Z.of_nat (List.length today_bookings) in
          let week_count := Z.of_nat (List.length week_bookings) in
          Some {| total_bookings_today := today_count;
                  total_bookings_week := week_count;
                  estimated_revenue_today := (inject_Z today_count * 45)%Q;
                  estimated_revenue_week := (inject_Z week_count * 45)%Q;
                  average_booking_value := 45 |}
      | _, _ => Some no_metrics
      end
  end.

End SquareMetrics.

(** ** [main.py]: campaign optimization and campaign performance *)

Module Campaigns.

Import PyFloat PyNum RealData Main.

(** *** [optimize_campaigns] *)

Record CampaignOptimizationRequest := {
  co_business_id : string;
  campaign_ids : list string;
  optimization_goal : string;
  time_range_days : Z
}.

Definition valid_goals : list string :=
  ["conversions"; "revenue"; "roas"; "cost_per_acquisition"]%string.

(** A recommendation; the formatted impact is kept as the number it
    prints. *)
Record recommendation := {
  action : string;
  rec_percentage : option Z;
  rec_details : option string;
  expected_impact : Z;
  rec_confidence : Q
}.

Record optimization := {
  op_campaign_id : string;
  op_spend : Q;
  op_conversions : Z;
  op_revenue : Q;
  recommendations : list recommendation;
  top_converting_touchpoint : string;
  op_attribution_accuracy : Q;
  recommended_attribution_model : string
}.

Record optimization_response := {
  or_optimization_id : Z;
  or_business_id : string;
  or_optimization_goal : string;
  analysis_period : Z;
  optimizations : list optimization;
  total_campaigns_analyzed : Z;
  potential_improvement : Z;
  expected_attribution_lift : Q
}.

(** The recommendations generated for one campaign. *)
Definition recommend (goal : string) : Rand (list recommendation) :=
  if String.eqb goal "conversions" then
    percentage <- randint 15 35 ;;
    impact <- randint 8 15 ;;
    confidence <- uniform 85 95 ;;
    impact' <- randint 12 22 ;;
    confidence' <- uniform 78 88 ;;
    ret [{| action := "increase_budget"; rec_percentage := Some percentage;
            rec_details := None; expected_impact := impact;
            rec_confidence := confidence |};
         {| action := "optimize_targeting"; rec_percentage := None;
            rec_details := Some "Expand lookalike audiences by 25%"%string;
            expected_impact := impact'; rec_confidence := confidence' |}]
  else if String.eqb goal "revenue" then
    impact <- randint 500 1200 ;;
    confidence <- uniform 82 92 ;;
    ret [{| action := "shift_budget_to_high_value_segments";
            rec_percentage := None;
            rec_details :=
              Some "Reallocate 30% budget to customer segments with >$150 LTV"%string;
            expected_impact := impact; rec_confidence := confidence |}]
  else ret [].

(** The loop over [request.campaign_ids]. *)
Fixpoint optimize_loop (goal : string) (ids : list string)
  (optimizations : list optimization) : Rand (list optimization) :=
  match ids with
  | [] => ret optimizations
  | campaign_id :: rest =>
      spend <- uniform 500 3000 ;;
      conversions <- randint 8 45 ;;
      revenue <- uniform 800 5000 ;;
      recs <- recommend goal ;;
      top <- choice ["facebook_ads"; "google_search"; "instagram_ads"]%string ;;
      accuracy <- uniform 87 96 ;;
      optimize_loop goal rest
        (optimizations ++
           [{| op_campaign_id := campaign_id; op_spend := spend;
               op_conversions := conversions; op_revenue := revenue;
               recommendations := recs;
               top_converting_touchpoint := top;
               op_attribution_accuracy := PyQ.py_round accuracy 1;
               recommended_attribution_model :=
                 if String.eqb goal "revenue" then "time-decay" else "linear" |}])
  end.

(** [optimize_campaigns]; [now] is the clock reading of the id. The
    handler re-raises an [HTTPException], and nothing else raises in the
    body. *)
Definition optimize_campaigns (now : Z) (request : CampaignOptimizationRequest)
  : Rand (http_result optimization_response) :=
  if negb (Scorer.string_in (optimization_goal request) valid_goals) then
    ret (HTTPException 400
           "Invalid optimization goal. Must be one of: ['conversions', 'revenue', 'roas', 'cost_per_acquisition']")
  else
    optimizations <- optimize_loop (optimization_goal request) (campaign_ids request) [] ;;
    improvement <- randint 18 35 ;;
    lift <- uniform 5 12 ;;
    ret (Ok {| or_optimization_id := now;
               or_business_id := co_business_id request;
               or_optimization_goal := optimization_goal request;
               analysis_period := time_range_days request;
               optimizations := optimizations;
               total_campaigns_analyzed := Z.of_nat (List.length (campaign_ids request));
               potential_improvement := improvement;
               expected_attribution_lift := PyQ.py_round lift 1 |}).

(** *** [get_campaign_performance] *)

(** A campaign of the report; the id is kept as the platform it names and
    the number it prints, the formatted amounts as numbers. *)
Record perf_campaign := {
  pc_id : string * Z;
  pc_name : string;
  pc_platform : string;
  pc_status : string;
  pc_budget : float;
  pc_spend : float;
  pc_conversions : Z;
  pc_cost_per_conversion : pynum;
  pc_attribution_accuracy : float;
  pc_recovery_value : float
}.

Record performance := {
  campaigns : list perf_campaign;
  total_campaigns : Z;
  active_campaigns : Z;
  perf_total_spend : float;
  perf_total_conversions : Z;
  average_attribution_accuracy : float;
  total_recovery_value : float;
  perf_data_source : string;
  facebook_status : string;
  google_status : string;
  square_status : string;
  stripe_status : string
}.

(** [data.get('campaigns', [])] *)
Definition campaigns_of (r : platform_record) : list campaign :=
  match pr_items r with
  | Campaigns l => l
  | _ => []
  end.

(** The accumulators of the two loops. *)
Record perf_acc := {
  pa_campaigns : list perf_campaign;
  pa_total_spend : float;
  pa_total_conversions : Z;
  pa_total_recovery_value : float;
  pa_attribution_scores : list float;
  pa_active_campaigns : Z
}.

(** One turn of [for i, campaign in enumerate(...)], for the platform
    named [tag] and its record [data]. *)
Definition perf_step (tag : string) (data : platform_record) (a : perf_acc)
  (i : Z) (c : campaign) : perf_acc :=
  let recovery_value := PrimFloat.mul (c_spend c) 0.28%float in
  let confidence := attribution_confidence (pr_summary data) in
  {| pa_campaigns :=
       pa_campaigns a ++
         [{| pc_id := (tag, i + 1); pc_name := c_name c;
             pc_platform := c_platform c; pc_status := "active";
             pc_budget := PrimFloat.mul (c_spend c) 1.35%float;
             pc_spend := c_spend c; pc_conversions := c_conversions c;
             pc_cost_per_conversion := c_cost_per_conversion c;
             pc_attribution_accuracy := confidence;
             pc_recovery_value := recovery_value |}];
     pa_total_spend := PrimFloat.add (pa_total_spend a) (c_spend c);
     pa_total_conversions := pa_total_conversions a + c_conversions c;
     pa_total_recovery_value :=
       PrimFloat.add (pa_total_recovery_value a) recovery_value;
     pa_attribution_scores := pa_attribution_scores a ++ [confidence];
     pa_active_campaigns := pa_active_campaigns a + 1 |}.

Fixpoint perf_loop (tag : string) (data : platform_record) (a : perf_acc) (i : Z)
  (l : list campaign) : perf_acc :=
  match l with
  | [] => a
  | c :: r => perf_loop tag data (perf_step tag data a i c) (i + 1) r
  end.

Inductive performance_response :=
| LivePerformance (p : performance)
| DemoPerformance.

(** The body of the [try], given the dict of the aggregation: [None] when
    it raises. *)
Definition performance_of (d : platform_data) : option performance :=
  let a0 := {| pa_campaigns := []; pa_total_spend := 0%float;
               pa_total_conversions := 0; pa_total_recovery_value := 0%float;
               pa_attribution_scores := []; pa_active_campaigns := 0 |} in
  let a1 := perf_loop "facebook" (facebook d) a0 0 (campaigns_of (facebook d)) in
  let a2 := perf_loop "google" (google d) a1 0 (campaigns_of (google d)) in
  let avg :=
    match pa_attribution_scores a2 with
    | [] => Some 91.8%float
    | scores => div_by_int (sum_floats scores) (Z.of_nat (List.length scores))
    end in
  match avg with
  | Some avg_attribution_accuracy =>
      Some {| campaigns := pa_campaigns a2;
              total_campaigns := Z.of_nat (List.length (pa_campaigns a2)) + 5;
              active_campaigns := pa_active_campaigns a2;
              perf_total_spend := pa_total_spend a2;
              perf_total_conversions := pa_total_conversions a2;
              average_attribution_accuracy := avg_attribution_accuracy;
              total_recovery_value := pa_total_recovery_value a2;
              perf_data_source := "real_api_integration";
              facebook_status := status (facebook d);
              google_status := status (google d);
              square_status := status (square d);
              stripe_status := status (stripe d) |}
  | None => None
  end.

(** [get_campaign_performance]: the answer and the network calls made;
    the handler of the [except] returns fixed demo data. *)
Definition get_campaign_performance (env : environ) (net : network) (now : string)
  : performance_response * list net_call :=
  let '(platform_data, calls) := get_all_platform_data env net now in
  match performance_of platform_data with
  | Some p => (LivePerformance p, calls)
  | None => (DemoPerformance, calls)
  end.

(** A request for two campaigns, and draws that serve it when the goal
    is [revenue]. *)
Definition demo_optimization (goal : string) : CampaignOptimizationRequest :=
  {| co_business_id := "business-0001"; campaign_ids := ["c-1"; "c-2"]%string;
     optimization_goal := goal; time_range_days := 7 |}.

Definition revenue_tape : tape :=
  [DReal 1200; DInt 20; DReal 2400; DInt 800; DReal 90; DInt 1; DReal (915 # 10);
   DReal 900; DInt 12; DReal 1800; DInt 600; DReal 85; DInt 0; DReal 88;
   DInt 25; DReal (75 # 10)].

End Campaigns.

(** ** [main.py]: cache statistics; [data_integration.py]: the token test *)

Module Metrics.

Import PyDict.
Local Open Scope Q_scope.

(** [min(l, default=0)] *)
Fixpoint py_min_list (l : list Q) : Q :=
  match l with
  | [] => 0
  | [x] => x
  | x :: r => let m := py_min_list r in if Qlt_le_dec m x then m else x
  end.

(** The statistics [get_performance_metrics] computes from the stores, at
    the clock reading [now]. A dict is taken without repeated key. *)
Record cache_stats := {
  total_entries : Z;
  oldest_entry_age_seconds : Q;
  active_clients : Z;
  total_requests_tracked : Z
}.

Definition get_performance_metrics {V} (s : Server.stores V) (now : Q) : cache_stats :=
  {| total_entries := Z.of_nat (List.length (Server.cache s));
     oldest_entry_age_seconds :=
       py_min_list (map (fun kv => now - snd kv) (Server.cache_ttl s));
     active_clients := Z.of_nat (List.length (Server.rate_limit_store s));
     total_requests_tracked :=
       fold_left Z.add
         (map (fun kv => Z.of_nat (List.length (snd kv))) (Server.rate_limit_store s))
         0%Z |}.

End Metrics.

Module IntegrationTest.

Import RealData.

Record test_results := {
  oauth_tokens_found : list (string * bool);
  api_tests : list (string * string);
  overall_status : string;
  recommendation : string
}.

(** [if token: test_results['api_tests'][platform] = {'status':
    'token_available', ...}] *)
Definition api_test (platform : string) (token : option string)
  : list (string * string) :=
  if PyStr.truthy token then [(platform, "token_available"%string)] else [].

(** [test_real_integration_with_credentials]; nothing in the body
    raises. *)
Definition test_real_integration_with_credentials (env : environ) : test_results :=
  let facebook_token := env "FACEBOOK_ACCESS_TOKEN"%string in
  let google_token := env "GOOGLE_ACCESS_TOKEN"%string in
  let square_token := env "SQUARE_ACCESS_TOKEN"%string in
  let stripe_token := env "STRIPE_ACCESS_TOKEN"%string in
  let any_token :=
    existsb PyStr.truthy [facebook_token; google_token; square_token; stripe_token] in
  {| oauth_tokens_found :=
       [("facebook", PyStr.truthy facebook_token);
        ("google", PyStr.truthy google_token);
        ("square", PyStr.truthy square_token);
        ("stripe", PyStr.truthy stripe_token)]%string;
     api_tests :=
       api_test "facebook" facebook_token ++ api_test "google" google_token
       ++ api_test "square" square_token ++ api_test "stripe" stripe_token;
     overall_status := if any_token then "ready_for_real_data" else "demo_mode";
     recommendation :=
       if negb any_token
       then "Add OAuth tokens to environment variables to enable real data integration"
       else "OAuth tokens configured! Platform ready for real business data." |}.

(** The platform a network call goes to. *)
Definition call_platform (c : net_call) : string :=
  match c with
  | GetFacebookInsights _ _ => "facebook"
  | PostGoogleAdsSearch _ _ => "google"
  | GetSquarePayments _ _ => "square"
  | GetStripeCharges _ => "stripe"
  end.

End IntegrationTest.

(** * Theorems *)

(** ** The hash functions agree with the published vectors *)

Example sha256_empty :
  Sha256.hexdigest (PyStr.encode EmptyString) =
  "e3b0c44298fc1c149afbf4c8996fb92427ae41e4649b934ca495991b7852b855"%string.
Proof. vm_compute. reflexivity. Qed.

Example sha256_abc :
  Sha256.hexdigest (PyStr.encode "abc") =
  "ba7816bf8f01cfea414140de5dae2223b00361a396177a9cb410ff61f20015ad"%string.
Proof. vm_compute. reflexivity. Qed.

Example sha256_two_blocks :
  Sha256.hexdigest
    (PyStr.encode "abcdbcdecdefdefgefghfghighijhijkijkljklmklmnlmnomnopnopq") =
  "248d6a61d20638b8e5c026930c3e6039a33ce45964ff2167f6ecedd419db06c1"%string.
Proof. vm_compute. reflexivity. Qed.

Example hmac_sha256_fox :
  Sha256.hmac_hexdigest (PyStr.encode "key")
    (PyStr.encode "The quick brown fox jumps over the lazy dog") =
  "f7bc83f430538424b13298e6aa6fb143ef4d59a14946175997479dbc2d1a3cd8"%string.
Proof. vm_compute. reflexivity. Qed.


(** ** Rounding and sums over the rationals *)

Section RoundingFacts.

Import PyQ.
Local Open Scope Q_scope.












End RoundingFacts.

(** ** [square_booking_service.py]: booking value, identity hashes, signatures *)

Section SquareBookingFacts.

Import PyStr SquareBooking.

Lemma segment_price_nonneg (s : segment) (p : Q) :
  segment_price s = Some p -> (0 <= p)%Q.
Proof.
  destruct s as [[[q| |]|]|]; simpl; try discriminate;
    intros [= <-]; unfold price_beard_trim, price_haircut, price_full_service;
    repeat match goal with |- context [if ?b then _ else _] => destruct b end;
    discriminate.
Qed.

Lemma sum_segments_grows (l : list segment) :
  forall t v, sum_segments t l = Some v -> (t <= v)%Q.
Proof.
  induction l as [|s r IH]; simpl; intros t v H.
  - injection H as <-. apply Qle_refl.
  - destruct (segment_price s) as [p|] eqn:Hp; [|discriminate].
    apply segment_price_nonneg in Hp. apply IH in H. lra.
Qed.

Lemma py_max_floor (t : Q) : (35 <= py_max t 35)%Q.
Proof.
  unfold py_max. destruct (Qle_bool 35 t) eqn:E.
  - now apply Qle_bool_iff.
  - apply Qle_refl.
Qed.

Lemma calculate_booking_value_floor (info : booking_info) :
  (35 <= _calculate_booking_value info)%Q.
Proof.
  unfold _calculate_booking_value, booking_value_try.
  destruct (bi_service_details info) as [l|]; [|discriminate].
  destruct (sum_segments 0 l); [apply py_max_floor | discriminate].
Qed.

Lemma process_for_attribution_value (env : environ) (info : booking_info)
  (d : attribution_data) :
  _process_for_attribution env info = Some d ->
  ad_booking_value d = _calculate_booking_value info.
Proof.
  unfold _process_for_attribution.
  destruct (negb _ && negb _); [discriminate|]. now intros [= <-].
Qed.

Lemma lower_char_idem (c : ascii) : lower_char (lower_char c) = lower_char c.
Proof. destruct c as [[] [] [] [] [] [] [] []]; reflexivity. Qed.

Lemma lower_idem (s : string) : lower (lower s) = lower s.
Proof.
  induction s as [|c r IH]; simpl; [reflexivity|].
  unfold lower in *. simpl. now rewrite lower_char_idem, IH.
Qed.

Lemma clean_phone_idem (p : string) : clean_phone (clean_phone p) = clean_phone p.
Proof.
  unfold clean_phone. induction p as [|c r IH]; simpl; [reflexivity|].
  destruct (isdigit c) eqn:E; simpl; [rewrite E, IH|]; auto.
Qed.

Lemma clean_phone_digits (p : string) : sforall isdigit (clean_phone p) = true.
Proof.
  unfold clean_phone. induction p as [|c r IH]; simpl; [reflexivity|].
  destruct (isdigit c) eqn:E; simpl; [rewrite E|]; auto.
Qed.

End SquareBookingFacts.

(** What the estimate gives on three bookings: no segment at all, a
    segment list that cannot be iterated, and three segments of 20, 45 and
    90 minutes. *)
Example booking_value_no_segments :
  SquareBooking._calculate_booking_value
    {| SquareBooking.bi_booking_id := "bk1"; SquareBooking.bi_customer_id := None;
       SquareBooking.bi_customer := None;
       SquareBooking.bi_service_details := SquareBooking.SdList [] |} = 35%Q.
Proof. reflexivity. Qed.

Example booking_value_three_segments :
  SquareBooking._calculate_booking_value
    {| SquareBooking.bi_booking_id := "bk2"; SquareBooking.bi_customer_id := None;
       SquareBooking.bi_customer := None;
       SquareBooking.bi_service_details :=
         SquareBooking.SdList
           [SquareBooking.SegDict (Some (SquareBooking.VNum 20));
            SquareBooking.SegDict (Some (SquareBooking.VNum 45));
            SquareBooking.SegDict (Some (SquareBooking.VNum 90))] |} == 145.
Proof. reflexivity. Qed.

(** With the service as [__init__] builds it, the customer lookup raises
    on the missing [client] attribute: a webhook that names a customer is
    answered [False] and no attribution data is prepared; one without a
    customer has no email or phone to hash. *)
Example webhook_on_fresh_service :
  SquareBooking.process_booking_webhook (fun _ => None)
    (SquareBooking.init (fun _ => None)) Samples.booking_webhook = (false, None) /\
  SquareBooking.process_booking_webhook (fun _ => None)
    (SquareBooking.init (fun _ => None))
    {| SquareBooking.wh_type := Some "booking.created"%string;
       SquareBooking.wh_id := Some "bk4"%string;
       SquareBooking.wh_customer_id := None;
       SquareBooking.wh_appointment_segments := SquareBooking.SdList [] |}
  = (true, None).
Proof. split; reflexivity. Qed.

(** C10. For every booking, the estimated booking value is at least 35, and
    it is exactly 45 when the estimation fails internally, whatever the
    number and the durations of the service segments; every attribution
    record prepared on the Square webhook path carries such a value, hence
    a strictly positive one. *)
Theorem C10_booking_value_floor :
  (forall info : SquareBooking.booking_info,
      (35 <= SquareBooking._calculate_booking_value info)%Q /\
      (SquareBooking.booking_value_try info = None ->
       SquareBooking._calculate_booking_value info = 45%Q)) /\
  (forall env svc w d,
      snd (SquareBooking.process_booking_webhook env svc w) = Some d ->
      (35 <= SquareBooking.ad_booking_value d)%Q /\
      (0 < SquareBooking.ad_booking_value d)%Q).
Proof.
  split.
  - intros info. split; [apply calculate_booking_value_floor|].
    unfold SquareBooking._calculate_booking_value. now intros ->.
  - intros env svc w d H.
    assert (V : exists info, SquareBooking.ad_booking_value d =
                             SquareBooking._calculate_booking_value info).
    { unfold SquareBooking.process_booking_webhook in H.
      destruct (negb _); [discriminate|].
      destruct (SquareBooking.wh_id w) as [[|c r]|]; try discriminate;
        destruct (SquareBooking.wh_customer_id w) as [cid|];
        try destruct (PyStr.truthy (Some cid));
        try destruct (SquareBooking.get_customer_details svc cid);
        simpl in H; try discriminate;
        eexists; eapply process_for_attribution_value; exact H. }
    destruct V as [info ->].
    pose proof (calculate_booking_value_floor info). split; lra.
Qed.

(** The two hypotheses of C10 are met: an estimation that fails, and a
    webhook for which attribution data is prepared (by a service whose
    client is set and whose customer lookup answers). *)
Lemma C10_booking_value_floor_witness :
  SquareBooking._calculate_booking_value
    {| SquareBooking.bi_booking_id := "bk3"; SquareBooking.bi_customer_id := None;
       SquareBooking.bi_customer := None;
       SquareBooking.bi_service_details := SquareBooking.SdNotIterable |} = 45%Q
  /\
  exists d,
    snd (SquareBooking.process_booking_webhook (fun _ => None)
           Samples.square_service Samples.booking_webhook) = Some d /\
    (35 <= SquareBooking.ad_booking_value d)%Q.
Proof.
  split.
  - apply (proj1 C10_booking_value_floor). reflexivity.
  - eexists. split; [vm_compute; reflexivity|].
    apply (proj2 C10_booking_value_floor (fun _ => None)
             Samples.square_service Samples.booking_webhook).
    vm_compute. reflexivity.
Defined.

(** C3 (as amended). Identity hashing is a function of the normalized
    identifier and the salt: an email is lower-cased (and not trimmed), a
    phone number is reduced to its digits, so that on ASCII text two emails
    with the same lower-casing, and two phone numbers with the same digits,
    get the same hash; the hash of an identifier is the hash of its normal
    form. *)
Theorem C3_identity_hash_normalization (salt e1 e2 p1 p2 : string) :
  PyStr.ascii_text e1 = true -> PyStr.ascii_text e2 = true ->
  PyStr.ascii_text p1 = true -> PyStr.ascii_text p2 = true ->
  PyStr.lower e1 = PyStr.lower e2 ->
  SquareBooking.clean_phone p1 = SquareBooking.clean_phone p2 ->
  SquareBooking.email_hash e1 salt = SquareBooking.email_hash e2 salt /\
  SquareBooking.phone_hash p1 salt = SquareBooking.phone_hash p2 salt /\
  SquareBooking.email_hash e1 salt = SquareBooking.email_hash (PyStr.lower e1) salt /\
  SquareBooking.phone_hash p1 salt =
    SquareBooking.phone_hash (SquareBooking.clean_phone p1) salt /\
  PyStr.sforall PyStr.isdigit (SquareBooking.clean_phone p1) = true.
Proof.
  intros _ _ _ _ He Hp.
  unfold SquareBooking.email_hash, SquareBooking.phone_hash.
  rewrite He, Hp, lower_idem, clean_phone_idem.
  repeat split; auto using clean_phone_digits.
Qed.

Lemma C3_identity_hash_normalization_witness :
  SquareBooking.email_hash "a@b.com" "default-salt" =
    SquareBooking.email_hash "A@B.COM" "default-salt" /\
  SquareBooking.phone_hash "(555) 123-4567" "default-salt" =
    SquareBooking.phone_hash "555.123.4567" "default-salt".
Proof.
  pose proof (C3_identity_hash_normalization "default-salt"
                "a@b.com" "A@B.COM" "(555) 123-4567" "555.123.4567"
                eq_refl eq_refl eq_refl eq_refl eq_refl eq_refl) as H.
  split; [exact (proj1 H) | exact (proj1 (proj2 H))].
Defined.

(** C3, as stated, fails: the email is not trimmed, so a trailing space
    changes the hash. With the default salt, ["a@b.com"] and ["A@B.COM "]
    are hashed to two different digests. *)
Lemma C3_trailing_space_changes_hash :
  PyStr.lower "A@B.COM " = "a@b.com "%string /\
  SquareBooking.email_hash "a@b.com" "default-salt" =
    "8ddd9559472742565b8eba5172f573d532e75573dafea19f5cedd036dda9744d"%string /\
  String.eqb (SquareBooking.email_hash "a@b.com" "default-salt")
             (SquareBooking.email_hash "A@B.COM " "default-salt") = false.
Proof. vm_compute. repeat split. Qed.

(** The service built by [__init__] in an environment that sets the
    signature key. *)
Example verify_accepts_the_hmac :
  let svc := SquareBooking.init
               (fun k => if String.eqb k "SQUARE_WEBHOOK_SIGNATURE_KEY"
                         then Some "whsec"%string else None) in
  SquareBooking.verify_webhook_signature svc "booking.created:bk-1"
    "0cbff652a72cebfe3853e69aab9ba816cda6728d167270869ce5082483edaa97" = true /\
  SquareBooking.verify_webhook_signature svc "booking.created:bk-1"
    "f85a30eb869cc62d7e88b7f518180213f84d5fcccc7800812a424a7fbe96938b" = false.
Proof. vm_compute. split; reflexivity. Qed.

(** C9 (as amended). When a non-empty signature key is configured, the
    verification accepts a payload exactly when the signature is the
    hexadecimal HMAC-SHA256 of the payload under that key; when no key is
    configured (unset or empty) it accepts every payload with every
    signature. *)
Theorem C9_signature_verification (svc : SquareBooking.service)
  (payload signature : string) :
  (forall key, SquareBooking.sv_webhook_signature_key svc = Some key ->
               key <> EmptyString ->
     (SquareBooking.verify_webhook_signature svc payload signature = true <->
      signature = Sha256.hmac_hexdigest (PyStr.encode key) (PyStr.encode payload))) /\
  (PyStr.truthy (SquareBooking.sv_webhook_signature_key svc) = false ->
   SquareBooking.verify_webhook_signature svc payload signature = true).
Proof.
  unfold SquareBooking.verify_webhook_signature. split.
  - intros key -> Hk. destruct key as [|c r]; [contradiction|].
    apply String.eqb_eq.
  - destruct (SquareBooking.sv_webhook_signature_key svc) as [[|c r]|];
      simpl; congruence.
Qed.

Lemma C9_signature_verification_witness :
  SquareBooking.verify_webhook_signature
    (SquareBooking.init
       (fun k => if String.eqb k "SQUARE_WEBHOOK_SIGNATURE_KEY"
                 then Some "whsec"%string else None))
    "payload"
    (Sha256.hmac_hexdigest (PyStr.encode "whsec") (PyStr.encode "payload")) = true
  /\
  SquareBooking.verify_webhook_signature (SquareBooking.init (fun _ => None))
    "payload" "forged" = true.
Proof.
  split.
  - apply (proj1 (C9_signature_verification _ "payload" _) "whsec"%string);
      [reflexivity | discriminate | reflexivity].
  - apply (proj2 (C9_signature_verification _ "payload" "forged")). reflexivity.
Defined.

(** C9, as stated, fails: with the signature key set to the empty string
    (or not set at all) a signature that is not the HMAC-SHA256 of the
    payload is accepted. *)
Lemma C9_forged_signature_accepted_without_key :
  let env := fun k => if String.eqb k "SQUARE_WEBHOOK_SIGNATURE_KEY"
                      then Some EmptyString else None in
  let payload := "booking.created:bk-1"%string in
  SquareBooking.sv_webhook_signature_key (SquareBooking.init env) = Some EmptyString /\
  SquareBooking.verify_webhook_signature (SquareBooking.init env) payload "forged" = true /\
  SquareBooking.verify_webhook_signature (SquareBooking.init (fun _ => None))
    payload "forged" = true /\
  Sha256.hmac_hexdigest (PyStr.encode EmptyString) (PyStr.encode payload) =
    "f85a30eb869cc62d7e88b7f518180213f84d5fcccc7800812a424a7fbe96938b"%string /\
  String.eqb "forged" (Sha256.hmac_hexdigest (PyStr.encode EmptyString) (PyStr.encode payload))
    = false.
Proof. vm_compute. repeat split. Qed.

(** ** [real_data_service.py]: the confidence scorer *)

Section ScorerFacts.

Import PyQ Scorer.
Local Open Scope Q_scope.










End ScorerFacts.

Example no_events_no_confidence :
  Scorer.calculate_attribution_confidence [] = Scorer.NoEvents 0.
Proof. reflexivity. Qed.





(** ** [main.py]: the booking endpoint *)

Section TrackBookingFacts.

Import PyQ Main.

(** The weights the loop has collected do not depend on the clock. *)
Lemma simulate_touchpoints_weights (now1 now2 : Z) (n : nat) :
  forall (acc1 acc2 : list touchpoint) (t : tape),
    map attribution_weight acc1 = map attribution_weight acc2 ->
    match simulate_touchpoints now1 n acc1 t, simulate_touchpoints now2 n acc2 t with
    | Some (l1, t1), Some (l2, t2) =>
        map attribution_weight l1 = map attribution_weight l2 /\ t1 = t2
    | None, None => True
    | _, _ => False
    end.
Proof.
  induction n as [|n IH]; intros acc1 acc2 t Hacc; simpl.
  - unfold ret. auto.
  - cbv [bind].
    destruct (choice sources t) as [[src t1]|]; [|exact I].
    destruct (randint 1 168 t1) as [[hours t2]|]; [|exact I].
    destruct (uniform (1 # 10) (4 # 10) t2) as [[w t3]|]; [|exact I].
    apply IH. rewrite !map_app. simpl. now rewrite Hacc.
Qed.

Lemma normalize_weights_weights (l1 l2 : list touchpoint) :
  map attribution_weight l1 = map attribution_weight l2 ->
  map attribution_weight (normalize_weights l1) =
  map attribution_weight (normalize_weights l2).
Proof.
  unfold normalize_weights. intros H. rewrite !map_map. simpl.
  rewrite <- H.
  rewrite <- (map_map attribution_weight
                (fun w => py_round (w / py_sum (map attribution_weight l1)) 3) l1).
  rewrite <- (map_map attribution_weight
                (fun w => py_round (w / py_sum (map attribution_weight l1)) 3) l2).
  now rewrite H.
Qed.

(** The weights of a run are decided by the draws alone. *)
Lemma run_weights_by_tape (st1 st2 : app_state) (now1 now2 : Z)
  (r1 r2 : BookingRequest) (t : tape) :
  Qle_bool (booking_value r1) 0 = false ->
  Qle_bool (booking_value r2) 0 = false ->
  run_weights (track_booking st1 now1 r1 t) =
  run_weights (track_booking st2 now2 r2 t).
Proof.
  intros H1 H2. unfold track_booking. rewrite H1, H2.
  cbv [bind].
  destruct (randint 1 4 t) as [[k t1]|]; [|reflexivity].
  pose proof (simulate_touchpoints_weights now1 now2 (Z.to_nat k) [] [] t1 eq_refl) as S.
  destruct (simulate_touchpoints now1 (Z.to_nat k) [] t1) as [[l1 u1]|],
           (simulate_touchpoints now2 (Z.to_nat k) [] t1) as [[l2 u2]|];
    try contradiction; [|reflexivity].
  destruct S as [Hw <-].
  destruct (uniform 85 (975 # 10) u1) as [[score u3]|]; [|reflexivity].
  destruct (uniform 45 120 u3) as [[ptime u4]|]; [|reflexivity].
  unfold ret, run_weights, response_of, weights. simpl.
  f_equal. now apply normalize_weights_weights.
Qed.

End TrackBookingFacts.

Section WeightSumFacts.

Import PyQ Main.
Local Open Scope Q_scope.



End WeightSumFacts.


(** C8. Every booking submission whose value is not positive is rejected
    with the HTTP error 400; the rejection leaves the stores of the
    application as they were, consumes no random draw and builds no
    attribution match. *)
Theorem C8_nonpositive_booking_rejected (st : Main.app_state) (now : Z)
  (request : Main.BookingRequest) (t : Main.tape) :
  (Main.booking_value request <= 0)%Q ->
  Main.track_booking st now request t =
    Some (Main.HTTPException 400 "Booking value must be greater than 0", st, t) /\
  Main.response_of (Main.track_booking st now request t) = None.
Proof.
  intros H. apply Qle_bool_iff in H.
  unfold Main.track_booking. rewrite H. split; reflexivity.
Qed.

Lemma C8_nonpositive_booking_rejected_witness :
  Main.track_booking Main.empty_state 1700000000 (Main.demo_request 0) [] =
    Some (Main.HTTPException 400 "Booking value must be greater than 0",
          Main.empty_state, []).
Proof.
  apply (C8_nonpositive_booking_rejected Main.empty_state 1700000000 (Main.demo_request 0) []).
  discriminate.
Defined.

(** A positive booking, on the other hand, is answered with a match. *)
Example positive_booking_matched :
  Main.run_weights
    (Main.track_booking Main.empty_state 1700000000 (Main.demo_request 85)
       [Main.DInt 1; Main.DInt 0; Main.DInt 5; Main.DReal (25 # 100);
        Main.DReal 90; Main.DReal 60]) = Some [1000 # 1000].
Proof. vm_compute. reflexivity. Qed.

(** C1, evaluated where the code departs from it: three touchpoints drawn
    with the same raw weight 0.25 are each normalized to
    [round(0.25 / 0.75, 3) = 0.333]; the list is not empty and the weights
    sum to 0.999, which is not within 1e-6 of 1.0. *)
Theorem C1_rounded_weights_sum_to_0_999 :
  let t := [Main.DInt 3;
            Main.DInt 0; Main.DInt 5; Main.DReal (25 # 100);
            Main.DInt 1; Main.DInt 30; Main.DReal (25 # 100);
            Main.DInt 2; Main.DInt 100; Main.DReal (25 # 100);
            Main.DReal 90; Main.DReal 60] in
  let run := Main.track_booking Main.empty_state 1700000000 (Main.demo_request 85) t in
  Main.run_weights run = Some [333 # 1000; 333 # 1000; 333 # 1000] /\
  (PyQ.py_sum [333 # 1000; 333 # 1000; 333 # 1000] == 999 # 1000)%Q /\
  Main.sums_to_one [333 # 1000; 333 # 1000; 333 # 1000] = false.
Proof. vm_compute. repeat split. Qed.

(** C2 (as amended). The weights of a match are a function of the random
    draws alone: two runs that see the same draws produce the same weights,
    whatever the two accepted bookings, the clock and the stores. *)
Theorem C2_weights_decided_by_draws (st1 st2 : Main.app_state) (now1 now2 : Z)
  (r1 r2 : Main.BookingRequest) (t : Main.tape) :
  (0 < Main.booking_value r1)%Q -> (0 < Main.booking_value r2)%Q ->
  Main.run_weights (Main.track_booking st1 now1 r1 t) =
  Main.run_weights (Main.track_booking st2 now2 r2 t).
Proof.
  intros H1 H2. apply run_weights_by_tape.
  - destruct (Qle_bool (Main.booking_value r1) 0) eqn:E; [|reflexivity].
    apply Qle_bool_iff in E. lra.
  - destruct (Qle_bool (Main.booking_value r2) 0) eqn:E; [|reflexivity].
    apply Qle_bool_iff in E. lra.
Qed.

Lemma C2_weights_decided_by_draws_witness :
  Main.run_weights
    (Main.track_booking Main.empty_state 1700000000 (Main.demo_request 85)
       [Main.DInt 1; Main.DInt 0; Main.DInt 5; Main.DReal (25 # 100);
        Main.DReal 90; Main.DReal 60]) =
  Main.run_weights
    (Main.track_booking Main.empty_state 1700003600 (Main.demo_request 120)
       [Main.DInt 1; Main.DInt 0; Main.DInt 5; Main.DReal (25 # 100);
        Main.DReal 90; Main.DReal 60]).
Proof.
  apply (C2_weights_decided_by_draws Main.empty_state Main.empty_state 1700000000 1700003600
           (Main.demo_request 85) (Main.demo_request 120)); reflexivity.
Defined.

(** C2, as stated, fails: two runs on the same booking, at the same time
    and in the same state, give different weights when the draws differ. *)
Lemma C2_same_booking_different_weights :
  let run t := Main.run_weights
                 (Main.track_booking Main.empty_state 1700000000 (Main.demo_request 85) t) in
  run [Main.DInt 1; Main.DInt 0; Main.DInt 5; Main.DReal (25 # 100);
       Main.DReal 90; Main.DReal 60] = Some [1000 # 1000] /\
  run [Main.DInt 2; Main.DInt 0; Main.DInt 5; Main.DReal (10 # 100);
       Main.DInt 1; Main.DInt 30; Main.DReal (30 # 100);
       Main.DReal 90; Main.DReal 60] = Some [250 # 1000; 750 # 1000].
Proof. vm_compute. split; reflexivity. Qed.



(** ** [real_data_service.py]: fetches, fallbacks and aggregation *)

Section RealDataFacts.

Import PyFloat RealData.

(** A fetch returns the fallback of its platform unless the call answered
    200 with a body that was parsed and processed. *)
Lemma fetch_cases {B} (session : bool) (call : net_call) (answer : http_outcome B)
  (process : B -> option platform_record) (fallback : platform_record) :
  fst (fetch session call answer process fallback) = fallback \/
  exists data r, session = true /\ answer = Response 200 (Some data) /\
                 process data = Some r /\
                 fetch session call answer process fallback = (r, [call]).
Proof.
  unfold fetch. destruct session; simpl; [|now left].
  destruct answer as [|st [data|]]; simpl; try (now left).
  - destruct (st =? 200) eqn:E; [|now left].
    apply Z.eqb_eq in E. subst st.
    destruct (process data) as [r|] eqn:P; [|now left].
    right. exists data, r. auto.
  - destruct (st =? 200); now left.
Qed.

(** At most one call is made, and none without a session. *)
Lemma fetch_calls {B} (session : bool) (call : net_call) (answer : http_outcome B)
  (process : B -> option platform_record) (fallback : platform_record) :
  snd (fetch session call answer process fallback) =
  if session then [call] else [].
Proof.
  unfold fetch. destruct session; simpl; [|reflexivity].
  destruct answer as [|st [data|]]; simpl; try reflexivity;
    destruct (st =? 200); try reflexivity.
  destruct (process data); reflexivity.
Qed.

(** Each step of a processing loop adds one item, related to its input. *)
Lemma loop_items {I O} (step : acc O -> I -> option (acc O)) (R : I -> O -> Prop) :
  (forall a x a', step a x = Some a' ->
                  exists o, acc_items a' = acc_items a ++ [o] /\ R x o) ->
  forall l a a', loop step a l = Some a' ->
                 exists os, acc_items a' = acc_items a ++ os /\ Forall2 R l os.
Proof.
  intros Hstep. induction l as [|x r IH]; simpl; intros a a' H.
  - injection H as <-. exists []. now rewrite app_nil_r.
  - destruct (step a x) as [a1|] eqn:S; [|discriminate].
    destruct (Hstep _ _ _ S) as [o [Eo Ro]].
    destruct (IH _ _ H) as [os [Eos Ros]].
    exists (o :: os). split; [|now constructor].
    rewrite Eos, Eo, <- app_assoc. reflexivity.
Qed.

End RealDataFacts.

Section NormalizationFacts.

Import PyFloat RealData.

Lemma sq_step_item (a : acc transaction) (p : sq_payment) (a' : acc transaction) :
  sq_step a p = Some a' ->
  exists t, acc_items a' = acc_items a ++ [t] /\
            dollars_of 100 (sq_amount p) (t_amount t).
Proof.
  unfold sq_step, cents_to_dollars.
  destruct (py_float (get0 (sq_amount p))) as [f|] eqn:F; [|discriminate].
  destruct (status_is (sq_status p) "COMPLETED");
    [destruct (add_int (acc_count a) 1); [|discriminate]|];
    intros [= <-]; simpl; eexists; (split; [reflexivity|]);
    exists f; auto.
Qed.

Lemma st_step_item (a : acc charge) (c : st_charge) (a' : acc charge) :
  st_step a c = Some a' ->
  exists ch, acc_items a' = acc_items a ++ [ch] /\
             dollars_of 100 (st_amount c) (ch_amount ch).
Proof.
  unfold st_step, cents_to_dollars.
  destruct (py_float (get0 (st_amount c))) as [f|] eqn:F; [|discriminate].
  destruct (st_currency c) as [[cur|]|]; try discriminate;
    (destruct (status_is (st_status c) "succeeded");
     [destruct (add_int (acc_count a) 1); [|discriminate]|];
     intros [= <-]; simpl; eexists; (split; [reflexivity|]);
     exists f; auto).
Qed.

Lemma g_step_item (a : acc campaign) (g : g_result) (a' : acc campaign) :
  g_step a g = Some a' ->
  exists c, acc_items a' = acc_items a ++ [c] /\
            dollars_of 1000000 (g_costMicros g) (c_spend c).
Proof.
  unfold g_step, micros_to_dollars.
  destruct (py_float (get0 (g_costMicros g))) as [f|] eqn:F; [|discriminate].
  destruct (py_int (get0 (g_clicks g))); [|discriminate].
  destruct (py_float (get0 (g_conversions g))) as [cv|]; [|discriminate].
  destruct (trunc cv); [|discriminate].
  destruct (average _ _); [|discriminate].
  destruct (add_float _ _); [|discriminate].
  intros [= <-]. simpl. eexists. split; [reflexivity|]. exists f. auto.
Qed.

Lemma success_items (src : string) (its : items) (total : float) (count : pynum)
  (conf : float) (now : string) (r : platform_record) :
  success src its total count conf now = Some r ->
  pr_items r = its /\ status r = "success"%string /\ source r = src.
Proof.
  unfold success. destruct (average total count); [|discriminate].
  intros [= <-]. auto.
Qed.

Lemma map_Forall2 {A B} (R : A -> float -> Prop) (g : B -> float) (l : list A)
  (os : list B) :
  Forall2 (fun x o => R x (g o)) l os -> Forall2 R l (map g os).
Proof. induction 1; simpl; constructor; auto. Qed.

End NormalizationFacts.

(** C7 (as amended). A live record lists every monetary amount as the raw
    platform amount converted by [float()] and divided by the fixed
    divisor of the platform, 100 for the cent amounts of Square and Stripe
    and 1,000,000 for the micro-units of Google Ads; the division is the
    binary64 floating-point division. *)
Theorem C7_amounts_divided_by_fixed_divisors (now : string) :
  (forall data r, RealData.sq_process now data = Some r ->
     Forall2 (fun p amount => RealData.dollars_of 100 (RealData.sq_amount p) amount)
             data (RealData.amounts r)) /\
  (forall data r, RealData.st_process now data = Some r ->
     Forall2 (fun c amount => RealData.dollars_of 100 (RealData.st_amount c) amount)
             data (RealData.amounts r)) /\
  (forall data r, RealData.g_process now data = Some r ->
     Forall2 (fun g amount =>
                RealData.dollars_of 1000000 (RealData.g_costMicros g) amount)
             data (RealData.amounts r)).
Proof.
  repeat split; intros data r H.
  - unfold RealData.sq_process in H.
    destruct (RealData.loop RealData.sq_step RealData.acc0 data) as [a|] eqn:L;
      [|discriminate].
    apply success_items in H. destruct H as [Hi _].
    unfold RealData.amounts. rewrite Hi.
    destruct (loop_items RealData.sq_step _ sq_step_item _ _ _ L) as [os [E F]].
    simpl in E. subst. now apply map_Forall2.
  - unfold RealData.st_process in H.
    destruct (RealData.loop RealData.st_step RealData.acc0 data) as [a|] eqn:L;
      [|discriminate].
    apply success_items in H. destruct H as [Hi _].
    unfold RealData.amounts. rewrite Hi.
    destruct (loop_items RealData.st_step _ st_step_item _ _ _ L) as [os [E F]].
    simpl in E. subst. now apply map_Forall2.
  - unfold RealData.g_process in H.
    destruct (RealData.loop RealData.g_step RealData.acc0 data) as [a|] eqn:L;
      [|discriminate].
    apply success_items in H. destruct H as [Hi _].
    unfold RealData.amounts. rewrite Hi.
    destruct (loop_items RealData.g_step _ g_step_item _ _ _ L) as [os [E F]].
    simpl in E. subst. now apply map_Forall2.
Qed.

(** The hypotheses of C7 are met by a Square answer of two payments. *)
Lemma C7_amounts_divided_by_fixed_divisors_witness :
  exists r,
    RealData.sq_process Samples.now
      [Samples.payment "p1" 8500; Samples.payment "p2" 12000] = Some r /\
    Forall2 (fun p amount => RealData.dollars_of 100 (RealData.sq_amount p) amount)
            [Samples.payment "p1" 8500; Samples.payment "p2" 12000]
            (RealData.amounts r).
Proof.
  eexists. split; [vm_compute; reflexivity|].
  apply (proj1 (C7_amounts_divided_by_fixed_divisors Samples.now)).
  vm_compute. reflexivity.
Defined.

(** C7, as stated, fails: the conversion is done in binary floating point.
    Ten cents become the binary64 number nearest to 0.1, which is not the
    decimal 0.10, and the revenue of two payments of 10 and 20 cents is
    0.30000000000000004, not the 0.3 that 30 cents convert to. *)
Lemma C7_conversion_is_binary_floating_point :
  let r := fst (RealData.fetch_square_transactions true Samples.now
                  (RealData.Response 200
                     (Some [Samples.payment "p1" 10; Samples.payment "p2" 20]))
                  "token" "demo-location") in
  RealData.status r = "success"%string /\
  RealData.cents_to_dollars (PyFloat.JInt 10) = Some 0.1%float /\
  (PyFloat.to_Q 0.1%float == 3602879701896397 # 36028797018963968)%Q /\
  Qeq_bool (PyFloat.to_Q 0.1%float) (10 # 100) = false /\
  RealData.sm_total (RealData.pr_summary r) = 0.30000000000000004%float /\
  RealData.cents_to_dollars (PyFloat.JInt 30) = Some 0.3%float /\
  PrimFloat.eqb (RealData.sm_total (RealData.pr_summary r)) 0.3%float = false.
Proof. vm_compute. repeat split. Qed.

Section AggregationFacts.

Import PyFloat RealData DataIntegration.

(** The fixed fallback records are marked as such. *)
Lemma fallback_status (now : string) :
  status (_get_fallback_facebook_data now) = "fallback"%string /\
  status (_get_fallback_google_data now) = "fallback"%string /\
  status (_get_fallback_square_data now) = "fallback"%string /\
  status (_get_fallback_stripe_data now) = "fallback"%string.
Proof. repeat split. Qed.

(** Whatever the network does, a fetch returns a record: the fallback of
    its platform on a failure, a record marked [success] otherwise. *)
Lemma fetch_facebook_total (session : bool) (now : string)
  (answer : http_outcome (list fb_campaign)) (tok acct : string) :
  fst (fetch_facebook_conversions session now answer tok acct) =
    _get_fallback_facebook_data now \/
  status (fst (fetch_facebook_conversions session now answer tok acct)) =
    "success"%string.
Proof.
  unfold fetch_facebook_conversions.
  destruct (fetch_cases session (GetFacebookInsights tok acct) answer
              (fb_process now) (_get_fallback_facebook_data now))
    as [H|[data [r [_ [_ [P ->]]]]]]; [now left|right].
  unfold fb_process in P. destruct (loop fb_step acc0 data); [|discriminate].
  unfold success in P. destruct (average _ _); [|discriminate].
  now injection P as <-.
Qed.

(** A failure of any kind gives the fallback. *)
Lemma fetch_failure_gives_fallback {B} (call : net_call)
  (process : B -> option platform_record) (fallback : platform_record) :
  fst (fetch false call Raised process fallback) = fallback /\
  fst (fetch true call Raised process fallback) = fallback /\
  (forall body, fst (fetch true call (Response 401 body) process fallback) = fallback) /\
  (forall body, fst (fetch true call (Response 500 body) process fallback) = fallback) /\
  fst (fetch true call (Response 200 None) process fallback) = fallback /\
  (forall data, process data = None ->
     fst (fetch true call (Response 200 (Some data)) process fallback) = fallback).
Proof.
  repeat split; intros; try reflexivity.
  unfold fetch. simpl. now rewrite H.
Qed.

(** Without any credential, the aggregation returns the four fallbacks
    and makes no network call. *)
Lemma no_credentials_all_fallback (env : environ) (net : network) (now : string) :
  PyStr.truthy (env "FACEBOOK_ACCESS_TOKEN"%string) = false ->
  PyStr.truthy (env "GOOGLE_ACCESS_TOKEN"%string) = false ->
  PyStr.truthy (env "SQUARE_ACCESS_TOKEN"%string) = false ->
  PyStr.truthy (env "STRIPE_ACCESS_TOKEN"%string) = false ->
  get_all_platform_data env net now = (all_fallback now, []).
Proof.
  intros F G S T. unfold get_all_platform_data, task_if.
  rewrite F, G, S, T.
  destruct (env "FACEBOOK_ACCESS_TOKEN"%string), (env "GOOGLE_ACCESS_TOKEN"%string),
    (env "SQUARE_ACCESS_TOKEN"%string), (env "STRIPE_ACCESS_TOKEN"%string);
    reflexivity.
Qed.

(** ... and the integration status is [demo_mode]. *)
Lemma no_credentials_demo_mode (env : environ) (net : network)
  (now business_id : string) :
  PyStr.truthy (env "FACEBOOK_ACCESS_TOKEN"%string) = false ->
  PyStr.truthy (env "GOOGLE_ACCESS_TOKEN"%string) = false ->
  PyStr.truthy (env "SQUARE_ACCESS_TOKEN"%string) = false ->
  PyStr.truthy (env "STRIPE_ACCESS_TOKEN"%string) = false ->
  let '(s, calls) := get_data_integration_status env net now business_id in
  integration_status s = "demo_mode"%string /\
  map (fun kv => pi_status (snd kv)) (platforms s) =
    ["fallback"; "fallback"; "fallback"; "fallback"]%string /\
  calls = [].
Proof.
  intros F G S T. unfold get_data_integration_status.
  rewrite (no_credentials_all_fallback env net now F G S T).
  unfold integration_status_of. cbn -[PrimFloat.leb PrimFloat.mul PrimFloat.div of_Z py_round].
  rewrite F, G, S, T.
  repeat split.
Qed.

End AggregationFacts.

Example no_credentials_status :
  DataIntegration.integration_status
    (fst (DataIntegration.get_data_integration_status (Samples.env_of [])
            Samples.live_network Samples.now "demo-business-123"))
  = "demo_mode"%string.
Proof. vm_compute. reflexivity. Qed.

(** C5, evaluated where the code departs from it. With only the Google
    Ads token configured and Google answering, the Facebook credentials
    are absent, yet the record returned for Facebook is not the Facebook
    fallback: it is the live Google record, obtained from the one network
    call; the Google key gets the Google fallback instead. *)
Theorem C5_absent_credentials_get_another_platforms_record :
  let env := Samples.env_of [("GOOGLE_ACCESS_TOKEN", "g-token")]%string in
  let run := RealData.get_all_platform_data env Samples.live_network Samples.now in
  PyStr.truthy (env "FACEBOOK_ACCESS_TOKEN"%string) = false /\
  RealData.status (RealData.facebook (fst run)) = "success"%string /\
  RealData.source (RealData.facebook (fst run)) = "google_ads"%string /\
  RealData.google (fst run) = RealData._get_fallback_google_data Samples.now /\
  snd run = [RealData.PostGoogleAdsSearch "g-token" "1234567890"].
Proof. vm_compute. repeat split. Qed.

(** C6, evaluated where the code departs from it. With only the Stripe
    token configured and Stripe answering, the live Stripe record is
    filed under the Facebook key and the Stripe key gets the Stripe
    fallback; the status report then shows Facebook as connected to its
    API without a token. *)
Theorem C6_stripe_result_filed_under_facebook :
  let env := Samples.env_of [("STRIPE_ACCESS_TOKEN", "sk_live")]%string in
  let d := fst (RealData.get_all_platform_data env Samples.live_network Samples.now) in
  let s := fst (DataIntegration.get_data_integration_status env Samples.live_network
                  Samples.now "demo-business-123") in
  RealData.source (RealData.facebook d) = "stripe_payments"%string /\
  RealData.status (RealData.facebook d) = "success"%string /\
  RealData.stripe d = RealData._get_fallback_stripe_data Samples.now /\
  DataIntegration.integration_status s = "partially_integrated"%string /\
  map (fun kv => (fst kv, DataIntegration.pi_api_connectivity (snd kv),
                  DataIntegration.has_oauth_token (snd kv)))
      (DataIntegration.platforms s) =
    [("facebook", "connected", false); ("google", "using_fallback", false);
     ("square", "using_fallback", false); ("stripe", "using_fallback", true)]%string.
Proof. vm_compute. repeat split. Qed.

(** X1. A platform fetch never fails: whatever the session and the
    network answer, it returns either the fixed fallback record of its
    platform, marked [fallback], or a record marked [success] that was
    processed from a 200 answer with a parsed body. *)
Theorem X1_fetch_returns_fallback_or_live (session : bool) (now tok id : string) :
  (forall answer,
     let r := fst (RealData.fetch_facebook_conversions session now answer tok id) in
     (r = RealData._get_fallback_facebook_data now /\
      RealData.status r = "fallback"%string) \/
     (RealData.status r = "success"%string /\
      exists data, answer = RealData.Response 200 (Some data) /\
                   RealData.fb_process now data = Some r)) /\
  (forall answer,
     let r := fst (RealData.fetch_google_ads_data session now answer tok id) in
     (r = RealData._get_fallback_google_data now /\
      RealData.status r = "fallback"%string) \/
     (RealData.status r = "success"%string /\
      exists data, answer = RealData.Response 200 (Some data) /\
                   RealData.g_process now data = Some r)) /\
  (forall answer,
     let r := fst (RealData.fetch_square_transactions session now answer tok id) in
     (r = RealData._get_fallback_square_data now /\
      RealData.status r = "fallback"%string) \/
     (RealData.status r = "success"%string /\
      exists data, answer = RealData.Response 200 (Some data) /\
                   RealData.sq_process now data = Some r)) /\
  (forall answer,
     let r := fst (RealData.fetch_stripe_events session now answer tok) in
     (r = RealData._get_fallback_stripe_data now /\
      RealData.status r = "fallback"%string) \/
     (RealData.status r = "success"%string /\
      exists data, answer = RealData.Response 200 (Some data) /\
                   RealData.st_process now data = Some r)).
Proof.
  repeat split; intros answer r; subst r;
    unfold RealData.fetch_facebook_conversions, RealData.fetch_google_ads_data,
           RealData.fetch_square_transactions, RealData.fetch_stripe_events;
    match goal with
    | |- context [RealData.fetch ?s ?c ?a ?p ?f] =>
        destruct (fetch_cases s c a p f) as [H|[data [r [_ [Ha [P E]]]]]]
    end;
    try (left; rewrite H; split; reflexivity);
    right; rewrite E; simpl fst;
    (split; [|exists data; auto]);
    unfold RealData.fb_process, RealData.g_process, RealData.sq_process,
           RealData.st_process in P;
    match type of P with
    | match ?l with _ => _ end = _ => destruct l; [|discriminate]
    end;
    apply success_items in P; tauto.
Qed.

(** X2. With none of the four access tokens configured, the aggregation
    makes no network call and returns the four fallback records, and the
    integration status is [demo_mode]. *)
Theorem X2_no_credentials_demo_mode (env : environ) (net : RealData.network)
  (now business_id : string) :
  PyStr.truthy (env "FACEBOOK_ACCESS_TOKEN"%string) = false ->
  PyStr.truthy (env "GOOGLE_ACCESS_TOKEN"%string) = false ->
  PyStr.truthy (env "SQUARE_ACCESS_TOKEN"%string) = false ->
  PyStr.truthy (env "STRIPE_ACCESS_TOKEN"%string) = false ->
  RealData.get_all_platform_data env net now = (RealData.all_fallback now, []) /\
  DataIntegration.integration_status
    (fst (DataIntegration.get_data_integration_status env net now business_id))
  = "demo_mode"%string /\
  map (fun kv => DataIntegration.pi_status (snd kv))
      (DataIntegration.platforms
         (fst (DataIntegration.get_data_integration_status env net now business_id)))
  = ["fallback"; "fallback"; "fallback"; "fallback"]%string.
Proof.
  intros F G S T.
  pose proof (no_credentials_all_fallback env net now F G S T) as A.
  pose proof (no_credentials_demo_mode env net now business_id F G S T) as D.
  destruct (DataIntegration.get_data_integration_status env net now business_id)
    as [s calls].
  simpl fst. tauto.
Qed.

Lemma X2_no_credentials_demo_mode_witness :
  RealData.get_all_platform_data (Samples.env_of []) Samples.live_network Samples.now
  = (RealData.all_fallback Samples.now, []).
Proof.
  apply (X2_no_credentials_demo_mode (Samples.env_of []) Samples.live_network
           Samples.now "demo-business-123"); reflexivity.
Defined.

(** ** [main.py]: the cache and the rate limiter *)

Section DictFacts.

Import PyDict.

Context {V : Type}.

Lemma get_set_eq (d : dict V) (k : string) (v : V) : get (set d k v) k = Some v.
Proof.
  induction d as [|[k' v'] r IH]; simpl.
  - now rewrite String.eqb_refl.
  - destruct (String.eqb k k') eqn:E; simpl.
    + now rewrite String.eqb_refl.
    + now rewrite E.
Qed.

Lemma get_set_ne (d : dict V) (k k' : string) (v : V) :
  k <> k' -> get (set d k v) k' = get d k'.
Proof.
  intros N. induction d as [|[k0 v0] r IH]; simpl.
  - destruct (String.eqb k' k) eqn:E; [|reflexivity].
    apply String.eqb_eq in E. congruence.
  - destruct (String.eqb k k0) eqn:E; simpl.
    + apply String.eqb_eq in E. subst k0.
      destruct (String.eqb k' k) eqn:E'; [|reflexivity].
      apply String.eqb_eq in E'. congruence.
    + destruct (String.eqb k' k0); [reflexivity | exact IH].
Qed.

Lemma get_pop_eq (d : dict V) (k : string) : get (pop d k) k = None.
Proof.
  induction d as [|[k' v'] r IH]; simpl; [reflexivity|].
  destruct (String.eqb k k') eqn:E; simpl; [exact IH | now rewrite E].
Qed.

Lemma get_pop_ne (d : dict V) (k k' : string) :
  k <> k' -> get (pop d k) k' = get d k'.
Proof.
  intros N. induction d as [|[k0 v0] r IH]; simpl; [reflexivity|].
  destruct (String.eqb k k0) eqn:E; simpl.
  - apply String.eqb_eq in E. subst k0.
    destruct (String.eqb k' k) eqn:E'; [|exact IH].
    apply String.eqb_eq in E'. congruence.
  - destruct (String.eqb k' k0); [reflexivity | exact IH].
Qed.

End DictFacts.

(** X5. A cached entry is served until its time to live has elapsed: after
    [set_cache] at time [t0], a read of the key before [t0 + ttl] returns
    the data and leaves the stores as they are; a read at or after
    [t0 + ttl] returns nothing and removes the key, and only that key, from
    the cache and from the time stamps. *)
Theorem X5_cache_round_trip {V : Type} (s : Server.stores V) (t0 t ttl : Q)
  (key : string) (data : V) :
  let s1 := Server.set_cache s t0 key data in
  ((t - t0 < ttl)%Q ->
   Server.get_from_cache s1 t key ttl = (Some data, s1)) /\
  ((ttl <= t - t0)%Q ->
   let s2 := snd (Server.get_from_cache s1 t key ttl) in
   fst (Server.get_from_cache s1 t key ttl) = None /\
   PyDict.get (Server.cache s2) key = None /\
   PyDict.get (Server.cache_ttl s2) key = None /\
   Server.rate_limit_store s2 = Server.rate_limit_store s /\
   forall k, k <> key ->
     PyDict.get (Server.cache s2) k = PyDict.get (Server.cache s) k /\
     PyDict.get (Server.cache_ttl s2) k = PyDict.get (Server.cache_ttl s) k).
Proof.
  intros s1. unfold Server.get_from_cache. subst s1. simpl.
  rewrite !get_set_eq.
  destruct (Qlt_le_dec (t - t0) ttl) as [L|G]; split; intros H; try reflexivity.
  - exfalso. lra.
  - exfalso. lra.
  - simpl. rewrite !get_pop_eq. repeat split; auto;
      rewrite get_pop_ne, get_set_ne; auto.
Qed.

Lemma X5_cache_round_trip_witness :
  Server.get_from_cache (Server.set_cache Server.no_stores 100 "k" 7%Z) 129 "k" 30
  = (Some 7%Z, Server.set_cache Server.no_stores 100 "k" 7%Z) /\
  fst (Server.get_from_cache (Server.set_cache Server.no_stores 100 "k" 7%Z)
         130 "k" 30) = None.
Proof.
  split.
  - apply (proj1 (X5_cache_round_trip Server.no_stores 100 129 30 "k" 7%Z)).
    reflexivity.
  - apply (proj2 (X5_cache_round_trip Server.no_stores 100 130 30 "k" 7%Z)).
    discriminate.
Defined.

Section RateLimitFacts.

Import PyDict Server.
Local Open Scope Q_scope.

Context {V : Type}.

Lemma check_recorded (s : stores V) (t : Q) (ip ep : string) (limit : Z) (window : Q) :
  let r := check_rate_limit s t ip ep limit window in
  let kept := filter (in_window t window) (recorded s (rate_key ip ep)) in
  recorded (snd r) (rate_key ip ep) = kept ++ (if fst r then [t] else []) /\
  (fst r = true <-> (Z.of_nat (List.length kept) < limit)%Z).
Proof.
  unfold check_rate_limit, recorded.
  destruct (limit <=? _)%Z eqn:E; simpl; rewrite get_set_eq.
  - rewrite app_nil_r. split; [reflexivity|]. apply Z.leb_le in E.
    split; [discriminate | lia].
  - split; [reflexivity|]. apply Z.leb_gt in E. tauto.
Qed.

Lemma check_frame (s : stores V) (t : Q) (ip ep : string) (limit : Z) (window : Q) :
  let r := check_rate_limit s t ip ep limit window in
  cache (snd r) = cache s /\ cache_ttl (snd r) = cache_ttl s /\
  forall k, k <> rate_key ip ep -> recorded (snd r) k = recorded s k.
Proof.
  unfold check_rate_limit, recorded.
  destruct (limit <=? _)%Z; simpl; repeat split; intros;
    rewrite get_set_ne; auto.
Qed.

Lemma in_window_weaken (T t window x : Q) :
  T <= t -> in_window t window x = true -> in_window T window x = true.
Proof.
  unfold in_window. intros H.
  destruct (Qlt_le_dec (t - x) window), (Qlt_le_dec (T - x) window);
    auto; intros _; exfalso; lra.
Qed.

Lemma filter_filter_weaker {A} (p q : A -> bool) (l : list A) :
  (forall x, p x = true -> q x = true) ->
  filter p (filter q l) = filter p l.
Proof.
  intros H. induction l as [|x r IH]; simpl; [reflexivity|].
  destruct (q x) eqn:Q; simpl.
  - destruct (p x); now rewrite IH.
  - destruct (p x) eqn:P; [|exact IH]. apply H in P. congruence.
Qed.

Lemma last_cons {A} (l : list A) : forall a d : A, last (a :: l) d = last l a.
Proof.
  induction l as [|b r IH]; intros a d; [reflexivity|].
  change (last (a :: b :: r) d) with (last (b :: r) d).
  now rewrite (IH b d), (IH b a).
Qed.

Lemma run_recorded (ip ep : string) (limit : Z) (window : Q) :
  0 < window ->
  forall (times : list Q) (s : stores V) (T : Q) (acc : list Q),
    nondecreasing T times ->
    recorded s (rate_key ip ep) = filter (in_window T window) acc ->
    recorded (rate_limit_run s ip ep limit window times) (rate_key ip ep) =
    filter (in_window (last times T) window)
           (acc ++ rate_limit_accepted s ip ep limit window times).
Proof.
  intros W. induction times as [|t r IH]; intros s T acc N H.
  - simpl. now rewrite app_nil_r.
  - destruct N as [N1 N2].
    rewrite last_cons.
    simpl rate_limit_run. simpl rate_limit_accepted.
    rewrite app_assoc. apply IH; [exact N2|].
    destruct (check_recorded s t ip ep limit window) as [R _].
    cbv zeta in R. rewrite R, H.
    rewrite (filter_filter_weaker _ _ acc (fun x => in_window_weaken T t window x N1)).
    rewrite filter_app. f_equal.
    destruct (fst (check_rate_limit s t ip ep limit window)); [|reflexivity].
    simpl. unfold in_window.
    destruct (Qlt_le_dec (t - t) window); [reflexivity | exfalso; lra].
Qed.

Lemma run_length (ip ep : string) (limit : Z) (window : Q) (times : list Q) :
  forall s : stores V,
    (Z.of_nat (List.length (recorded s (rate_key ip ep))) <= Z.max limit 0)%Z ->
    (Z.of_nat (List.length
                 (recorded (rate_limit_run s ip ep limit window times)
                           (rate_key ip ep))) <= Z.max limit 0)%Z.
Proof.
  induction times as [|t r IH]; intros s H; [exact H|].
  simpl. apply IH.
  destruct (check_recorded s t ip ep limit window) as [R D].
  cbv zeta in R, D. rewrite R.
  pose proof (filter_length_le (in_window t window)
                (recorded s (rate_key ip ep))) as F.
  rewrite length_app.
  destruct (fst (check_rate_limit s t ip ep limit window)).
  - simpl List.length. assert (E : true = true) by reflexivity.
    apply D in E. lia.
  - simpl List.length. lia.
Qed.

End RateLimitFacts.


(** X7. Over a run of requests of one client on one endpoint, started with
    empty stores and with clock readings that do not go back, the requests
    recorded after the last call are the accepted requests within the
    window that ends at the last call, and there are at most [limit] of
    them: the limiter never lets more than [limit] requests through in a
    window. *)
Theorem X7_rate_limit_sliding_window {V : Type} (ip ep : string) (limit : Z)
  (window t0 : Q) (rest : list Q) :
  (0 < window)%Q -> Server.nondecreasing t0 rest ->
  let times := t0 :: rest in
  let s := Server.rate_limit_run (@Server.no_stores V) ip ep limit window times in
  let accepted :=
    Server.rate_limit_accepted (@Server.no_stores V) ip ep limit window times in
  let inside := filter (Server.in_window (last rest t0) window) accepted in
  Server.recorded s (Server.rate_key ip ep) = inside /\
  (Z.of_nat (List.length inside) <= Z.max limit 0)%Z.
Proof.
  intros W N times s accepted inside.
  assert (R : Server.recorded s (Server.rate_key ip ep) = inside).
  { unfold s, inside, accepted, times.
    rewrite <- (last_cons rest t0 t0).
    apply (run_recorded ip ep limit window W (t0 :: rest) Server.no_stores t0 []).
    - split; [apply Qle_refl | exact N].
    - reflexivity. }
  split; [exact R|]. rewrite <- R. unfold s.
  apply run_length. simpl. lia.
Qed.

Lemma X7_rate_limit_sliding_window_witness :
  Server.recorded
    (Server.rate_limit_run (@Server.no_stores unit) "10.0.0.1" "dashboard" 2 10
       [0; 1; 2; 11; 12]%Q)
    (Server.rate_key "10.0.0.1" "dashboard")
  = filter (Server.in_window 12 10)
      (Server.rate_limit_accepted (@Server.no_stores unit) "10.0.0.1" "dashboard"
         2 10 [0; 1; 2; 11; 12]%Q).
Proof.
  apply (X7_rate_limit_sliding_window "10.0.0.1" "dashboard" 2 10 0 [1; 2; 11; 12]%Q).
  - reflexivity.
  - simpl. repeat split; discriminate.
Defined.

Example rate_limit_third_request_refused :
  Server.rate_limit_accepted (@Server.no_stores unit) "10.0.0.1" "dashboard" 2 10
    [0; 1; 2; 11; 12]%Q = [0; 1; 11; 12]%Q.
Proof. reflexivity. Qed.

(** ** [main.py]: interaction tracking and the dashboard *)

(** X8. [track_interaction] never answers 400: a business id that does not
    start with [business-] is answered with the error 500 (the handler
    catches its own 400), and every other request is tracked, with
    confidence [high] exactly for an ad click from Facebook Ads or Google
    Ads, and an expiry of 7 days exactly when the confidence is high. *)
Theorem X8_track_interaction_answers (now : Z) (request : Handlers.AttributionRequest) :
  match Handlers.track_interaction now request with
  | Main.HTTPException code detail =>
      prefix "business-" (Handlers.ar_business_id request) = false /\
      code = 500 /\ detail = "Failed to track interaction"%string
  | Main.Ok r =>
      prefix "business-" (Handlers.ar_business_id request) = true /\
      Handlers.ir_status r = "tracked"%string /\
      (Handlers.ir_attribution_confidence r = "high"%string <->
       Handlers.ar_interaction_type request = "ad_click"%string /\
       (Handlers.ar_source request = "facebook_ads"%string \/
        Handlers.ar_source request = "google_ads"%string)) /\
      (Handlers.ir_expire_days r = 7 <->
       Handlers.ir_attribution_confidence r = "high"%string) /\
      In (Handlers.ir_attribution_confidence r) ["high"; "medium"; "low"]%string
  end.
Proof.
  unfold Handlers.track_interaction, Handlers.track_interaction_try.
  destruct (prefix "business-" (Handlers.ar_business_id request)); simpl;
    [|repeat split].
  split; [reflexivity|]. split; [reflexivity|].
  unfold Handlers.confidence_mapping, Handlers.mapping_get.
  destruct (String.eqb_spec (Handlers.ar_interaction_type request) "ad_click") as [T1|T1];
  destruct (String.eqb_spec (Handlers.ar_interaction_type request) "ad_view") as [T2|T2];
  destruct (String.eqb_spec (Handlers.ar_interaction_type request) "organic_visit") as [T3|T3];
  destruct (String.eqb_spec (Handlers.ar_source request) "facebook_ads") as [S1|S1];
  destruct (String.eqb_spec (Handlers.ar_source request) "google_ads") as [S2|S2];
  destruct (String.eqb_spec (Handlers.ar_source request) "organic") as [S3|S3];
    try congruence; simpl;
    (split; [split; [intros H; try discriminate H; auto
                    | intros [H1 [H2|H2]]; congruence]|]);
    (split; [split; intros H; try discriminate H; reflexivity|]);
    auto.
Qed.

Example track_interaction_examples :
  Handlers.track_interaction 1700000000
    (Handlers.demo_interaction "shop-12" "ad_click" "facebook_ads")
  = Main.HTTPException 500 "Failed to track interaction" /\
  Handlers.track_interaction 1700000000
    (Handlers.demo_interaction "business-0042" "ad_click" "google_ads")
  = Main.Ok {| Handlers.ir_interaction_id := (1700000000, "0042"%string);
               Handlers.ir_status := "tracked";
               Handlers.ir_attribution_confidence := "high";
               Handlers.ir_processing_time_ms := 45%float;
               Handlers.ir_business_id := "business-0042";
               Handlers.ir_source := "google_ads";
               Handlers.ir_timestamp := 1700000000;
               Handlers.ir_expire_days := 7 |}.
Proof. vm_compute. split; reflexivity. Qed.

Section DashboardFacts.

Import PyDict Server RealData Main Handlers.

Variable md5 : list Z -> string.

(** A refused request is answered 429 at once. *)
Lemma dashboard_refused (s : stores dashboard_data) env net now t_rate t_get t_set ip tape :
  fst (check_rate_limit s t_rate ip "dashboard" 60 3600) = false ->
  get_dashboard_data md5 s env net now t_rate t_get t_set ip tape =
  Some ({| answer := HTTPException 429
                       "Rate limit exceeded. Maximum 60 requests per hour.";
           stores_after := snd (check_rate_limit s t_rate ip "dashboard" 60 3600);
           calls := [] |}, tape).
Proof.
  intros H. unfold get_dashboard_data.
  destruct (check_rate_limit s t_rate ip "dashboard" 60 3600) as [a s1].
  simpl in H. subst a. reflexivity.
Qed.

(** A request that is let through: from the cache, computed and cached,
    or the demo data of the handler. *)
Lemma dashboard_allowed (s : stores dashboard_data) env net now t_rate t_get t_set ip tape :
  fst (check_rate_limit s t_rate ip "dashboard" 60 3600) = true ->
  let s1 := snd (check_rate_limit s t_rate ip "dashboard" 60 3600) in
  let key := get_cache_key md5 "dashboard" EmptyString in
  let s2 := snd (get_from_cache s1 t_get key 30) in
  get_dashboard_data md5 s env net now t_rate t_get t_set ip tape =
  match fst (get_from_cache s1 t_get key 30) with
  | Some data => Some ({| answer := Ok (Live data); stores_after := s2; calls := [] |}, tape)
  | None =>
      match dashboard_of (fst (get_all_platform_data env net now)) with
      | Some data =>
          Some ({| answer := Ok (Live data);
                   stores_after := set_cache s2 t_set key data;
                   calls := snd (get_all_platform_data env net now) |}, tape)
      | None =>
          match demo_dashboard_data tape with
          | Some (demo, tape') =>
              Some ({| answer := Ok (Demo demo); stores_after := s2;
                       calls := snd (get_all_platform_data env net now) |}, tape')
          | None => None
          end
      end
  end.
Proof.
  intros H s1 key s2. unfold get_dashboard_data. subst s1 s2 key.
  destruct (check_rate_limit s t_rate ip "dashboard" 60 3600) as [a s1].
  simpl in H. subst a. cbn [negb snd fst].
  destruct (get_from_cache s1 t_get (get_cache_key md5 "dashboard" EmptyString) 30)
    as [[d|] s2]; cbn [fst snd]; [reflexivity|].
  destruct (get_all_platform_data env net now) as [pd nc]. cbn [fst snd].
  destruct (dashboard_of pd); [reflexivity|].
  cbv [bind ret]. destruct (demo_dashboard_data tape) as [[demo tape']|]; reflexivity.
Qed.

(** The cache lookup leaves the rate limiter's store alone. *)
Lemma get_from_cache_rate (s : stores dashboard_data) (t : Q) (key : string) (ttl : Q) :
  Server.rate_limit_store (snd (get_from_cache s t key ttl)) = Server.rate_limit_store s.
Proof.
  unfold get_from_cache. destruct (get (Server.cache s) key); [|reflexivity].
  destruct (Qlt_le_dec _ _); reflexivity.
Qed.

(** The dashboard computed from the four fallback records. *)
Lemma no_credentials_dashboard (now : string) :
  exists d, dashboard_of (all_fallback now) = Some d /\
    total_conversions d = PyFloat.PInt 54 /\ total_interactions d = 351 /\
    active_sessions d = 16 /\ attribution_matches_today d = 64 /\
    processing_queue d = 0 /\
    total_spend d = PrimFloat.add 1847.32%float 1342.15%float /\
    map (fun kv => (fst kv, pb_status (snd kv))) (platform_breakdown d) =
      [("facebook", "fallback"); ("google", "fallback");
       ("square", "fallback"); ("stripe", "fallback")]%string /\
    dd_data_source d = "real_api_integration"%string.
Proof.
  eexists. split; [vm_compute; reflexivity|].
  vm_compute. repeat split.
Qed.

End DashboardFacts.

(** X9. The dashboard endpoint answers 429 exactly when the client has 60
    requests recorded within the last hour: the refusal makes no network
    call, draws nothing, leaves the cache as it is and does not record the
    refused request; with fewer than 60, every answer the endpoint gives
    is a response, not an error, and the request is recorded. *)
Theorem X9_dashboard_rate_limit (md5 : list Z -> string)
  (s : Server.stores Handlers.dashboard_data) (env : environ) (net : RealData.network)
  (now : string) (t_rate t_get t_set : Q) (ip : string) (tape : Main.tape) :
  let key := Server.rate_key ip "dashboard" in
  let kept := filter (Server.in_window t_rate 3600) (Server.recorded s key) in
  let run := Handlers.get_dashboard_data md5 s env net now t_rate t_get t_set ip tape in
  (60 <= Z.of_nat (List.length kept) ->
   exists s',
     run = Some ({| Handlers.answer :=
                      Main.HTTPException 429
                        "Rate limit exceeded. Maximum 60 requests per hour.";
                    Handlers.stores_after := s'; Handlers.calls := [] |}, tape) /\
     Server.cache s' = Server.cache s /\
     Server.cache_ttl s' = Server.cache_ttl s /\
     Server.recorded s' key = kept) /\
  (Z.of_nat (List.length kept) < 60 ->
   forall r tape', run = Some (r, tape') ->
     (exists resp, Handlers.answer r = Main.Ok resp) /\
     Server.recorded (Handlers.stores_after r) key = kept ++ [t_rate]).
Proof.
  intros key kept run.
  destruct (check_recorded s t_rate ip "dashboard" 60 3600) as [R D].
  destruct (check_frame s t_rate ip "dashboard" 60 3600) as [C [T _]].
  cbv zeta in R, D, C, T. fold key in R, D. fold kept in R, D.
  split; intros H.
  - assert (A : fst (Server.check_rate_limit s t_rate ip "dashboard" 60 3600) = false).
    { destruct (fst (Server.check_rate_limit s t_rate ip "dashboard" 60 3600));
        [|reflexivity].
      assert (E : true = true) by reflexivity. apply D in E. lia. }
    eexists. split; [apply dashboard_refused; exact A|].
    rewrite A in R. rewrite app_nil_r in R. auto.
  - assert (A : fst (Server.check_rate_limit s t_rate ip "dashboard" 60 3600) = true)
      by (apply D; exact H).
    intros r tape'. unfold run.
    rewrite (dashboard_allowed md5 s env net now t_rate t_get t_set ip tape A).
    cbv zeta. rewrite A in R.
    assert (G : Server.recorded
                  (snd (Server.get_from_cache
                          (snd (Server.check_rate_limit s t_rate ip "dashboard" 60 3600))
                          t_get (Handlers.get_cache_key md5 "dashboard" EmptyString) 30))
                  key = kept ++ [t_rate]).
    { unfold Server.recorded in *. rewrite get_from_cache_rate. exact R. }
    destruct (fst (Server.get_from_cache _ _ _ _)) as [d|].
    + intros [= <- _]. split; [eexists; reflexivity | exact G].
    + destruct (Handlers.dashboard_of _) as [d|].
      * intros [= <- _]. split; [eexists; reflexivity | exact G].
      * destruct (Handlers.demo_dashboard_data tape) as [[demo t']|]; [|discriminate].
        intros [= <- _]. split; [eexists; reflexivity | exact G].
Qed.

Lemma X9_dashboard_rate_limit_witness :
  (exists s',
     Handlers.get_dashboard_data Sha256.hexdigest Handlers.busy_stores (Samples.env_of [])
       Samples.dead_network Samples.now 200 200 200 "10.0.0.1" [] =
     Some ({| Handlers.answer :=
                Main.HTTPException 429
                  "Rate limit exceeded. Maximum 60 requests per hour.";
              Handlers.stores_after := s'; Handlers.calls := [] |}, []) /\
     Server.cache s' = [] /\ Server.cache_ttl s' = [] /\
     Server.recorded s' "10.0.0.1:dashboard" = repeat 100%Q 60) /\
  (forall r tape',
     Handlers.get_dashboard_data Sha256.hexdigest Server.no_stores (Samples.env_of [])
       Samples.dead_network Samples.now 200 200 200 "10.0.0.1" [] = Some (r, tape') ->
     (exists resp, Handlers.answer r = Main.Ok resp) /\
     Server.recorded (Handlers.stores_after r) "10.0.0.1:dashboard" = [200%Q]).
Proof.
  split.
  - apply (proj1 (X9_dashboard_rate_limit Sha256.hexdigest Handlers.busy_stores (Samples.env_of [])
             Samples.dead_network Samples.now 200 200 200 "10.0.0.1" [])).
    vm_compute. discriminate.
  - apply (proj2 (X9_dashboard_rate_limit Sha256.hexdigest Server.no_stores
             (Samples.env_of []) Samples.dead_network Samples.now 200 200 200
             "10.0.0.1" [])).
    reflexivity.
Defined.

(** X10. Dashboard data computed on a cache miss is served again to every
    request that passes the rate limiter and reads the cache less than 30
    seconds after the data was stored: the same data, whatever the
    credentials, the network and the client are by then, without any
    network call and without a change to the cache. *)
Theorem X10_dashboard_served_from_cache (md5 : list Z -> string)
  (s : Server.stores Handlers.dashboard_data) (env env' : environ)
  (net net' : RealData.network) (now now' : string)
  (t_rate t_get t_set t_rate' t_get' t_set' : Q) (ip ip' : string)
  (tape tape1 tape' : Main.tape) (r : Handlers.dashboard_run)
  (d : Handlers.dashboard_data) :
  let key := Handlers.get_cache_key md5 "dashboard" EmptyString in
  fst (Server.get_from_cache s t_get key 30) = None ->
  Handlers.get_dashboard_data md5 s env net now t_rate t_get t_set ip tape
    = Some (r, tape1) ->
  Handlers.answer r = Main.Ok (Handlers.Live d) ->
  fst (Server.check_rate_limit (Handlers.stores_after r) t_rate' ip' "dashboard" 60 3600)
    = true ->
  (t_get' - t_set < 30)%Q ->
  exists s',
    Handlers.get_dashboard_data md5 (Handlers.stores_after r) env' net' now'
      t_rate' t_get' t_set' ip' tape'
    = Some ({| Handlers.answer := Main.Ok (Handlers.Live d);
               Handlers.stores_after := s'; Handlers.calls := [] |}, tape') /\
    Server.cache s' = Server.cache (Handlers.stores_after r) /\
    Server.cache_ttl s' = Server.cache_ttl (Handlers.stores_after r).
Proof.
  intros key M Run A Allowed Fresh.
  destruct (fst (Server.check_rate_limit s t_rate ip "dashboard" 60 3600)) eqn:A1.
  2:{ rewrite (dashboard_refused md5 s env net now t_rate t_get t_set ip tape A1) in Run.
      injection Run as <- _. discriminate A. }
  rewrite (dashboard_allowed md5 s env net now t_rate t_get t_set ip tape A1) in Run.
  cbv zeta in Run. fold key in Run.
  destruct (check_frame s t_rate ip "dashboard" 60 3600) as [C [T _]].
  cbv zeta in C, T.
  set (s1 := snd (Server.check_rate_limit s t_rate ip "dashboard" 60 3600)) in *.
  assert (M1 : Server.get_from_cache s1 t_get key 30
               = (fst (Server.get_from_cache s1 t_get key 30),
                  snd (Server.get_from_cache s1 t_get key 30)))
    by apply surjective_pairing.
  assert (M2 : fst (Server.get_from_cache s1 t_get key 30) = None).
  { revert M. unfold Server.get_from_cache. rewrite C, T.
    destruct (PyDict.get (Server.cache s) key); [|reflexivity].
    destruct (Qlt_le_dec _ _); auto. }
  rewrite M2 in Run.
  destruct (Handlers.dashboard_of _) as [d0|].
  2:{ destruct (Handlers.demo_dashboard_data tape) as [[demo t']|]; [|discriminate].
      injection Run as <- _. discriminate A. }
  injection Run as <- _. simpl in A. injection A as ->.
  set (s3 := Server.set_cache _ t_set key d) in *. simpl Handlers.stores_after in *.
  rewrite (dashboard_allowed md5 s3 env' net' now' t_rate' t_get' t_set' ip' tape' Allowed).
  cbv zeta. fold key.
  destruct (check_frame s3 t_rate' ip' "dashboard" 60 3600) as [C3 [T3 _]].
  cbv zeta in C3, T3.
  set (s4 := snd (Server.check_rate_limit s3 t_rate' ip' "dashboard" 60 3600)) in *.
  assert (H : Server.get_from_cache s4 t_get' key 30 = (Some d, s4)).
  { unfold Server.get_from_cache. rewrite C3, T3. unfold s3. simpl.
    rewrite !get_set_eq.
    destruct (Qlt_le_dec (t_get' - t_set) 30); [reflexivity | exfalso; lra]. }
  rewrite H. simpl. eexists. split; [reflexivity|]. auto.
Qed.

Lemma X10_dashboard_served_from_cache_witness :
  exists d s1 s2,
    Handlers.get_dashboard_data Sha256.hexdigest Server.no_stores (Samples.env_of [])
      Samples.dead_network Samples.now 100 100 101 "10.0.0.1" []
    = Some ({| Handlers.answer := Main.Ok (Handlers.Live d);
               Handlers.stores_after := s1; Handlers.calls := [] |}, []) /\
    Handlers.get_dashboard_data Sha256.hexdigest s1
      (Samples.env_of [("STRIPE_ACCESS_TOKEN", "sk-1")]%string)
      Samples.live_network Samples.now 130 130 131 "10.0.0.2" []
    = Some ({| Handlers.answer := Main.Ok (Handlers.Live d);
               Handlers.stores_after := s2; Handlers.calls := [] |}, []).
Proof.
  eexists. eexists.
  assert (R : Handlers.get_dashboard_data Sha256.hexdigest Server.no_stores
                (Samples.env_of []) Samples.dead_network Samples.now 100 100 101
                "10.0.0.1" []
              = Some ltac:(let v := eval vm_compute in
                        (match Handlers.get_dashboard_data Sha256.hexdigest
                                Server.no_stores (Samples.env_of [])
                                Samples.dead_network Samples.now 100 100 101
                                "10.0.0.1" [] with
                        | Some x => x
                        | None => ({| Handlers.answer := Main.HTTPException 0 EmptyString;
                                      Handlers.stores_after := Server.no_stores;
                                      Handlers.calls := [] |}, [])
                        end) in exact v)).
  { vm_compute. reflexivity. }
  destruct (X10_dashboard_served_from_cache Sha256.hexdigest Server.no_stores
              (Samples.env_of []) (Samples.env_of [("STRIPE_ACCESS_TOKEN", "sk-1")]%string)
              Samples.dead_network Samples.live_network Samples.now Samples.now
              100 100 101 130 130 131 "10.0.0.1" "10.0.0.2" [] [] [] _ _
              eq_refl R eq_refl) as [s2 [E _]].
  - vm_compute. reflexivity.
  - reflexivity.
  - exists s2. split; [exact R | exact E].
Defined.

(** X11. With none of the four access tokens configured, a dashboard
    request that passes the rate limiter and misses the cache makes no
    network call and computes its figures from the four fallback records
    (54 conversions, 351 interactions, and so on), caches them, and labels
    them with the data source [real_api_integration] although every
    platform of the breakdown is marked [fallback]. *)
Theorem X11_dashboard_without_credentials (md5 : list Z -> string)
  (s : Server.stores Handlers.dashboard_data) (env : environ) (net : RealData.network)
  (now : string) (t_rate t_get t_set : Q) (ip : string) (tape : Main.tape) :
  let key := Handlers.get_cache_key md5 "dashboard" EmptyString in
  PyStr.truthy (env "FACEBOOK_ACCESS_TOKEN"%string) = false ->
  PyStr.truthy (env "GOOGLE_ACCESS_TOKEN"%string) = false ->
  PyStr.truthy (env "SQUARE_ACCESS_TOKEN"%string) = false ->
  PyStr.truthy (env "STRIPE_ACCESS_TOKEN"%string) = false ->
  fst (Server.check_rate_limit s t_rate ip "dashboard" 60 3600) = true ->
  fst (Server.get_from_cache s t_get key 30) = None ->
  exists d s',
    Handlers.get_dashboard_data md5 s env net now t_rate t_get t_set ip tape
    = Some ({| Handlers.answer := Main.Ok (Handlers.Live d);
               Handlers.stores_after := s'; Handlers.calls := [] |}, tape) /\
    PyDict.get (Server.cache s') key = Some d /\
    Handlers.dd_data_source d = "real_api_integration"%string /\
    map (fun kv => (fst kv, Handlers.pb_status (snd kv))) (Handlers.platform_breakdown d) =
      [("facebook", "fallback"); ("google", "fallback");
       ("square", "fallback"); ("stripe", "fallback")]%string /\
    Handlers.total_conversions d = PyFloat.PInt 54 /\
    Handlers.total_interactions d = 351 /\
    Handlers.active_sessions d = 16 /\
    Handlers.attribution_matches_today d = 64 /\
    Handlers.processing_queue d = 0 /\
    Handlers.total_spend d = PrimFloat.add 1847.32%float 1342.15%float.
Proof.
  intros key F G S T A M.
  rewrite (dashboard_allowed md5 s env net now t_rate t_get t_set ip tape A).
  cbv zeta. fold key.
  destruct (check_frame s t_rate ip "dashboard" 60 3600) as [C [Tt _]].
  cbv zeta in C, Tt.
  set (s1 := snd (Server.check_rate_limit s t_rate ip "dashboard" 60 3600)) in *.
  assert (M2 : fst (Server.get_from_cache s1 t_get key 30) = None).
  { revert M. unfold Server.get_from_cache. rewrite C, Tt.
    destruct (PyDict.get (Server.cache s) key); [|reflexivity].
    destruct (Qlt_le_dec _ _); auto. }
  rewrite M2, (no_credentials_all_fallback env net now F G S T). cbn [fst snd].
  destruct (no_credentials_dashboard now) as [d [E P]].
  rewrite E. exists d. eexists. split; [reflexivity|].
  split; [simpl; apply get_set_eq|]. tauto.
Qed.

Lemma X11_dashboard_without_credentials_witness :
  exists d s',
    Handlers.get_dashboard_data Sha256.hexdigest Server.no_stores
      (Samples.env_of [("FACEBOOK_ACCESS_TOKEN", EmptyString)]%string)
      Samples.live_network Samples.now 100 100 101 "10.0.0.1" []
    = Some ({| Handlers.answer := Main.Ok (Handlers.Live d);
               Handlers.stores_after := s'; Handlers.calls := [] |}, []) /\
    Handlers.total_conversions d = PyFloat.PInt 54.
Proof.
  destruct (X11_dashboard_without_credentials Sha256.hexdigest Server.no_stores
              (Samples.env_of [("FACEBOOK_ACCESS_TOKEN", EmptyString)]%string)
              Samples.live_network Samples.now 100 100 101 "10.0.0.1" [])
    as [d [s' [E [_ [_ [_ [C _]]]]]]]; try reflexivity.
  exists d, s'. split; [exact E | exact C].
Defined.

(** ** [real_data_service.py] and [data_integration.py]: the aggregation *)

Section GatherFacts.

Import PyFloat RealData.

(** The tasks of the aggregation, as the code appends them. *)
Lemma get_all_platform_data_calls (env : environ) (net : network) (now : string) :
  snd (get_all_platform_data env net now) =
  task_if (env "FACEBOOK_ACCESS_TOKEN"%string)
    (fun t => GetFacebookInsights t "123456789")
  ++ task_if (env "GOOGLE_ACCESS_TOKEN"%string)
    (fun t => PostGoogleAdsSearch t "1234567890")
  ++ task_if (env "SQUARE_ACCESS_TOKEN"%string)
    (fun t => GetSquarePayments t "demo-location")
  ++ task_if (env "STRIPE_ACCESS_TOKEN"%string) (fun t => GetStripeCharges t).
Proof.
  unfold get_all_platform_data.
  assert (E : forall A (tok : option string) (f : string -> A * list net_call)
                     (c : string -> net_call),
             (forall t, snd (f t) = [c t]) ->
             List.concat (map snd (task_if tok f)) = task_if tok c).
  { intros A tok f c H. unfold task_if. destruct tok as [t|]; [|reflexivity].
    destruct (PyStr.truthy (Some t)); [|reflexivity]. simpl. now rewrite H. }
  set (tk := task_if (env "FACEBOOK_ACCESS_TOKEN"%string) _ ++ _).
  assert (G : forall d d' : platform_data,
             snd (match tk with
                  | [] => (d, [])
                  | _ :: _ => (d', List.concat (map snd tk))
                  end) = List.concat (map snd tk))
    by (intros; destruct tk; reflexivity).
  rewrite G. subst tk. rewrite !map_app, !concat_app.
  repeat (f_equal; [apply E; intros t; unfold fetch_facebook_conversions,
                      fetch_google_ads_data, fetch_square_transactions,
                      fetch_stripe_events; apply fetch_calls|]).
  apply E; intros t; unfold fetch_stripe_events; apply fetch_calls.
Qed.

Lemma task_if_length {A} (tok : option string) (f : string -> A) :
  List.length (task_if tok f) = if PyStr.truthy tok then 1%nat else 0%nat.
Proof.
  unfold task_if. destruct tok as [t|]; [|reflexivity].
  destruct (PyStr.truthy (Some t)); reflexivity.
Qed.

Lemma task_if_in {A} (tok : option string) (f : string -> A) (x : A) :
  In x (task_if tok f) -> exists t, tok = Some t /\ PyStr.truthy tok = true /\ x = f t.
Proof.
  unfold task_if. destruct tok as [t|]; [|intros []].
  destruct (PyStr.truthy (Some t)) eqn:E; [|intros []].
  intros [<-|[]]. exists t. auto.
Qed.

Lemma task_if_some {A} (t : string) (f : string -> A) :
  PyStr.truthy (Some t) = true -> task_if (Some t) f = [f t].
Proof. intros H. unfold task_if. now rewrite H. Qed.

Lemma result_or_in (results : list platform_record) (i : nat) (fallback : platform_record) :
  result_or results i fallback = fallback \/ In (result_or results i fallback) results.
Proof.
  unfold result_or. destruct (nth_error results i) eqn:E; [right|now left].
  eapply nth_error_In; eauto.
Qed.

(** A record processed from a 200 answer carries the source and the
    confidence of its platform. *)
Lemma process_fields (now : string) (r : platform_record) :
  (forall data, fb_process now data = Some r ->
     status r = "success"%string /\ source r = "facebook_ads"%string) /\
  (forall data, g_process now data = Some r ->
     status r = "success"%string /\ source r = "google_ads"%string) /\
  (forall data, sq_process now data = Some r ->
     status r = "success"%string /\ source r = "square_payments"%string) /\
  (forall data, st_process now data = Some r ->
     status r = "success"%string /\ source r = "stripe_payments"%string).
Proof.
  unfold fb_process, g_process, sq_process, st_process.
  repeat split;
    match goal with
    | H : match ?l with _ => _ end = _ |- _ => destruct l; [|discriminate]
    end; apply success_items in H; tauto.
Qed.

(** What a fetch returns comes from its own platform. *)
Lemma fetch_sources (session : bool) (now tok id : string) :
  (forall answer,
     source (fst (fetch_facebook_conversions session now answer tok id))
     = "facebook_ads"%string) /\
  (forall answer,
     source (fst (fetch_google_ads_data session now answer tok id))
     = "google_ads"%string) /\
  (forall answer,
     source (fst (fetch_square_transactions session now answer tok id))
     = "square_payments"%string) /\
  (forall answer,
     source (fst (fetch_stripe_events session now answer tok))
     = "stripe_payments"%string).
Proof.
  unfold fetch_facebook_conversions, fetch_google_ads_data,
         fetch_square_transactions, fetch_stripe_events.
  repeat split; intros answer;
    match goal with
    | |- context [fetch ?s ?c ?a ?p ?f] =>
        destruct (fetch_cases s c a p f) as [H|[data [r [_ [_ [P E]]]]]]
    end;
    try (rewrite H; reflexivity);
    rewrite E; simpl fst; apply (process_fields now r) in P; tauto.
Qed.

(** A fetch that returns a record marked [success] got a 200 answer whose
    body it processed. *)
Lemma fetch_success {B} (call : net_call) (answer : http_outcome B)
  (process : B -> option platform_record) (fallback : platform_record) :
  status fallback = "fallback"%string ->
  status (fst (fetch true call answer process fallback)) = "success"%string ->
  exists data, answer = Response 200 (Some data) /\
               process data = Some (fst (fetch true call answer process fallback)).
Proof.
  intros F S.
  destruct (fetch_cases true call answer process fallback)
    as [H|[data [r [_ [A [P E]]]]]].
  - rewrite H, F in S. discriminate.
  - exists data. rewrite E. auto.
Qed.

End GatherFacts.

(** X12. The aggregation makes exactly one network call for each platform
    whose access token is configured, in the order Facebook, Google,
    Square, Stripe, each carrying its token, and none for the others,
    whatever the network answers. *)
Theorem X12_one_call_per_configured_platform (env : environ) (net : RealData.network)
  (now : string) :
  let calls := snd (RealData.get_all_platform_data env net now) in
  calls =
    RealData.task_if (env "FACEBOOK_ACCESS_TOKEN"%string)
      (fun t => RealData.GetFacebookInsights t "123456789")
    ++ RealData.task_if (env "GOOGLE_ACCESS_TOKEN"%string)
      (fun t => RealData.PostGoogleAdsSearch t "1234567890")
    ++ RealData.task_if (env "SQUARE_ACCESS_TOKEN"%string)
      (fun t => RealData.GetSquarePayments t "demo-location")
    ++ RealData.task_if (env "STRIPE_ACCESS_TOKEN"%string)
      (fun t => RealData.GetStripeCharges t) /\
  List.length calls =
    List.length (filter PyStr.truthy
                   [env "FACEBOOK_ACCESS_TOKEN"%string; env "GOOGLE_ACCESS_TOKEN"%string;
                    env "SQUARE_ACCESS_TOKEN"%string; env "STRIPE_ACCESS_TOKEN"%string]).
Proof.
  intros calls. subst calls. rewrite get_all_platform_data_calls.
  split; [reflexivity|].
  rewrite !length_app, !task_if_length. simpl.
  destruct (PyStr.truthy (env "FACEBOOK_ACCESS_TOKEN"%string)),
    (PyStr.truthy (env "GOOGLE_ACCESS_TOKEN"%string)),
    (PyStr.truthy (env "SQUARE_ACCESS_TOKEN"%string)),
    (PyStr.truthy (env "STRIPE_ACCESS_TOKEN"%string)); reflexivity.
Qed.

(** X13. With the four access tokens configured, each key of the
    aggregation holds what the fetch of its own platform returned, so a
    record of its own source, and the four calls are made. *)
Theorem X13_all_credentials_own_records (env : environ) (net : RealData.network)
  (now fb g sq st : string) :
  env "FACEBOOK_ACCESS_TOKEN"%string = Some fb -> PyStr.truthy (Some fb) = true ->
  env "GOOGLE_ACCESS_TOKEN"%string = Some g -> PyStr.truthy (Some g) = true ->
  env "SQUARE_ACCESS_TOKEN"%string = Some sq -> PyStr.truthy (Some sq) = true ->
  env "STRIPE_ACCESS_TOKEN"%string = Some st -> PyStr.truthy (Some st) = true ->
  let d := fst (RealData.get_all_platform_data env net now) in
  RealData.facebook d =
    fst (RealData.fetch_facebook_conversions true now (RealData.net_facebook net)
           fb "123456789") /\
  RealData.google d =
    fst (RealData.fetch_google_ads_data true now (RealData.net_google net)
           g "1234567890") /\
  RealData.square d =
    fst (RealData.fetch_square_transactions true now (RealData.net_square net)
           sq "demo-location") /\
  RealData.stripe d =
    fst (RealData.fetch_stripe_events true now (RealData.net_stripe net) st) /\
  map RealData.source
      [RealData.facebook d; RealData.google d; RealData.square d; RealData.stripe d]
  = ["facebook_ads"; "google_ads"; "square_payments"; "stripe_payments"]%string /\
  snd (RealData.get_all_platform_data env net now) =
    [RealData.GetFacebookInsights fb "123456789";
     RealData.PostGoogleAdsSearch g "1234567890";
     RealData.GetSquarePayments sq "demo-location"; RealData.GetStripeCharges st].
Proof.
  intros F Ft G Gt S St T Tt d.
  assert (C : snd (RealData.get_all_platform_data env net now) =
              [RealData.GetFacebookInsights fb "123456789";
               RealData.PostGoogleAdsSearch g "1234567890";
               RealData.GetSquarePayments sq "demo-location";
               RealData.GetStripeCharges st]).
  { rewrite get_all_platform_data_calls, F, G, S, T.
    rewrite !task_if_some by assumption. reflexivity. }
  subst d. unfold RealData.get_all_platform_data in *.
  rewrite F, G, S, T in *. rewrite !task_if_some in * by assumption.
  cbn [app map fst snd RealData.result_or nth_error RealData.facebook
       RealData.google RealData.square RealData.stripe].
  destruct (fetch_sources true now fb "123456789") as [S1 _].
  destruct (fetch_sources true now g "1234567890") as [_ [S2 _]].
  destruct (fetch_sources true now sq "demo-location") as [_ [_ [S3 _]]].
  destruct (fetch_sources true now st EmptyString) as [_ [_ [_ S4]]].
  rewrite S1, S2, S3, S4. repeat split. exact C.
Qed.

Lemma X13_all_credentials_own_records_witness :
  RealData.source
    (RealData.stripe
       (fst (RealData.get_all_platform_data
               (Samples.env_of [("FACEBOOK_ACCESS_TOKEN", "fb-1");
                                ("GOOGLE_ACCESS_TOKEN", "g-1");
                                ("SQUARE_ACCESS_TOKEN", "sq-1");
                                ("STRIPE_ACCESS_TOKEN", "sk-1")]%string)
               Samples.live_network Samples.now)))
  = "stripe_payments"%string.
Proof.
  destruct (X13_all_credentials_own_records
              (Samples.env_of [("FACEBOOK_ACCESS_TOKEN", "fb-1");
                               ("GOOGLE_ACCESS_TOKEN", "g-1");
                               ("SQUARE_ACCESS_TOKEN", "sq-1");
                               ("STRIPE_ACCESS_TOKEN", "sk-1")]%string)
              Samples.live_network Samples.now "fb-1" "g-1" "sq-1" "sk-1"
              eq_refl eq_refl eq_refl eq_refl eq_refl eq_refl eq_refl eq_refl)
    as [_ [_ [_ [_ [M _]]]]].
  exact (f_equal (fun l => nth 3 l EmptyString) M).
Defined.

(** X14. Live data is never made up: a record marked [success] under any
    of the four keys was processed from a 200 answer of the platform it
    names as its source, and that platform's access token is configured. *)
Theorem X14_live_record_needs_token_and_answer (env : environ)
  (net : RealData.network) (now : string) (r : RealData.platform_record) :
  let d := fst (RealData.get_all_platform_data env net now) in
  In r [RealData.facebook d; RealData.google d; RealData.square d; RealData.stripe d] ->
  RealData.status r = "success"%string ->
  (PyStr.truthy (env "FACEBOOK_ACCESS_TOKEN"%string) = true /\
   RealData.source r = "facebook_ads"%string /\
   exists data, RealData.net_facebook net = RealData.Response 200 (Some data) /\
                RealData.fb_process now data = Some r) \/
  (PyStr.truthy (env "GOOGLE_ACCESS_TOKEN"%string) = true /\
   RealData.source r = "google_ads"%string /\
   exists data, RealData.net_google net = RealData.Response 200 (Some data) /\
                RealData.g_process now data = Some r) \/
  (PyStr.truthy (env "SQUARE_ACCESS_TOKEN"%string) = true /\
   RealData.source r = "square_payments"%string /\
   exists data, RealData.net_square net = RealData.Response 200 (Some data) /\
                RealData.sq_process now data = Some r) \/
  (PyStr.truthy (env "STRIPE_ACCESS_TOKEN"%string) = true /\
   RealData.source r = "stripe_payments"%string /\
   exists data, RealData.net_stripe net = RealData.Response 200 (Some data) /\
                RealData.st_process now data = Some r).
Proof.
  intros d I S.
  assert (R : In r (map fst
                (RealData.task_if (env "FACEBOOK_ACCESS_TOKEN"%string)
                   (fun t => RealData.fetch_facebook_conversions true now
                               (RealData.net_facebook net) t "123456789")
                 ++ RealData.task_if (env "GOOGLE_ACCESS_TOKEN"%string)
                   (fun t => RealData.fetch_google_ads_data true now
                               (RealData.net_google net) t "1234567890")
                 ++ RealData.task_if (env "SQUARE_ACCESS_TOKEN"%string)
                   (fun t => RealData.fetch_square_transactions true now
                               (RealData.net_square net) t "demo-location")
                 ++ RealData.task_if (env "STRIPE_ACCESS_TOKEN"%string)
                   (fun t => RealData.fetch_stripe_events true now
                               (RealData.net_stripe net) t)))).
  { subst d. unfold RealData.get_all_platform_data in I.
    set (tk := RealData.task_if (env "FACEBOOK_ACCESS_TOKEN"%string) _ ++ _) in *.
    destruct tk as [|x tk'] eqn:E.
    - simpl in I. destruct (fallback_status now) as [F1 [F2 [F3 F4]]].
      destruct I as [<-|[<-|[<-|[<-|[]]]]]; congruence.
    - rewrite <- E in I. cbn [fst RealData.facebook RealData.google RealData.square
                               RealData.stripe] in I.
      rewrite <- E.
      destruct (fallback_status now) as [F1 [F2 [F3 F4]]].
      destruct I as [<-|[<-|[<-|[<-|[]]]]];
        match goal with
        | |- In (RealData.result_or ?l ?i ?f) _ =>
            destruct (result_or_in l i f) as [H|H]; [rewrite H in S; congruence | exact H]
        end. }
  apply in_map_iff in R. destruct R as [x [<- R]].
  destruct (fallback_status now) as [F1 [F2 [F3 F4]]].
  repeat (apply in_app_or in R; destruct R as [R|R]);
    apply task_if_in in R; destruct R as [t [_ [T ->]]].
  - left. split; [exact T|].
    split; [apply (fetch_sources true now t "123456789")|].
    apply (fetch_success _ _ _ _ F1 S).
  - right; left. split; [exact T|].
    split; [apply (fetch_sources true now t "1234567890")|].
    apply (fetch_success _ _ _ _ F2 S).
  - right; right; left. split; [exact T|].
    split; [apply (fetch_sources true now t "demo-location")|].
    apply (fetch_success _ _ _ _ F3 S).
  - right; right; right. split; [exact T|].
    split; [apply (fetch_sources true now t EmptyString)|].
    apply (fetch_success _ _ _ _ F4 S).
Qed.

Lemma X14_live_record_needs_token_and_answer_witness :
  exists r,
    RealData.facebook
      (fst (RealData.get_all_platform_data
              (Samples.env_of [("STRIPE_ACCESS_TOKEN", "sk-1")]%string)
              Samples.live_network Samples.now)) = r /\
    RealData.source r = "stripe_payments"%string.
Proof.
  eexists. split; [reflexivity|].
  destruct (X14_live_record_needs_token_and_answer
              (Samples.env_of [("STRIPE_ACCESS_TOKEN", "sk-1")]%string)
              Samples.live_network Samples.now _ (or_introl eq_refl) eq_refl)
    as [[T _]|[[T _]|[[T _]|[_ [S _]]]]]; try discriminate T.
  exact S.
Defined.

Section StatusFacts.

Import RealData DataIntegration.

(** The status by the number of live records and the tokens. *)
Lemma integration_status_cases (env : environ) (business_id : string)
  (d : platform_data) :
  let live := List.length
                (filter (fun r => String.eqb (status r) "success")
                   [facebook d; google d; square d; stripe d]) in
  let token :=
    existsb (fun name => PyStr.truthy (env name))
      ["FACEBOOK_ACCESS_TOKEN"; "GOOGLE_ACCESS_TOKEN";
       "SQUARE_ACCESS_TOKEN"; "STRIPE_ACCESS_TOKEN"]%string in
  let s := integration_status_of env business_id d in
  integration_status s =
    (if (3 <=? live)%nat then "fully_integrated"
     else if (1 <=? live)%nat then "partially_integrated"
     else if token then "tokens_configured"
     else "demo_mode")%string /\
  real_data_percentage s = PyFloat.of_Z (25 * Z.of_nat live) /\
  PrimFloat.leb 40%float (data_quality_score s) = true /\
  PrimFloat.leb (data_quality_score s) 100%float = true /\
  (data_quality_score s = 100%float <-> live = 4%nat).
Proof.
  intros live token s. subst live token s.
  unfold integration_status_of, platform_entry, data_items.
  cbn [map fst snd filter List.length existsb integration_status
       real_data_percentage data_quality_score quality_factor pi_data_source
       has_oauth_token].
  change (PyStr.upper "facebook" ++ "_ACCESS_TOKEN")%string
    with "FACEBOOK_ACCESS_TOKEN"%string.
  change (PyStr.upper "google" ++ "_ACCESS_TOKEN")%string
    with "GOOGLE_ACCESS_TOKEN"%string.
  change (PyStr.upper "square" ++ "_ACCESS_TOKEN")%string
    with "SQUARE_ACCESS_TOKEN"%string.
  change (PyStr.upper "stripe" ++ "_ACCESS_TOKEN")%string
    with "STRIPE_ACCESS_TOKEN"%string.
  destruct (String.eqb (status (facebook d)) "success");
  destruct (String.eqb (status (google d)) "success");
  destruct (String.eqb (status (square d)) "success");
  destruct (String.eqb (status (stripe d)) "success");
  destruct (PyStr.truthy (env "FACEBOOK_ACCESS_TOKEN"%string));
  destruct (PyStr.truthy (env "GOOGLE_ACCESS_TOKEN"%string));
  destruct (PyStr.truthy (env "SQUARE_ACCESS_TOKEN"%string));
  destruct (PyStr.truthy (env "STRIPE_ACCESS_TOKEN"%string));
  vm_compute; (repeat split); intros H; discriminate H.
Qed.

End StatusFacts.

(** X15. The integration status is decided by the number of records
    marked [success] among the four: [fully_integrated] with three or
    four, [partially_integrated] with one or two, and with none
    [tokens_configured] when some access token is set and [demo_mode]
    otherwise; the percentage of real data is 25 times that number, and
    the quality score lies between 40 and 100, reaching 100 only when the
    four records are live. *)
Theorem X15_integration_status_by_live_count (env : environ) (business_id : string)
  (d : RealData.platform_data) :
  let live := List.length
                (filter (fun r => String.eqb (RealData.status r) "success")
                   [RealData.facebook d; RealData.google d;
                    RealData.square d; RealData.stripe d]) in
  let token :=
    existsb (fun name => PyStr.truthy (env name))
      ["FACEBOOK_ACCESS_TOKEN"; "GOOGLE_ACCESS_TOKEN";
       "SQUARE_ACCESS_TOKEN"; "STRIPE_ACCESS_TOKEN"]%string in
  let s := DataIntegration.integration_status_of env business_id d in
  DataIntegration.integration_status s =
    (if (3 <=? live)%nat then "fully_integrated"
     else if (1 <=? live)%nat then "partially_integrated"
     else if token then "tokens_configured"
     else "demo_mode")%string /\
  DataIntegration.real_data_percentage s = PyFloat.of_Z (25 * Z.of_nat live) /\
  PrimFloat.leb 40%float (DataIntegration.data_quality_score s) = true /\
  PrimFloat.leb (DataIntegration.data_quality_score s) 100%float = true /\
  (DataIntegration.data_quality_score s = 100%float <-> live = 4%nat).
Proof.
  intros live token s.
  destruct (integration_status_cases env business_id d) as [A [B [C [D E]]]].
  cbv zeta in A, B, C, D, E.
  split; [exact A|]. split; [exact B|]. split; [exact C|]. split; [exact D|].
  exact E.
Qed.

(** ** [real_data_service.py]: the live records *)

Section LiveRecordFacts.

Import PyFloat RealData.

(** The summary of a record built by [success]. *)
Lemma success_summary (src : string) (its : items) (total : float) (count : pynum)
  (conf : float) (now : string) (r : platform_record) :
  success src its total count conf now = Some r ->
  pr_items r = its /\ sm_total (pr_summary r) = total /\
  sm_count (pr_summary r) = count /\
  average total count = Some (sm_average (pr_summary r)) /\
  attribution_confidence (pr_summary r) = conf.
Proof.
  unfold success. destruct (average total count); [|discriminate].
  intros [= <-]. auto.
Qed.

(** The processing loops: what the accumulators hold at the end. *)
Lemma sq_loop (data : list sq_payment) :
  forall (a a' : acc transaction) (n : Z),
    loop sq_step a data = Some a' -> acc_count a = PInt n ->
    exists l,
      acc_items a' = acc_items a ++ l /\
      map t_id l = map sq_id data /\ map t_status l = map sq_status data /\
      acc_count a' =
        PInt (n + Z.of_nat (List.length
                 (filter (fun t => status_is (t_status t) "COMPLETED") l))) /\
      acc_total a' =
        fold_left PrimFloat.add
          (map t_amount (filter (fun t => status_is (t_status t) "COMPLETED") l))
          (acc_total a).
Proof.
  induction data as [|p rest IH]; intros a a' n H C.
  - simpl in H. injection H as <-. exists []. simpl.
    rewrite app_nil_r, Z.add_0_r. auto.
  - simpl in H. destruct (sq_step a p) as [a1|] eqn:S; [|discriminate].
    unfold sq_step in S.
    destruct (cents_to_dollars (get0 (sq_amount p))) as [amount|]; [|discriminate].
    destruct (status_is (sq_status p) "COMPLETED") eqn:E.
    + rewrite C in S. simpl in S. injection S as <-.
      destruct (IH _ a' (n + 1) H eq_refl) as [l [I [Ids [Sts [Cn T]]]]].
      simpl in I, T.
      eexists (_ :: l). rewrite I, <- app_assoc. split; [reflexivity|].
      simpl. rewrite E. simpl. rewrite Ids, Sts, Cn, T.
      repeat split. f_equal. lia.
    + injection S as <-.
      destruct (IH _ a' n H C) as [l [I [Ids [Sts [Cn T]]]]].
      simpl in I, T.
      eexists (_ :: l). rewrite I, <- app_assoc. split; [reflexivity|].
      simpl. rewrite E. rewrite Ids, Sts, Cn, T. repeat split.
Qed.

Lemma st_loop (data : list st_charge) :
  forall (a a' : acc charge) (n : Z),
    loop st_step a data = Some a' -> acc_count a = PInt n ->
    exists l,
      acc_items a' = acc_items a ++ l /\
      map ch_id l = map st_id data /\ map ch_status l = map st_status data /\
      acc_count a' =
        PInt (n + Z.of_nat (List.length
                 (filter (fun c => status_is (ch_status c) "succeeded") l))) /\
      acc_total a' =
        fold_left PrimFloat.add
          (map ch_amount (filter (fun c => status_is (ch_status c) "succeeded") l))
          (acc_total a).
Proof.
  induction data as [|p rest IH]; intros a a' n H C.
  - simpl in H. injection H as <-. exists []. simpl.
    rewrite app_nil_r, Z.add_0_r. auto.
  - simpl in H. destruct (st_step a p) as [a1|] eqn:S; [|discriminate].
    unfold st_step in S.
    destruct (cents_to_dollars (get0 (st_amount p))) as [amount|]; [|discriminate].
    destruct (match st_currency p with
              | Some (Some cur) => Some (PyStr.upper cur)
              | Some None => None
              | None => Some (PyStr.upper "usd")
              end) as [cur|]; [|discriminate].
    destruct (status_is (st_status p) "succeeded") eqn:E.
    + rewrite C in S. simpl in S. injection S as <-.
      destruct (IH _ a' (n + 1) H eq_refl) as [l [I [Ids [Sts [Cn T]]]]].
      simpl in I, T.
      eexists (_ :: l). rewrite I, <- app_assoc. split; [reflexivity|].
      simpl. rewrite E. simpl. rewrite Ids, Sts, Cn, T.
      repeat split. f_equal. lia.
    + injection S as <-.
      destruct (IH _ a' n H C) as [l [I [Ids [Sts [Cn T]]]]].
      simpl in I, T.
      eexists (_ :: l). rewrite I, <- app_assoc. split; [reflexivity|].
      simpl. rewrite E. rewrite Ids, Sts, Cn, T. repeat split.
Qed.

Lemma fb_loop (data : list fb_campaign) :
  forall (a a' : acc campaign) (n : Z),
    loop fb_step a data = Some a' -> acc_count a = PInt n ->
    exists l,
      acc_items a' = acc_items a ++ l /\
      List.length l = List.length data /\
      acc_count a' = PInt (n + fold_left Z.add (map c_conversions l) 0) /\
      acc_total a' = fold_left PrimFloat.add (map c_spend l) (acc_total a).
Proof.
  induction data as [|p rest IH]; intros a a' n H C.
  - simpl in H. injection H as <-. exists []. simpl.
    rewrite app_nil_r, Z.add_0_r. auto.
  - simpl in H. destruct (fb_step a p) as [a1|] eqn:S; [|discriminate].
    unfold fb_step in S.
    destruct (py_float (get0 (fb_spend p))) as [spend|]; [|discriminate].
    destruct (py_int (get0 (fb_clicks p))) as [clicks|]; [|discriminate].
    destruct (fb_conversions 0 (fb_actions p)) as [cv|]; [|discriminate].
    destruct (average spend (PInt cv)) as [cpc|]; [|discriminate].
    rewrite C in S. simpl in S. injection S as <-.
    destruct (IH _ a' (n + cv) H eq_refl) as [l [I [L [Cn T]]]].
    simpl in I, T.
    eexists (_ :: l). rewrite I, <- app_assoc. split; [reflexivity|].
    simpl. rewrite L, Cn, T. repeat split. f_equal.
    assert (F : forall l z, fold_left Z.add l z = z + fold_left Z.add l 0).
    { clear. induction l as [|x r IH]; intros z; simpl; [lia|].
      rewrite (IH (z + x)), (IH x). lia. }
    rewrite (F _ cv). lia.
Qed.

(** [total / count if count > 0 else 0] on an int count. *)
Lemma average_of_int (total : float) (k : Z) (avg : pynum) :
  average total (PInt k) = Some avg ->
  (k <= 0 -> avg = PInt 0) /\
  (0 < k -> avg = PFloat (PrimFloat.div total (of_Z k))).
Proof.
  unfold average, gt0. destruct (0 <? k) eqn:E.
  - apply Z.ltb_lt in E. unfold to_float.
    destruct (is_finite (of_Z k)); [|discriminate].
    intros [= <-]. split; [lia | reflexivity].
  - apply Z.ltb_ge in E. intros [= <-]. split; [reflexivity | lia].
Qed.

End LiveRecordFacts.

(** X16. A live Square record lists one transaction for each payment of
    the answer, in order and with its id and status, whatever the status;
    its count is the number of listed transactions with status
    [COMPLETED], its total is the sum of their amounts added in order, and
    its average is the int 0 when no payment is completed and the total
    divided by the count otherwise. *)
Theorem X16_square_record_consistent (now : string) (data : list RealData.sq_payment)
  (r : RealData.platform_record) :
  RealData.sq_process now data = Some r ->
  exists l,
    let completed :=
      filter (fun t => RealData.status_is (RealData.t_status t) "COMPLETED") l in
    let k := Z.of_nat (List.length completed) in
    RealData.pr_items r = RealData.Transactions l /\
    map RealData.t_id l = map RealData.sq_id data /\
    map RealData.t_status l = map RealData.sq_status data /\
    RealData.sm_count (RealData.pr_summary r) = PyFloat.PInt k /\
    RealData.sm_total (RealData.pr_summary r) =
      fold_left PrimFloat.add (map RealData.t_amount completed) 0%float /\
    RealData.sm_average (RealData.pr_summary r) =
      (if k =? 0 then PyFloat.PInt 0
       else PyFloat.PFloat (PrimFloat.div (RealData.sm_total (RealData.pr_summary r))
                                          (PyFloat.of_Z k))).
Proof.
  unfold RealData.sq_process.
  destruct (RealData.loop RealData.sq_step RealData.acc0 data) as [a|] eqn:L;
    [|discriminate].
  intros S. apply success_summary in S. destruct S as [I [T [C [A _]]]].
  destruct (sq_loop data RealData.acc0 a 0 L eq_refl) as [l [Il [Ids [Sts [Cn Tl]]]]].
  simpl in Il, Tl. exists l. cbv zeta.
  rewrite I, T, C, Il, Cn, Tl. rewrite Cn, Tl in A. simpl Z.add in *.
  repeat split; auto.
  apply average_of_int in A. destruct A as [A0 A1].
  destruct (Z.eqb_spec (Z.of_nat (List.length
              (filter (fun t => RealData.status_is (RealData.t_status t) "COMPLETED") l))) 0)
    as [E|E].
  - apply A0. lia.
  - apply A1. lia.
Qed.

Lemma X16_square_record_consistent_witness :
  exists r l,
    RealData.sq_process Samples.now
      [Samples.payment "p1" 8500;
       {| RealData.sq_id := Some "p2"%string; RealData.sq_amount := Some (PyFloat.JInt 4000);
          RealData.sq_status := Some "FAILED"%string; RealData.sq_created_at := None;
          RealData.sq_source_type := None |}] = Some r /\
    RealData.pr_items r = RealData.Transactions l /\
    RealData.sm_count (RealData.pr_summary r) =
      PyFloat.PInt (Z.of_nat (List.length
        (filter (fun t => RealData.status_is (RealData.t_status t) "COMPLETED") l))).
Proof.
  eexists.
  destruct (X16_square_record_consistent Samples.now
    [Samples.payment "p1" 8500;
       {| RealData.sq_id := Some "p2"%string; RealData.sq_amount := Some (PyFloat.JInt 4000);
          RealData.sq_status := Some "FAILED"%string; RealData.sq_created_at := None;
          RealData.sq_source_type := None |}] _ eq_refl) as [l [I [_ [_ [C _]]]]].
  exists l. split; [reflexivity|]. split; [exact I | exact C].
Defined.

(** X17. A live Stripe record lists one charge for each charge of the
    answer, in order and with its id and status; its count is the number
    of listed charges with status [succeeded], its total is the sum of
    their amounts added in order, and its average is the int 0 when no
    charge succeeded and the total divided by the count otherwise. *)
Theorem X17_stripe_record_consistent (now : string) (data : list RealData.st_charge)
  (r : RealData.platform_record) :
  RealData.st_process now data = Some r ->
  exists l,
    let succeeded :=
      filter (fun c => RealData.status_is (RealData.ch_status c) "succeeded") l in
    let k := Z.of_nat (List.length succeeded) in
    RealData.pr_items r = RealData.Charges l /\
    map RealData.ch_id l = map RealData.st_id data /\
    map RealData.ch_status l = map RealData.st_status data /\
    RealData.sm_count (RealData.pr_summary r) = PyFloat.PInt k /\
    RealData.sm_total (RealData.pr_summary r) =
      fold_left PrimFloat.add (map RealData.ch_amount succeeded) 0%float /\
    RealData.sm_average (RealData.pr_summary r) =
      (if k =? 0 then PyFloat.PInt 0
       else PyFloat.PFloat (PrimFloat.div (RealData.sm_total (RealData.pr_summary r))
                                          (PyFloat.of_Z k))).
Proof.
  unfold RealData.st_process.
  destruct (RealData.loop RealData.st_step RealData.acc0 data) as [a|] eqn:L;
    [|discriminate].
  intros S. apply success_summary in S. destruct S as [I [T [C [A _]]]].
  destruct (st_loop data RealData.acc0 a 0 L eq_refl) as [l [Il [Ids [Sts [Cn Tl]]]]].
  simpl in Il, Tl. exists l. cbv zeta.
  rewrite I, T, C, Il, Cn, Tl. rewrite Cn, Tl in A. simpl Z.add in *.
  repeat split; auto.
  apply average_of_int in A. destruct A as [A0 A1].
  destruct (Z.eqb_spec (Z.of_nat (List.length
              (filter (fun c => RealData.status_is (RealData.ch_status c) "succeeded") l))) 0)
    as [E|E].
  - apply A0. lia.
  - apply A1. lia.
Qed.

Lemma X17_stripe_record_consistent_witness :
  exists r l,
    RealData.st_process Samples.now
      [Samples.stripe_charge "ch_1" 7500; Samples.stripe_charge "ch_2" 2500] = Some r /\
    RealData.pr_items r = RealData.Charges l /\
    RealData.sm_count (RealData.pr_summary r) =
      PyFloat.PInt (Z.of_nat (List.length
        (filter (fun c => RealData.status_is (RealData.ch_status c) "succeeded") l))).
Proof.
  eexists.
  destruct (X17_stripe_record_consistent Samples.now
    [Samples.stripe_charge "ch_1" 7500; Samples.stripe_charge "ch_2" 2500] _ eq_refl)
    as [l [I [_ [_ [C _]]]]].
  exists l. split; [reflexivity|]. split; [exact I | exact C].
Defined.

(** X18. A live Facebook record lists one campaign for each campaign of
    the answer; its total of conversions is the sum of the conversions of
    the listed campaigns, an int, its total spend is the sum of their
    spends added in order, and its average cost is the int 0 when there
    is no conversion and the total spend divided by the conversions
    otherwise. *)
Theorem X18_facebook_record_consistent (now : string) (data : list RealData.fb_campaign)
  (r : RealData.platform_record) :
  RealData.fb_process now data = Some r ->
  exists l,
    let k := fold_left Z.add (map RealData.c_conversions l) 0 in
    RealData.pr_items r = RealData.Campaigns l /\
    List.length l = List.length data /\
    RealData.sm_count (RealData.pr_summary r) = PyFloat.PInt k /\
    RealData.sm_total (RealData.pr_summary r) =
      fold_left PrimFloat.add (map RealData.c_spend l) 0%float /\
    (k <= 0 -> RealData.sm_average (RealData.pr_summary r) = PyFloat.PInt 0) /\
    (0 < k ->
     RealData.sm_average (RealData.pr_summary r) =
       PyFloat.PFloat (PrimFloat.div (RealData.sm_total (RealData.pr_summary r))
                                     (PyFloat.of_Z k))).
Proof.
  unfold RealData.fb_process.
  destruct (RealData.loop RealData.fb_step RealData.acc0 data) as [a|] eqn:L;
    [|discriminate].
  intros S. apply success_summary in S. destruct S as [I [T [C [A _]]]].
  destruct (fb_loop data RealData.acc0 a 0 L eq_refl) as [l [Il [Len [Cn Tl]]]].
  simpl in Il, Tl. exists l. cbv zeta.
  rewrite I, T, C, Il, Cn, Tl. rewrite Cn, Tl in A. simpl Z.add in *.
  apply average_of_int in A. destruct A as [A0 A1].
  repeat split; auto.
Qed.

Lemma X18_facebook_record_consistent_witness :
  exists r l,
    RealData.fb_process Samples.now
      [{| RealData.fb_campaign_name := Some "Spring"%string;
          RealData.fb_spend := Some (PyFloat.JStrReal 120.5%float);
          RealData.fb_clicks := Some (PyFloat.JStrInt 40);
          RealData.fb_actions :=
            [{| RealData.fa_action_type := Some "lead"%string;
                RealData.fa_value := Some (PyFloat.JStrInt 3) |};
             {| RealData.fa_action_type := Some "link_click"%string;
                RealData.fa_value := Some (PyFloat.JStrInt 40) |};
             {| RealData.fa_action_type := Some "purchase"%string;
                RealData.fa_value := Some (PyFloat.JStrInt 2) |}] |}] = Some r /\
    RealData.pr_items r = RealData.Campaigns l /\
    RealData.sm_count (RealData.pr_summary r) = PyFloat.PInt 5.
Proof.
  eexists.
  destruct (X18_facebook_record_consistent Samples.now
    [{| RealData.fb_campaign_name := Some "Spring"%string;
          RealData.fb_spend := Some (PyFloat.JStrReal 120.5%float);
          RealData.fb_clicks := Some (PyFloat.JStrInt 40);
          RealData.fb_actions :=
            [{| RealData.fa_action_type := Some "lead"%string;
                RealData.fa_value := Some (PyFloat.JStrInt 3) |};
             {| RealData.fa_action_type := Some "link_click"%string;
                RealData.fa_value := Some (PyFloat.JStrInt 40) |};
             {| RealData.fa_action_type := Some "purchase"%string;
                RealData.fa_value := Some (PyFloat.JStrInt 2) |}] |}] _ eq_refl)
    as [l [I [_ [C _]]]].
  exists l. split; [reflexivity|]. split; [exact I|].
  rewrite C. simpl in I. injection I as <-. reflexivity.
Defined.

(** ** [square_booking_service.py]: the fresh service, bookings and values *)

Section BookingValueFacts.

Import PyStr SquareBooking.
Local Open Scope Q_scope.

(** Every price the estimate adds is between 25 and 75. *)
Lemma segment_price_range (s : segment) (p : Q) :
  segment_price s = Some p -> 25 <= p /\ p <= 75.
Proof.
  destruct s as [[[q| |]|]|]; simpl; try discriminate;
    intros [= <-]; unfold price_beard_trim, price_haircut, price_full_service;
    repeat match goal with |- context [if ?b then _ else _] => destruct b end;
    split; discriminate.
Qed.

Lemma sum_segments_range (l : list segment) :
  forall t v, sum_segments t l = Some v ->
    t + 25 * inject_Z (Z.of_nat (List.length l)) <= v /\
    v <= t + 75 * inject_Z (Z.of_nat (List.length l)).
Proof.
  induction l as [|s r IH]; intros t v H.
  - simpl in H. injection H as <-.
    change (inject_Z (Z.of_nat (List.length (@nil segment)))) with 0. split; lra.
  - simpl in H. destruct (segment_price s) as [p|] eqn:P; [|discriminate].
    apply segment_price_range in P. apply IH in H.
    change (List.length (s :: r)) with (S (List.length r)).
    rewrite Nat2Z.inj_succ. unfold Z.succ. rewrite inject_Z_plus.
    change (inject_Z 1) with 1. lra.
Qed.

Lemma py_max_cases (a b : Q) :
  (b <= a /\ py_max a b = a) \/ (a < b /\ py_max a b = b).
Proof.
  unfold py_max. destruct (Qle_bool b a) eqn:E.
  - left. split; [now apply Qle_bool_iff | reflexivity].
  - right. split; [|reflexivity].
    apply Qnot_le_lt. intros H. apply Qle_bool_iff in H. congruence.
Qed.

End BookingValueFacts.

(** X19. On the service as [__init__] builds it, which sets no [client],
    no webhook ever gets attribution data prepared: a handled webhook that
    names a customer is answered [False] (the customer lookup raises on
    the missing attribute), as is one without a booking id, and every
    other one is answered [True] without identifiers to hash;
    [is_configured] never answers [True], and raises exactly when an
    access token is configured; the two booking queries raise. *)
Theorem X19_fresh_service_prepares_nothing (env env' : environ)
  (w : SquareBooking.webhook) :
  let svc := SquareBooking.init env' in
  snd (SquareBooking.process_booking_webhook env svc w) = None /\
  (fst (SquareBooking.process_booking_webhook env svc w) = false <->
   SquareBooking.handled_type (SquareBooking.wh_type w) = true /\
   (PyStr.truthy (SquareBooking.wh_id w) = false \/
    PyStr.truthy (SquareBooking.wh_customer_id w) = true)) /\
  SquareMetrics.is_configured svc <> Some true /\
  (SquareMetrics.is_configured svc = None <->
   PyStr.truthy (env' "SQUARE_ACCESS_TOKEN"%string) = true) /\
  (forall location_id days,
     SquareMetrics.get_recent_bookings svc location_id days = None) /\
  (forall location_id, SquareMetrics.get_business_metrics svc location_id = None).
Proof.
  intros svc. subst svc.
  unfold SquareBooking.process_booking_webhook, SquareMetrics.is_configured,
    SquareBooking.get_customer_details, SquareBooking._process_for_attribution.
  cbn [SquareBooking.init SquareBooking.sv_client SquareBooking.sv_access_token
       SquareBooking.bi_customer SquareBooking.email_address
       SquareBooking.phone_number].
  split; [|split; [|split; [|split; [|split]]]].
  - destruct (SquareBooking.handled_type _); [|reflexivity].
    destruct (SquareBooking.wh_id w) as [[|c r]|]; try reflexivity.
    destruct (SquareBooking.wh_customer_id w) as [[|c' r']|]; reflexivity.
  - destruct (SquareBooking.handled_type _);
      destruct (SquareBooking.wh_id w) as [[|c r]|];
      destruct (SquareBooking.wh_customer_id w) as [[|c' r']|]; simpl;
      (split; [intros H; try discriminate H; auto
              | intros [H1 [H2|H2]]; try discriminate; reflexivity]).
  - destruct (PyStr.truthy _); discriminate.
  - destruct (PyStr.truthy _); split; intros H; try discriminate H; reflexivity.
  - reflexivity.
  - reflexivity.
Qed.


(** X21. When every segment of a booking can be priced, the sum of the
    prices lies between 25 and 75 times the number of segments, and the
    estimated value is that sum unless the sum is below 35, in which case
    it is 35; with two segments or more the floor of 35 plays no part. *)
Theorem X21_booking_value_bounds (info : SquareBooking.booking_info)
  (l : list SquareBooking.segment) (total : Q) :
  SquareBooking.bi_service_details info = SquareBooking.SdList l ->
  SquareBooking.sum_segments 0 l = Some total ->
  let n := inject_Z (Z.of_nat (List.length l)) in
  let v := SquareBooking._calculate_booking_value info in
  (25 * n <= total /\ total <= 75 * n)%Q /\
  (v == total \/ (total < 35 /\ v = 35))%Q /\
  (35 <= v)%Q /\ (25 * n <= v)%Q /\
  ((2 <= List.length l)%nat -> v == total)%Q.
Proof.
  intros D S n v. subst n v.
  unfold SquareBooking._calculate_booking_value, SquareBooking.booking_value_try.
  rewrite D, S.
  pose proof (sum_segments_range l 0 total S) as [Lo Hi].
  assert (Lo' : (25 * inject_Z (Z.of_nat (List.length l)) <= total)%Q) by lra.
  assert (Hi' : (total <= 75 * inject_Z (Z.of_nat (List.length l)))%Q) by lra.
  split; [split; assumption|].
  destruct (py_max_cases total 35) as [[G ->]|[G ->]].
  - split; [left; reflexivity|]. split; [exact G|]. split; [exact Lo'|].
    intros _. reflexivity.
  - split; [right; split; [exact G | reflexivity]|].
    split; [apply Qle_refl|]. split; [lra|].
    intros N. exfalso.
    assert (2 <= inject_Z (Z.of_nat (List.length l)))%Q.
    { change 2%Q with (inject_Z 2). rewrite <- Zle_Qle. lia. }
    lra.
Qed.

Lemma X21_booking_value_bounds_witness :
  (SquareBooking._calculate_booking_value
    {| SquareBooking.bi_booking_id := "bk2"; SquareBooking.bi_customer_id := None;
       SquareBooking.bi_customer := None;
       SquareBooking.bi_service_details :=
         SquareBooking.SdList
           [SquareBooking.SegDict (Some (SquareBooking.VNum 20));
            SquareBooking.SegDict (Some (SquareBooking.VNum 90))] |} == 100)%Q.
Proof.
  destruct (X21_booking_value_bounds
    {| SquareBooking.bi_booking_id := "bk2"; SquareBooking.bi_customer_id := None;
       SquareBooking.bi_customer := None;
       SquareBooking.bi_service_details :=
         SquareBooking.SdList
           [SquareBooking.SegDict (Some (SquareBooking.VNum 20));
            SquareBooking.SegDict (Some (SquareBooking.VNum 90))] |}
    _ _ eq_refl eq_refl) as [_ [_ [_ [_ H]]]].
  rewrite H; [reflexivity | simpl; lia].
Defined.

(** ** [main.py]: cache statistics; [data_integration.py]: the token test *)

Section MetricsFacts.

Import PyDict Server Metrics.
Local Open Scope Q_scope.

(** [min] is below every item, and is one of them. *)
Lemma py_min_list_le (l : list Q) (x : Q) : In x l -> py_min_list l <= x.
Proof.
  induction l as [|y r IH]; [intros []|].
  intros I. destruct r as [|z r'].
  - destruct I as [<-|[]]. apply Qle_refl.
  - change (py_min_list (y :: z :: r'))
      with (let m := py_min_list (z :: r') in if Qlt_le_dec m y then m else y).
    cbv zeta. destruct (Qlt_le_dec (py_min_list (z :: r')) y) as [L|G].
    + destruct I as [<-|I]; [now apply Qlt_le_weak | now apply IH].
    + destruct I as [<-|I]; [apply Qle_refl|].
      apply Qle_trans with (py_min_list (z :: r')); [exact G | now apply IH].
Qed.

Lemma py_min_list_in (l : list Q) : l <> [] -> In (py_min_list l) l.
Proof.
  induction l as [|y r IH]; [congruence|]. intros _.
  destruct r as [|z r']; [now left|].
  change (py_min_list (y :: z :: r'))
    with (let m := py_min_list (z :: r') in if Qlt_le_dec m y then m else y).
  cbv zeta. destruct (Qlt_le_dec (py_min_list (z :: r')) y).
  - right. apply IH. discriminate.
  - now left.
Qed.

Lemma get_in {V} (d : dict V) (k : string) (v : V) : get d k = Some v -> In (k, v) d.
Proof.
  induction d as [|[k' v'] r IH]; simpl; [discriminate|].
  destruct (String.eqb_spec k k') as [->|N].
  - intros [= ->]. now left.
  - intros H. right. now apply IH.
Qed.

Lemma in_get {V} (d : dict V) (k : string) (v : V) :
  NoDup (keys d) -> In (k, v) d -> get d k = Some v.
Proof.
  induction d as [|[k' v'] r IH]; simpl; [intros _ []|].
  intros N I. inversion N as [|? ? Nk Nr]; subst.
  destruct I as [[= -> ->]|I].
  - now rewrite String.eqb_refl.
  - destruct (String.eqb_spec k k') as [->|_]; [|now apply IH].
    exfalso. apply Nk. unfold keys. apply in_map_iff. now exists (k', v).
Qed.

End MetricsFacts.

(** X24. The figure [get_performance_metrics] reports as the age of the
    oldest cache entry is the smallest age: it is below the age of every
    entry, and it is the age of one of them, the newest. After
    [clear_cache], which reports the number of entries it cleared, the
    statistics show an empty cache, the counters of the rate limiter are
    as before, and every cache lookup misses. *)
Theorem X24_cache_statistics {V : Type} (s : Server.stores V) (now : Q) :
  let m := Metrics.get_performance_metrics s now in
  (forall k t, PyDict.get (Server.cache_ttl s) k = Some t ->
     (Metrics.oldest_entry_age_seconds m <= now - t)%Q) /\
  (Server.cache_ttl s <> [] -> NoDup (PyDict.keys (Server.cache_ttl s)) ->
   exists k t, PyDict.get (Server.cache_ttl s) k = Some t /\
               Metrics.oldest_entry_age_seconds m = (now - t)%Q) /\
  (let s' := snd (Server.clear_cache s) in
   let m' := Metrics.get_performance_metrics s' now in
   fst (Server.clear_cache s) = Metrics.total_entries m /\
   Metrics.total_entries m' = 0 /\ Metrics.oldest_entry_age_seconds m' = 0%Q /\
   Metrics.active_clients m' = Metrics.active_clients m /\
   Metrics.total_requests_tracked m' = Metrics.total_requests_tracked m /\
   forall t key ttl, Server.get_from_cache s' t key ttl = (None, s')).
Proof.
  intros m. subst m. unfold Metrics.get_performance_metrics. simpl.
  split; [|split].
  - intros k t G. apply py_min_list_le. apply get_in in G.
    apply in_map_iff. exists (k, t). auto.
  - intros NE ND.
    assert (I : In (Metrics.py_min_list
                      (map (fun kv => (now - snd kv)%Q) (Server.cache_ttl s)))
                   (map (fun kv => (now - snd kv)%Q) (Server.cache_ttl s))).
    { apply py_min_list_in. destruct (Server.cache_ttl s); [congruence | discriminate]. }
    apply in_map_iff in I. destruct I as [[k t] [E I]].
    exists k, t. split; [now apply in_get | now rewrite <- E].
  - repeat split.
Qed.

Lemma X24_cache_statistics_witness :
  exists k t,
    PyDict.get [("a", 100); ("b", 200)]%string%Q k = Some t /\
    Metrics.oldest_entry_age_seconds
      (Metrics.get_performance_metrics
         {| Server.cache := [("a", 1%Z); ("b", 2%Z)]%string;
            Server.cache_ttl := [("a", 100); ("b", 200)]%string%Q;
            Server.rate_limit_store := [] |} 300) = (300 - t)%Q.
Proof.
  apply (proj1 (proj2 (X24_cache_statistics
           {| Server.cache := [("a", 1%Z); ("b", 2%Z)]%string;
              Server.cache_ttl := [("a", 100); ("b", 200)]%string%Q;
              Server.rate_limit_store := [] |} 300))).
  - discriminate.
  - repeat constructor; simpl; intuition discriminate.
Defined.

Example newest_entry_reported_as_oldest :
  Metrics.oldest_entry_age_seconds
    (Metrics.get_performance_metrics
       {| Server.cache := [("a", 1%Z); ("b", 2%Z)]%string;
          Server.cache_ttl := [("a", 100); ("b", 200)]%string%Q;
          Server.rate_limit_store := [] |} 300) = 100%Q.
Proof. reflexivity. Qed.

Section TokenTestFacts.

Import RealData DataIntegration IntegrationTest.

Lemma task_if_platform (tok : option string) (platform : string)
  (call : string -> net_call) :
  (forall t, call_platform (call t) = platform) ->
  map call_platform (task_if tok call) = map fst (api_test platform tok).
Proof.
  intros H. unfold task_if, api_test. destruct tok as [t|]; [|reflexivity].
  destruct (PyStr.truthy (Some t)); [|reflexivity]. simpl. now rewrite H.
Qed.

End TokenTestFacts.

(** X25. The token test agrees with the aggregation on what is
    configured: it lists an API test for exactly the platforms the
    aggregation calls, in the same order, and it reports [demo_mode]
    exactly when the aggregation makes no call, which is exactly when the
    integration status is [demo_mode]. *)
Theorem X25_token_test_agrees_with_aggregation (env : environ)
  (net : RealData.network) (now business_id : string) :
  let t := IntegrationTest.test_real_integration_with_credentials env in
  let calls := snd (RealData.get_all_platform_data env net now) in
  let st := fst (DataIntegration.get_data_integration_status env net now business_id) in
  map fst (IntegrationTest.api_tests t) = map IntegrationTest.call_platform calls /\
  (IntegrationTest.overall_status t = "demo_mode"%string <-> calls = []) /\
  (IntegrationTest.overall_status t = "demo_mode"%string <->
   DataIntegration.integration_status st = "demo_mode"%string).
Proof.
  intros t calls st. subst t calls st.
  rewrite get_all_platform_data_calls.
  unfold IntegrationTest.test_real_integration_with_credentials.
  cbn [IntegrationTest.api_tests IntegrationTest.overall_status existsb].
  split; [|split].
  - rewrite !map_app.
    rewrite !(task_if_platform _ "facebook"), !(task_if_platform _ "google"),
      !(task_if_platform _ "square"), !(task_if_platform _ "stripe")
      by reflexivity.
    reflexivity.
  - unfold RealData.task_if.
    destruct (env "FACEBOOK_ACCESS_TOKEN"%string) as [[|? ?]|],
      (env "GOOGLE_ACCESS_TOKEN"%string) as [[|? ?]|],
      (env "SQUARE_ACCESS_TOKEN"%string) as [[|? ?]|],
      (env "STRIPE_ACCESS_TOKEN"%string) as [[|? ?]|]; simpl;
      split; intros H; try discriminate H; reflexivity.
  - unfold DataIntegration.get_data_integration_status.
    destruct (PyStr.truthy (env "FACEBOOK_ACCESS_TOKEN"%string)) eqn:F;
    destruct (PyStr.truthy (env "GOOGLE_ACCESS_TOKEN"%string)) eqn:G;
    destruct (PyStr.truthy (env "SQUARE_ACCESS_TOKEN"%string)) eqn:S;
    destruct (PyStr.truthy (env "STRIPE_ACCESS_TOKEN"%string)) eqn:T;
    cbn [orb];
    try (pose proof (no_credentials_demo_mode env net now business_id F G S T) as D;
         unfold DataIntegration.get_data_integration_status in D;
         destruct (RealData.get_all_platform_data env net now) as [d c];
         cbn [fst]; split; intros _; [apply D | reflexivity]);
    (destruct (RealData.get_all_platform_data env net now) as [d c]; cbn [fst];
     destruct (integration_status_cases env business_id d) as [I _];
     cbv zeta in I; rewrite I; cbn [existsb]; rewrite F, G, S, T; cbn [orb];
     split; intros H; [discriminate H|];
     repeat match type of H with
            | context [if ?b then _ else _] => destruct b
            end; discriminate H).
Qed.

(** ** [main.py]: campaign optimization *)

Section OptimizeFacts.

Import Main Campaigns.

(** What the draws can give. *)
Lemma choice_in {A} (l : list A) (t t' : tape) (a : A) :
  choice l t = Some (a, t') -> In a l.
Proof.
  unfold choice. destruct t as [|[i|q] r]; try discriminate.
  destruct (0 <=? i); [|discriminate].
  destruct (nth_error l (Z.to_nat i)) as [x|] eqn:N; [|discriminate].
  intros [= <- _]. eapply nth_error_In; eauto.
Qed.

Lemma randint_range (a b : Z) (t t' : tape) (z : Z) :
  randint a b t = Some (z, t') -> a <= z <= b.
Proof.
  unfold randint. destruct t as [|[x|q] r]; try discriminate.
  destruct ((a <=? x) && (x <=? b)) eqn:B; [|discriminate].
  intros [= <- _]. apply andb_true_iff in B. lia.
Qed.

Lemma recommend_count (goal : string) (t t' : tape) (recs : list recommendation) :
  recommend goal t = Some (recs, t') ->
  List.length recs =
    (if String.eqb goal "conversions" then 2
     else if String.eqb goal "revenue" then 1 else 0)%nat.
Proof.
  unfold recommend.
  destruct (String.eqb goal "conversions").
  - cbv [bind ret].
    destruct (randint 15 35 t) as [[? ?]|]; [|discriminate].
    destruct (randint 8 15 _) as [[? ?]|]; [|discriminate].
    destruct (uniform 85 95 _) as [[? ?]|]; [|discriminate].
    destruct (randint 12 22 _) as [[? ?]|]; [|discriminate].
    destruct (uniform 78 88 _) as [[? ?]|]; [|discriminate].
    now intros [= <- _].
  - destruct (String.eqb goal "revenue").
    + cbv [bind ret].
      destruct (randint 500 1200 t) as [[? ?]|]; [|discriminate].
      destruct (uniform 82 92 _) as [[? ?]|]; [|discriminate].
      now intros [= <- _].
    + now intros [= <- _].
Qed.

Lemma optimize_loop_spec (goal : string) (ids : list string) :
  forall (acc out : list optimization) (t t' : tape),
    optimize_loop goal ids acc t = Some (out, t') ->
    exists new,
      out = acc ++ new /\ map op_campaign_id new = ids /\
      Forall (fun o =>
                List.length (recommendations o) =
                  (if String.eqb goal "conversions" then 2
                   else if String.eqb goal "revenue" then 1 else 0)%nat /\
                recommended_attribution_model o =
                  (if String.eqb goal "revenue" then "time-decay" else "linear")%string /\
                In (top_converting_touchpoint o)
                   ["facebook_ads"; "google_search"; "instagram_ads"]%string /\
                8 <= op_conversions o <= 45)
             new.
Proof.
  induction ids as [|id rest IH]; intros acc out t t' H.
  - injection H as <- _. exists []. rewrite app_nil_r. auto.
  - simpl in H. cbv [bind] in H.
    destruct (uniform 500 3000 t) as [[spend t1]|]; [|discriminate].
    destruct (randint 8 45 t1) as [[conv t2]|] eqn:RC; [|discriminate].
    destruct (uniform 800 5000 t2) as [[rev t3]|]; [|discriminate].
    destruct (recommend goal t3) as [[recs t4]|] eqn:R; [|discriminate].
    destruct (choice _ t4) as [[top t5]|] eqn:C; [|discriminate].
    destruct (uniform 87 96 t5) as [[accu t6]|]; [|discriminate].
    apply IH in H. destruct H as [new [E [I F]]].
    eexists (_ :: new). rewrite E, <- app_assoc. split; [reflexivity|].
    split; [simpl; now rewrite I|].
    constructor; [|exact F].
    cbn [recommendations recommended_attribution_model top_converting_touchpoint
         op_conversions].
    split; [eapply recommend_count; eauto|]. split; [reflexivity|]. split.
    + eapply choice_in; eauto.
    + eapply randint_range; eauto.
Qed.

End OptimizeFacts.

(** X22. [optimize_campaigns] answers 400, without drawing, exactly when
    the goal is not one of the four valid goals (here the handler lets its
    own 400 through); otherwise every answer lists one optimization for
    each campaign id, in order, each with two recommendations for the
    goal [conversions], one for [revenue] and none for [roas] and
    [cost_per_acquisition], and recommends the model [time-decay] exactly
    for the goal [revenue]. *)
Theorem X22_optimize_campaigns_answers (now : Z)
  (request : Campaigns.CampaignOptimizationRequest) (t : Main.tape) :
  let goal := Campaigns.optimization_goal request in
  match Campaigns.optimize_campaigns now request t with
  | None => In goal Campaigns.valid_goals
  | Some (Main.HTTPException code _, t') =>
      ~ In goal Campaigns.valid_goals /\ code = 400 /\ t' = t
  | Some (Main.Ok r, _) =>
      In goal Campaigns.valid_goals /\
      map Campaigns.op_campaign_id (Campaigns.optimizations r) =
        Campaigns.campaign_ids request /\
      Campaigns.total_campaigns_analyzed r =
        Z.of_nat (List.length (Campaigns.optimizations r)) /\
      Forall (fun o =>
                List.length (Campaigns.recommendations o) =
                  (if String.eqb goal "conversions" then 2
                   else if String.eqb goal "revenue" then 1 else 0)%nat /\
                Campaigns.recommended_attribution_model o =
                  (if String.eqb goal "revenue" then "time-decay" else "linear")%string /\
                In (Campaigns.top_converting_touchpoint o)
                   ["facebook_ads"; "google_search"; "instagram_ads"]%string /\
                8 <= Campaigns.op_conversions o <= 45)
             (Campaigns.optimizations r)
  end.
Proof.
  intros goal. unfold Campaigns.optimize_campaigns. fold goal.
  assert (V : Scorer.string_in goal Campaigns.valid_goals = true <->
              In goal Campaigns.valid_goals).
  { unfold Scorer.string_in. rewrite existsb_exists. split.
    - intros [x [I E]]. apply String.eqb_eq in E. now subst.
    - intros I. exists goal. split; [exact I | apply String.eqb_refl]. }
  destruct (Scorer.string_in goal Campaigns.valid_goals) eqn:G; simpl.
  - assert (I : In goal Campaigns.valid_goals) by now apply V.
    cbv [Main.bind Main.ret].
    destruct (Campaigns.optimize_loop goal (Campaigns.campaign_ids request) [] t)
      as [[out t1]|] eqn:L; [|exact I].
    destruct (Main.randint 18 35 t1) as [[imp t2]|]; [|exact I].
    destruct (Main.uniform 5 12 t2) as [[lift t3]|]; [|exact I].
    apply optimize_loop_spec in L. destruct L as [new [E [Ids F]]].
    simpl in E. subst out. simpl.
    split; [exact I|]. split; [exact Ids|]. split; [|exact F].
    now rewrite <- Ids, length_map.
  - split; [|split; reflexivity].
    intros I. apply V in I. discriminate.
Qed.

Example optimize_campaigns_revenue :
  exists r,
    Campaigns.optimize_campaigns 20240501120000 (Campaigns.demo_optimization "revenue")
      Campaigns.revenue_tape = Some (Main.Ok r, []) /\
    map (fun o => List.length (Campaigns.recommendations o)) (Campaigns.optimizations r)
    = [1; 1]%nat /\
    Campaigns.optimize_campaigns 20240501120000 (Campaigns.demo_optimization "clicks")
      Campaigns.revenue_tape
    = Some (Main.HTTPException 400
              "Invalid optimization goal. Must be one of: ['conversions', 'revenue', 'roas', 'cost_per_acquisition']",
            Campaigns.revenue_tape).
Proof. eexists. split; [vm_compute; reflexivity|]. split; reflexivity. Qed.

(** ** [main.py]: campaign performance *)

Section PerformanceFacts.

Import PyFloat PyNum RealData Campaigns.

Lemma fold_add_from (l : list Z) (z : Z) :
  fold_left Z.add l z = z + fold_left Z.add l 0.
Proof.
  revert z. induction l as [|x r IH]; intros z; simpl; [lia|].
  rewrite (IH (z + x)), (IH x). lia.
Qed.

(** What a loop over the campaigns of one platform adds. *)
Lemma perf_loop_spec (tag : string) (data : platform_record) (l : list campaign) :
  forall (a : perf_acc) (i : Z),
    let a' := perf_loop tag data a i l in
    exists new,
      pa_campaigns a' = pa_campaigns a ++ new /\
      map pc_id new =
        map (fun k => (tag, i + Z.of_nat k + 1)) (seq 0 (List.length l)) /\
      map pc_name new = map c_name l /\
      map pc_platform new = map c_platform l /\
      map pc_conversions new = map c_conversions l /\
      pa_total_conversions a' =
        pa_total_conversions a + fold_left Z.add (map c_conversions l) 0 /\
      pa_active_campaigns a' = pa_active_campaigns a + Z.of_nat (List.length l) /\
      List.length (pa_attribution_scores a') =
        (List.length (pa_attribution_scores a) + List.length l)%nat.
Proof.
  induction l as [|c r IH]; intros a i; cbv zeta.
  - exists []. simpl. rewrite app_nil_r, !Z.add_0_r, Nat.add_0_r. repeat split.
  - destruct (IH (perf_step tag data a i c) (i + 1))
      as [new [C [Ids [Ns [Ps [Cs [Tc [Ac Sc]]]]]]]].
    cbv zeta in *. cbn [perf_loop].
    eexists (_ :: new). rewrite C. cbn [perf_step pa_campaigns].
    rewrite <- app_assoc. split; [reflexivity|].
    cbn [map List.length seq pc_id pc_name pc_platform pc_conversions].
    rewrite Ids, Ns, Ps, Cs, Tc, Ac, Sc.
    cbn [perf_step pa_total_conversions pa_active_campaigns pa_attribution_scores].
    rewrite <- seq_shift, map_map, length_app. cbn [List.length].
    repeat split.
    + f_equal; [f_equal; lia|]. apply map_ext. intros k. f_equal. lia.
    + cbn [fold_left]. rewrite (fold_add_from _ (0 + c_conversions c)). lia.
    + lia.
    + lia.
Qed.

Lemma sum_floats_float (x : float) (l : list float) :
  exists f, sum_floats (x :: l) = PFloat f.
Proof.
  unfold sum_floats. cbn [fold_left].
  generalize (PrimFloat.add (of_Z 0) x). induction l as [|y r IH]; intros f.
  - now exists f.
  - cbn [fold_left]. apply IH.
Qed.

End PerformanceFacts.

(** X23. The campaign report lists the campaigns found under the key
    [facebook] and then those under [google], numbered from 1 within each
    key and named after the key (not after the platform of the record);
    the number of active campaigns is the number listed, the total is
    always five more, the conversions are the sum of those listed, and the
    data source is [real_api_integration] whatever the status of the
    records. The demo report of the handler is returned only if the number
    of campaigns does not fit a float. *)
Theorem X23_campaign_performance_summary (env : environ) (net : RealData.network)
  (now : string) :
  let d := fst (RealData.get_all_platform_data env net now) in
  let fb := Campaigns.campaigns_of (RealData.facebook d) in
  let g := Campaigns.campaigns_of (RealData.google d) in
  snd (Campaigns.get_campaign_performance env net now) =
    snd (RealData.get_all_platform_data env net now) /\
  match fst (Campaigns.get_campaign_performance env net now) with
  | Campaigns.LivePerformance p =>
      map Campaigns.pc_id (Campaigns.campaigns p) =
        map (fun k => ("facebook"%string, Z.of_nat k + 1)) (seq 0 (List.length fb))
        ++ map (fun k => ("google"%string, Z.of_nat k + 1)) (seq 0 (List.length g)) /\
      map Campaigns.pc_name (Campaigns.campaigns p) = map RealData.c_name (fb ++ g) /\
      map Campaigns.pc_platform (Campaigns.campaigns p) =
        map RealData.c_platform (fb ++ g) /\
      Campaigns.active_campaigns p = Z.of_nat (List.length (Campaigns.campaigns p)) /\
      Campaigns.total_campaigns p = Campaigns.active_campaigns p + 5 /\
      Campaigns.perf_total_conversions p =
        fold_left Z.add (map Campaigns.pc_conversions (Campaigns.campaigns p)) 0 /\
      Campaigns.perf_data_source p = "real_api_integration"%string /\
      Campaigns.facebook_status p = RealData.status (RealData.facebook d)
  | Campaigns.DemoPerformance =>
      PyFloat.is_finite (PyFloat.of_Z (Z.of_nat (List.length (fb ++ g)))) = false
  end.
Proof.
  intros d fb g. subst d fb g. unfold Campaigns.get_campaign_performance.
  destruct (RealData.get_all_platform_data env net now) as [d calls].
  cbn [fst snd]. unfold Campaigns.performance_of.
  destruct (perf_loop_spec "facebook" (RealData.facebook d)
              (Campaigns.campaigns_of (RealData.facebook d))
              {| Campaigns.pa_campaigns := []; Campaigns.pa_total_spend := 0%float;
                 Campaigns.pa_total_conversions := 0;
                 Campaigns.pa_total_recovery_value := 0%float;
                 Campaigns.pa_attribution_scores := [];
                 Campaigns.pa_active_campaigns := 0 |} 0)
    as [n1 [C1 [I1 [N1 [P1 [V1 [T1 [A1 S1]]]]]]]].
  cbv zeta in *.
  set (a1 := Campaigns.perf_loop "facebook" _ _ 0 _) in *.
  destruct (perf_loop_spec "google" (RealData.google d)
              (Campaigns.campaigns_of (RealData.google d)) a1 0)
    as [n2 [C2 [I2 [N2 [P2 [V2 [T2 [A2 S2]]]]]]]].
  cbv zeta in *.
  set (a2 := Campaigns.perf_loop "google" _ a1 0 _) in *.
  cbn [Campaigns.pa_campaigns Campaigns.pa_total_conversions
       Campaigns.pa_active_campaigns Campaigns.pa_attribution_scores
       List.length app] in *.
  assert (L : List.length (Campaigns.pa_attribution_scores a2) =
              List.length (Campaigns.campaigns_of (RealData.facebook d)
                           ++ Campaigns.campaigns_of (RealData.google d)))
    by (rewrite S2, S1, length_app; reflexivity).
  assert (Len : forall A B (f : A -> B) l l', map f l = l' ->
                  List.length l = List.length l')
    by (intros A B f l l' <-; now rewrite length_map).
  destruct (Campaigns.pa_attribution_scores a2) as [|x scores] eqn:Sc.
  - split; [reflexivity|]. cbn [fst Campaigns.campaigns Campaigns.active_campaigns
      Campaigns.total_campaigns Campaigns.perf_total_conversions
      Campaigns.perf_data_source Campaigns.facebook_status].
    rewrite C2, C1. cbn [app]. rewrite !map_app, I1, I2, N1, N2, P1, P2, V1, V2.
    rewrite A2, A1, T2, T1, length_app, fold_left_app.
    rewrite (fold_add_from _ (fold_left Z.add _ 0)).
    rewrite (Len _ _ _ _ _ V1), (Len _ _ _ _ _ V2), !length_map.
    repeat split; try (f_equal; apply map_ext; intros; f_equal; lia); lia.
  - destruct (sum_floats_float x scores) as [f F]. rewrite F.
    unfold PyNum.div_by_int, PyFloat.to_float.
    cbn [List.length] in L.
    destruct (Z.eqb_spec (Z.of_nat (S (List.length scores))) 0) as [Z0|_]; [lia|].
    rewrite L.
    destruct (PyFloat.is_finite _) eqn:Fin; [|split; reflexivity].
    split; [reflexivity|]. cbn [fst Campaigns.campaigns Campaigns.active_campaigns
      Campaigns.total_campaigns Campaigns.perf_total_conversions
      Campaigns.perf_data_source Campaigns.facebook_status].
    rewrite C2, C1. cbn [app]. rewrite !map_app, I1, I2, N1, N2, P1, P2, V1, V2.
    rewrite A2, A1, T2, T1, length_app, fold_left_app.
    rewrite (fold_add_from _ (fold_left Z.add _ 0)).
    rewrite (Len _ _ _ _ _ V1), (Len _ _ _ _ _ V2), !length_map.
    repeat split; try (f_equal; apply map_ext; intros; f_equal; lia); lia.
Qed.

Example campaign_performance_google_only :
  exists p,
    fst (Campaigns.get_campaign_performance
           (Samples.env_of [("GOOGLE_ACCESS_TOKEN", "g-1")]%string)
           Samples.live_network Samples.now) = Campaigns.LivePerformance p /\
    map (fun c => (Campaigns.pc_id c, Campaigns.pc_platform c)) (Campaigns.campaigns p) =
      [(("facebook", 1), "Google Ads"); (("google", 1), "Google Ads")]%string /\
    Campaigns.total_campaigns p = 7.
Proof. eexists. split; [vm_compute; reflexivity|]. split; reflexivity. Qed.

(** ** [real_data_service.py]: the live Google record *)

Section GoogleRecordFacts.

Import PyFloat RealData.

(** The Google loop: the raw conversions are added as floats, and listed
    as ints. *)
Lemma g_loop (data : list g_result) :
  forall (a a' : acc campaign),
    loop g_step a data = Some a' ->
    exists l raws,
      acc_items a' = acc_items a ++ l /\
      Forall2 (fun row f => py_float (get0 (g_conversions row)) = Some f) data raws /\
      Forall2 (fun f c => trunc f = Some (c_conversions c)) raws l /\
      acc_total a' = fold_left PrimFloat.add (map c_spend l) (acc_total a) /\
      match raws with
      | [] => acc_count a' = acc_count a
      | f :: rest =>
          exists x, to_float (acc_count a) = Some x /\
                    acc_count a' = PFloat (fold_left PrimFloat.add raws x)
      end.
Proof.
  induction data as [|row rest IH]; intros a a' H.
  - simpl in H. injection H as <-. exists [], []. rewrite app_nil_r.
    repeat split; constructor.
  - simpl in H. destruct (g_step a row) as [a1|] eqn:S; [|discriminate].
    unfold g_step in S.
    destruct (micros_to_dollars (get0 (g_costMicros row))) as [spend|]; [|discriminate].
    destruct (py_int (get0 (g_clicks row))) as [clicks|]; [|discriminate].
    destruct (py_float (get0 (g_conversions row))) as [cv|] eqn:CV; [|discriminate].
    destruct (trunc cv) as [iconv|] eqn:T; [|discriminate].
    destruct (average spend (PFloat cv)) as [cpc|]; [|discriminate].
    destruct (add_float (acc_count a) cv) as [count|] eqn:A; [|discriminate].
    injection S as <-.
    destruct (IH _ a' H) as [l [raws [I [R1 [R2 [Tl Cn]]]]]].
    cbn [acc_items acc_total acc_count] in I, Tl, Cn.
    eexists (_ :: l), (cv :: raws). rewrite I, <- app_assoc.
    split; [reflexivity|]. split; [constructor; assumption|].
    split; [constructor; [exact T | exact R2]|].
    split; [exact Tl|].
    unfold add_float in A. destruct (to_float (acc_count a)) as [x|]; [|discriminate].
    injection A as <-. exists x. split; [reflexivity|].
    destruct raws as [|f raws'].
    + rewrite Cn. reflexivity.
    + destruct Cn as [y [Y Cn]]. simpl in Y. injection Y as <-. exact Cn.
Qed.

End GoogleRecordFacts.

(** X26. A live Google record lists one campaign for each row of the
    answer, with the raw conversions of the row truncated to an int; its
    total of conversions is the sum of the raw conversions, a float as
    soon as there is a row, so that it need not be the sum of the
    conversions listed; its total spend is the sum of the spends listed,
    added in order. *)
Theorem X26_google_record_consistent (now : string) (data : list RealData.g_result)
  (r : RealData.platform_record) :
  RealData.g_process now data = Some r ->
  exists l raws,
    RealData.pr_items r = RealData.Campaigns l /\
    Forall2 (fun row f =>
               PyFloat.py_float (PyFloat.get0 (RealData.g_conversions row)) = Some f)
            data raws /\
    Forall2 (fun f c => PyFloat.trunc f = Some (RealData.c_conversions c)) raws l /\
    RealData.sm_total (RealData.pr_summary r) =
      fold_left PrimFloat.add (map RealData.c_spend l) 0%float /\
    RealData.sm_count (RealData.pr_summary r) =
      match raws with
      | [] => PyFloat.PInt 0
      | _ => PyFloat.PFloat (fold_left PrimFloat.add raws 0%float)
      end.
Proof.
  unfold RealData.g_process.
  destruct (RealData.loop RealData.g_step RealData.acc0 data) as [a|] eqn:L;
    [|discriminate].
  intros S. apply success_summary in S. destruct S as [I [T [C _]]].
  destruct (g_loop data RealData.acc0 a L) as [l [raws [Il [R1 [R2 [Tl Cn]]]]]].
  simpl in Il, Tl. exists l, raws. rewrite I, T, C, Il, Tl.
  repeat split; auto.
  destruct raws as [|f rest]; [exact Cn|].
  destruct Cn as [x [X ->]]. vm_compute in X. injection X as <-. reflexivity.
Qed.

Lemma X26_google_record_consistent_witness :
  exists r,
    RealData.g_process Samples.now
      [{| RealData.g_campaign_name := Some "A"%string;
          RealData.g_costMicros := Some (PyFloat.JStrInt 1000000);
          RealData.g_clicks := Some (PyFloat.JStrInt 10);
          RealData.g_conversions := Some (PyFloat.JReal 0.5%float) |};
       {| RealData.g_campaign_name := Some "B"%string;
          RealData.g_costMicros := Some (PyFloat.JStrInt 2000000);
          RealData.g_clicks := Some (PyFloat.JStrInt 20);
          RealData.g_conversions := Some (PyFloat.JReal 0.5%float) |}] = Some r /\
    RealData.sm_count (RealData.pr_summary r) = PyFloat.PFloat 1%float /\
    exists l, RealData.pr_items r = RealData.Campaigns l /\
              map RealData.c_conversions l = [0; 0].
Proof.
  eexists.
  destruct (X26_google_record_consistent Samples.now
    [{| RealData.g_campaign_name := Some "A"%string;
          RealData.g_costMicros := Some (PyFloat.JStrInt 1000000);
          RealData.g_clicks := Some (PyFloat.JStrInt 10);
          RealData.g_conversions := Some (PyFloat.JReal 0.5%float) |};
       {| RealData.g_campaign_name := Some "B"%string;
          RealData.g_costMicros := Some (PyFloat.JStrInt 2000000);
          RealData.g_clicks := Some (PyFloat.JStrInt 20);
          RealData.g_conversions := Some (PyFloat.JReal 0.5%float) |}] _ eq_refl)
    as [l [raws [I _]]].
  split; [reflexivity|]. split; [reflexivity|].
  exists l. split; [exact I|].
  simpl in I. injection I as <-. reflexivity.
Defined.
